(** * Snakepit: the four-phase package handler and its validation framework

    A shallow embedding of [snakepit_handler.py] (the lifecycle controller
    [SnakepitHandler]) and of [validation_framework.py] (test-script
    generation, the generated driver's scoring, and the security scan),
    with the callers of the controller in [smart_snakepit.py] and
    [snakepit_cli.py], followed by the properties of the specification
    that concern them and by further properties read off the code.

    Conventions of the embedding.
    - Python objects that are shared by reference live in a store: every
      [PackageMetadata] object has an address in [records], every [dict]
      object that maps package names to records has an address in [dicts];
      [self.active_packages] is such an address.
    - Everything the handler asks of the outside world (clock, uuid, child
      processes, file removal, the history file) is answered by an
      environment record passed to the operation; an exception is carried
      as its text [str(e)].
    - [status_trace] is a ghost field: the sequence of values ever assigned
      to [status], in order.  The code keeps no such field; it is only
      what the lifecycle properties talk about. *)

From Stdlib Require Import ZArith NArith Ascii Floats.
From stdpp Require Import gmap strings list fin_maps.

Open Scope string_scope.

(* ===================================================================== *)
(** * snakepit_handler.py                                                 *)
(* ===================================================================== *)

Module Handler.

(** ** Data model *)

Inductive PackageStatus :=
| PENDING | INGESTING | TESTING | COLLABORATING
| FAILED | APPROVED | CONSCRIPTED | DESTROYED.

#[global] Instance PackageStatus_eq_dec : EqDecision PackageStatus.
Proof. solve_decision. Defined.

(** [PackageStatus.<X>.value] *)
Definition status_value (s : PackageStatus) : string :=
  match s with
  | PENDING => "pending"
  | INGESTING => "ingesting"
  | TESTING => "testing"
  | COLLABORATING => "collaborating"
  | FAILED => "failed"
  | APPROVED => "approved"
  | CONSCRIPTED => "conscripted"
  | DESTROYED => "destroyed"
  end.

(** Values stored in [validation_results] (a [Dict[str, Any]] that only ever
    receives strings and a return code). *)
Inductive value :=
| VStr (s : string)
| VInt (n : Z).

Record PackageMetadata := mkMeta {
  name : string;
  version : string;
  status : PackageStatus;
  ingest_time : float;
  test_time : option float;
  install_time : option float;
  sandbox_id : string;
  test_script : option string;
  error_log : list string;
  success_log : list string;
  dependencies : list string;
  validation_results : gmap string value;
  status_trace : list PackageStatus  (* ghost *)
}.

(** [pkg_meta.status = s] *)
Definition set_status (s : PackageStatus) (r : PackageMetadata) : PackageMetadata :=
  mkMeta (name r) (version r) s (ingest_time r) (test_time r) (install_time r)
         (sandbox_id r) (test_script r) (error_log r) (success_log r)
         (dependencies r) (validation_results r) (status_trace r ++ [s]).

(** [pkg_meta.error_log.append(msg)] *)
Definition add_error (msg : string) (r : PackageMetadata) : PackageMetadata :=
  mkMeta (name r) (version r) (status r) (ingest_time r) (test_time r) (install_time r)
         (sandbox_id r) (test_script r) (error_log r ++ [msg]) (success_log r)
         (dependencies r) (validation_results r) (status_trace r).

(** [pkg_meta.success_log.append(msg)] *)
Definition add_success (msg : string) (r : PackageMetadata) : PackageMetadata :=
  mkMeta (name r) (version r) (status r) (ingest_time r) (test_time r) (install_time r)
         (sandbox_id r) (test_script r) (error_log r) (success_log r ++ [msg])
         (dependencies r) (validation_results r) (status_trace r).

(** [pkg_meta.test_time = t] *)
Definition set_test_time (t : float) (r : PackageMetadata) : PackageMetadata :=
  mkMeta (name r) (version r) (status r) (ingest_time r) (Some t) (install_time r)
         (sandbox_id r) (test_script r) (error_log r) (success_log r)
         (dependencies r) (validation_results r) (status_trace r).

(** [pkg_meta.install_time = t] *)
Definition set_install_time (t : float) (r : PackageMetadata) : PackageMetadata :=
  mkMeta (name r) (version r) (status r) (ingest_time r) (test_time r) (Some t)
         (sandbox_id r) (test_script r) (error_log r) (success_log r)
         (dependencies r) (validation_results r) (status_trace r).

(** [pkg_meta.validation_results[k] = v] *)
Definition set_result (k : string) (v : value) (r : PackageMetadata) : PackageMetadata :=
  mkMeta (name r) (version r) (status r) (ingest_time r) (test_time r) (install_time r)
         (sandbox_id r) (test_script r) (error_log r) (success_log r)
         (dependencies r) (<[k := v]> (validation_results r)) (status_trace r).

(** One element of the JSON list kept in the history file, as
    [_save_package_history] builds it. *)
Record HistoryEntry := mkEntry {
  h_name : string;
  h_version : string;
  h_status : string;
  h_ingest_time : float;
  h_test_time : option float;
  h_install_time : option float;
  h_sandbox_id : string;
  h_error_log : list string;
  h_success_log : list string;
  h_validation_results : gmap string value
}.

Inductive level := INFO | WARNING | ERROR.

Definition addr := nat.

(** The handler together with the part of the world it acts on. *)
Record World := mkWorld {
  (* configuration and backend, fixed by [__init__] ([dry_run] is the
     [config['dry_run']] entry, which callers may flip) *)
  sandbox_dir : string;
  container_engine : option string;
  dry_run : bool;
  win32 : bool;                          (* [sys.platform == "win32"] *)
  (* object store *)
  active_packages : addr;                (* [self.active_packages], a dict object *)
  dicts : gmap addr (gmap string addr);  (* dict objects: name -> record object *)
  next_dict : addr;
  records : gmap addr PackageMetadata;   (* [PackageMetadata] objects *)
  next_record : addr;
  (* outside world *)
  sandboxes : gset string;               (* sandbox directories that exist, by id *)
  history_file : option (list HistoryEntry);  (* [None]: there is no history to load: the
                                                 file does not exist, or a failed write
                                                 left it empty or partial *)
  log : list (level * string)            (* what [self.logger] has emitted *)
}.

Definition with_dry_run (b : bool) (w : World) : World :=
  mkWorld (sandbox_dir w) (container_engine w) b (win32 w) (active_packages w)
          (dicts w) (next_dict w) (records w) (next_record w)
          (sandboxes w) (history_file w) (log w).

Definition with_dicts (d : gmap addr (gmap string addr)) (n : addr) (w : World) : World :=
  mkWorld (sandbox_dir w) (container_engine w) (dry_run w) (win32 w) (active_packages w)
          d n (records w) (next_record w)
          (sandboxes w) (history_file w) (log w).

Definition with_records (rs : gmap addr PackageMetadata) (n : addr) (w : World) : World :=
  mkWorld (sandbox_dir w) (container_engine w) (dry_run w) (win32 w) (active_packages w)
          (dicts w) (next_dict w) rs n
          (sandboxes w) (history_file w) (log w).

Definition with_sandboxes (s : gset string) (w : World) : World :=
  mkWorld (sandbox_dir w) (container_engine w) (dry_run w) (win32 w) (active_packages w)
          (dicts w) (next_dict w) (records w) (next_record w)
          s (history_file w) (log w).

Definition with_history (h : option (list HistoryEntry)) (w : World) : World :=
  mkWorld (sandbox_dir w) (container_engine w) (dry_run w) (win32 w) (active_packages w)
          (dicts w) (next_dict w) (records w) (next_record w)
          (sandboxes w) h (log w).

(** [self.logger.<lvl>(msg)] *)
Definition log_msg (lvl : level) (msg : string) (w : World) : World :=
  mkWorld (sandbox_dir w) (container_engine w) (dry_run w) (win32 w) (active_packages w)
          (dicts w) (next_dict w) (records w) (next_record w)
          (sandboxes w) (history_file w) (log w ++ [(lvl, msg)]).

(** The contents of the dict object [self.active_packages]. *)
Definition active (w : World) : gmap string addr :=
  default ∅ (dicts w !! active_packages w).

(** In-place update of the dict object [self.active_packages]. *)
Definition set_active (m : gmap string addr) (w : World) : World :=
  with_dicts (<[active_packages w := m]> (dicts w)) (next_dict w) w.

(** A new [PackageMetadata] object. *)
Definition alloc_record (r : PackageMetadata) (w : World) : addr * World :=
  (next_record w, with_records (<[next_record w := r]> (records w)) (S (next_record w)) w).

(** Writing through a reference to a [PackageMetadata] object. *)
Definition store (a : addr) (r : PackageMetadata) (w : World) : World :=
  with_records (<[a := r]> (records w)) (next_record w) w.

(** [self.active_packages[package_name]], with the object it refers to;
    [None] stands for [package_name not in self.active_packages] (a name
    bound to an address without an object cannot arise: records are never
    deallocated). *)
Definition lookup_active (package_name : string) (w : World)
  : option (addr * PackageMetadata) :=
  match active w !! package_name with
  | Some a => match records w !! a with
              | Some r => Some (a, r)
              | None => None
              end
  | None => None
  end.

(** [SnakepitHandler.__init__], after configuration loading and backend
    detection have produced their values. *)
Definition new_handler (dir : string) (engine : option string) (dry : bool)
    (is_win32 : bool) (hist : option (list HistoryEntry)) : World :=
  mkWorld dir engine dry is_win32 0 {[ 0 := ∅ ]} 1 ∅ 0 ∅ hist [].

(** ** Answers of the outside world *)

(** What [subprocess.run] did. *)
Inductive proc_result :=
| Exited (returncode : Z) (stdout stderr : string)
| TimeoutExpired (msg : string)
| FileNotFound (msg : string)
| OtherError (msg : string).

(** [_create_container_sandbox]: an exception while the Dockerfile or the
    test script is written, then the image build. *)
Record container_env := mkContainerEnv {
  ce_files : option string;
  ce_build : proc_result
}.

(** [_create_venv_sandbox]: [python -m venv], [pip install], and an
    exception while the test script is written. *)
Record venv_env := mkVenvEnv {
  ve_venv : proc_result;
  ve_pip : proc_result;
  ve_files : option string
}.

Record ingest_env := mkIngestEnv {
  ie_now : float;                 (* [time.time()] *)
  ie_uuid : string;               (* [str(uuid.uuid4())] *)
  ie_mkdir : option string;       (* exception of [sandbox_path.mkdir] *)
  ie_container : container_env;
  ie_venv : venv_env
}.

Record test_env := mkTestEnv {
  te_now : float;
  te_run : proc_result            (* the container run / the venv interpreter run *)
}.

(** Where an exception met [_save_package_history]: before
    [open(self.history_file, 'w')] has truncated the file (testing for it,
    reading it, parsing it, or the [open] itself), or after (while
    [json.dump] writes). *)
Inductive history_failure :=
| BeforeTruncation (e : string)
| AfterTruncation (e : string).

Record history_env := mkHistoryEnv {
  he_error : option history_failure  (* exception while the history file is read or written *)
}.

Record kill_env := mkKillEnv {
  ke_rmi : proc_result;           (* [<engine> rmi -f <tag>] *)
  ke_rmtree : option string;      (* exception of [shutil.rmtree] *)
  ke_history : history_env
}.

Inductive toml_outcome :=
| TomlAdded                       (* dependency appended and file rewritten *)
| TomlPresent                     (* dependency already listed *)
| TomlError (msg : string).       (* any exception *)

Record conscript_env := mkConscriptEnv {
  co_now : float;
  co_probe : string -> proc_result;   (* [<path> --version] *)
  co_install : proc_result;           (* the install command *)
  co_toml : toml_outcome;
  co_kill : kill_env
}.

(** ** Phase 1: ingest *)

(** [f"{name}{sep}{version}" if pkg_meta.version else pkg_meta.name] *)
Definition package_spec (sep : string) (r : PackageMetadata) : string :=
  if decide (version r = "") then name r else name r ++ sep ++ version r.

(** [_create_container_sandbox]: returns the success flag and the record
    as it left it. *)
Definition _create_container_sandbox (env : container_env) (pkg_meta : PackageMetadata)
  : bool * PackageMetadata :=
  match ce_files env with
  | Some e => (false, add_error ("Container sandbox creation failed: " ++ e) pkg_meta)
  | None =>
    match ce_build env with
    | Exited rc _ err =>
      if decide (rc = 0%Z)
      then (true, add_success "Container sandbox created successfully" pkg_meta)
      else (false, add_error ("Container build failed: " ++ err) pkg_meta)
    | TimeoutExpired e | FileNotFound e | OtherError e =>
      (false, add_error ("Container sandbox creation failed: " ++ e) pkg_meta)
    end
  end.

(** [subprocess.run(..., check=True)] inside [_create_venv_sandbox]: [None]
    when the command exited with status 0, otherwise the text appended to
    the error log by the handler that catches the exception. *)
Definition checked_run (p : proc_result) : option string :=
  match p with
  | Exited rc _ err => if decide (rc = 0%Z) then None else Some err
  | TimeoutExpired e | FileNotFound e | OtherError e => Some e
  end.

(** [_create_venv_sandbox] *)
Definition _create_venv_sandbox (is_win32 : bool) (sandbox_path : string)
    (env : venv_env) (pkg_meta : PackageMetadata) : bool * PackageMetadata :=
  let venv_path := sandbox_path ++ "/venv" in
  match checked_run (ve_venv env) with
  | Some e => (false, add_error ("Venv sandbox creation failed: " ++ e) pkg_meta)
  | None =>
    let python_path :=
      if is_win32 then venv_path ++ "/Scripts/python" else venv_path ++ "/bin/python" in
    match checked_run (ve_pip env) with
    | Some e => (false, add_error ("Venv sandbox creation failed: " ++ e) pkg_meta)
    | None =>
      match ve_files env with
      | Some e => (false, add_error ("Venv sandbox creation failed: " ++ e) pkg_meta)
      | None =>
        let pkg_meta := set_result "python_path" (VStr python_path) pkg_meta in
        let pkg_meta := set_result "sandbox_path" (VStr sandbox_path) pkg_meta in
        (true, add_success "Virtual environment sandbox created successfully" pkg_meta)
      end
    end
  end.

(** [ingest]: returns the reference to the record, which is the object
    stored under [package_name]. *)
Definition ingest (package_name version : string) (script : option string)
    (env : ingest_env) (w : World) : addr * World :=
  let w := log_msg INFO ("🐍 INGEST: Starting ingestion of " ++ package_name) w in
  let pkg_meta :=
    mkMeta package_name version INGESTING (ie_now env) None None (ie_uuid env)
           script [] [] [] ∅ [INGESTING] in
  let '(a, w) := alloc_record pkg_meta w in
  let w := set_active (<[package_name := a]> (active w)) w in
  match ie_mkdir env with
  | Some e =>
    let pkg_meta := set_status FAILED pkg_meta in
    let pkg_meta := add_error ("Ingestion error: " ++ e) pkg_meta in
    let w := store a pkg_meta w in
    (a, log_msg ERROR ("❌ INGEST: Error ingesting " ++ package_name ++ ": " ++ e) w)
  | None =>
    let sandbox_path := sandbox_dir w ++ "/" ++ sandbox_id pkg_meta in
    let w := with_sandboxes ({[ sandbox_id pkg_meta ]} ∪ sandboxes w) w in
    let '(success, pkg_meta) :=
      match container_engine w with
      | Some _ => _create_container_sandbox (ie_container env) pkg_meta
      | None => _create_venv_sandbox (win32 w) sandbox_path (ie_venv env) pkg_meta
      end in
    if success then
      let pkg_meta := set_status TESTING pkg_meta in
      let w := store a pkg_meta w in
      (a, log_msg INFO ("✅ INGEST: Successfully ingested " ++ package_name) w)
    else
      let pkg_meta := set_status FAILED pkg_meta in
      let pkg_meta := add_error "Failed to create sandbox environment" pkg_meta in
      let w := store a pkg_meta w in
      (a, log_msg ERROR ("❌ INGEST: Failed to ingest " ++ package_name) w)
  end.

(** ** Phase 2: test / collaborate *)

(** The part shared by [_test_in_container] and [_test_in_venv] once the
    command line is known: run, record the outcome, decide. *)
Definition run_validation_command (backend : string) (run : proc_result)
    (pkg_meta : PackageMetadata) : bool * PackageMetadata :=
  match run with
  | Exited rc out err =>
    let pkg_meta := set_result "stdout" (VStr out) pkg_meta in
    let pkg_meta := set_result "stderr" (VStr err) pkg_meta in
    let pkg_meta := set_result "returncode" (VInt rc) pkg_meta in
    if decide (rc = 0%Z)
    then (true, add_success (backend ++ " validation passed") pkg_meta)
    else (false, add_error (backend ++ " validation failed: " ++ err) pkg_meta)
  | TimeoutExpired _ =>
    (false, add_error (backend ++ " validation timed out") pkg_meta)
  | FileNotFound e | OtherError e =>
    (false, add_error (backend ++ " validation error: " ++ e) pkg_meta)
  end.

(** [_test_in_container] *)
Definition _test_in_container (env : test_env) (pkg_meta : PackageMetadata)
  : bool * PackageMetadata :=
  run_validation_command "Container" (te_run env) pkg_meta.

(** [_test_in_venv]: the two subscripts of [validation_results] raise
    [KeyError] when the key is absent, which the function's own handler
    turns into an error-log line ([str(KeyError(k))] is [k] in quotes). *)
Definition _test_in_venv (env : test_env) (pkg_meta : PackageMetadata)
  : bool * PackageMetadata :=
  match validation_results pkg_meta !! "python_path" with
  | None => (false, add_error "Venv validation error: 'python_path'" pkg_meta)
  | Some _ =>
    match validation_results pkg_meta !! "sandbox_path" with
    | None => (false, add_error "Venv validation error: 'sandbox_path'" pkg_meta)
    | Some _ => run_validation_command "Venv" (te_run env) pkg_meta
    end
  end.

(** [test_collaborate].  Both helpers catch every exception themselves, so
    the outer handler of the source is never entered. *)
Definition test_collaborate (package_name : string) (env : test_env) (w : World)
  : bool * World :=
  match lookup_active package_name w with
  | None =>
    (false, log_msg ERROR ("Package " ++ package_name ++ " not found in active packages") w)
  | Some (a, pkg_meta) =>
    let w := log_msg INFO ("🧪 TEST/COLLABORATE: Validating " ++ package_name) w in
    let pkg_meta := set_status COLLABORATING pkg_meta in
    let pkg_meta := set_test_time (te_now env) pkg_meta in
    let '(success, pkg_meta) :=
      match container_engine w with
      | Some _ => _test_in_container env pkg_meta
      | None => _test_in_venv env pkg_meta
      end in
    if success then
      let pkg_meta := set_status APPROVED pkg_meta in
      let pkg_meta := add_success "Package validation successful" pkg_meta in
      let w := store a pkg_meta w in
      (true, log_msg INFO
               ("✅ TEST/COLLABORATE: " ++ package_name ++ " approved for installation") w)
    else
      let pkg_meta := set_status FAILED pkg_meta in
      let w := store a pkg_meta w in
      (false, log_msg ERROR
                ("❌ TEST/COLLABORATE: " ++ package_name ++ " failed validation") w)
  end.

(** ** Phase 3: kill / destroy *)

Definition history_entry (pkg_meta : PackageMetadata) : HistoryEntry :=
  mkEntry (name pkg_meta) (version pkg_meta) (status_value (status pkg_meta))
          (ingest_time pkg_meta) (test_time pkg_meta) (install_time pkg_meta)
          (sandbox_id pkg_meta) (error_log pkg_meta) (success_log pkg_meta)
          (validation_results pkg_meta).

(** [history[-1000:]] *)
Definition last_1000 (history : list HistoryEntry) : list HistoryEntry :=
  drop (length history - 1000) history.

(** [_save_package_history] *)
Definition _save_package_history (pkg_meta : PackageMetadata) (env : history_env)
    (w : World) : World :=
  match he_error env with
  | Some (BeforeTruncation e) =>
    log_msg WARNING ("Could not save package history: " ++ e) w
  | Some (AfterTruncation e) =>
    (* the file is left empty or partial: nothing can be loaded from it *)
    log_msg WARNING ("Could not save package history: " ++ e) (with_history None w)
  | None =>
    let history := default [] (history_file w) in
    let history := (history ++ [history_entry pkg_meta])%list in
    let history := if decide (1000 < length history) then last_1000 history else history in
    with_history (Some history) w
  end.

(** [kill_destroy].  The image removal is wrapped in a bare [except: pass],
    so [ke_rmi] has no influence; [shutil.rmtree] runs only when the
    sandbox directory exists. *)
Definition kill_destroy (package_name : string) (env : kill_env) (w : World)
  : bool * World :=
  match lookup_active package_name w with
  | None =>
    (false, log_msg WARNING ("Package " ++ package_name ++ " not found for destruction") w)
  | Some (a, pkg_meta) =>
    let w := log_msg INFO ("💀 KILL/DESTROY: Cleaning up " ++ package_name) w in
    let removal :=
      if decide (sandbox_id pkg_meta ∈ sandboxes w) then ke_rmtree env else None in
    match removal with
    | Some e =>
      (false, log_msg ERROR
                ("❌ KILL/DESTROY: Error cleaning up " ++ package_name ++ ": " ++ e) w)
    | None =>
      let w := with_sandboxes (sandboxes w ∖ {[ sandbox_id pkg_meta ]}) w in
      let pkg_meta := set_status DESTROYED pkg_meta in
      let pkg_meta := add_success "Package sandbox destroyed" pkg_meta in
      let w := store a pkg_meta w in
      let w := _save_package_history pkg_meta (ke_history env) w in
      let w := set_active (delete package_name (active w)) w in
      (true, log_msg INFO ("💀 KILL/DESTROY: Cleaned up " ++ package_name) w)
    end
  end.

(** ** Phase 4: conscript / install *)

(** [_update_dependency_graph]: the rewrite of [snakepit.toml] is outside
    the handler's own state; what remains is the log line. *)
Definition _update_dependency_graph (pkg_meta : PackageMetadata) (outcome : toml_outcome)
    (w : World) : World :=
  match outcome with
  | TomlAdded => log_msg INFO ("Updated snakepit.toml with " ++ package_spec ">=" pkg_meta) w
  | TomlPresent => w
  | TomlError e => log_msg WARNING ("Could not update dependency graph: " ++ e) w
  end.

Definition snakepit_paths : list string :=
  ["./target/release/snakepit"; "./target/debug/snakepit"; "snakepit"].

(** The search loop for the snakepit binary: [inl e] when a probe raises
    something other than [FileNotFoundError] or [TimeoutExpired], else the
    first path whose probe exits with status 0, if any. *)
Fixpoint find_snakepit (probe : string -> proc_result) (paths : list string)
  : string + option string :=
  match paths with
  | [] => inr None
  | path :: rest =>
    match probe path with
    | Exited rc _ _ =>
      if decide (rc = 0%Z) then inr (Some path) else find_snakepit probe rest
    | FileNotFound _ | TimeoutExpired _ => find_snakepit probe rest
    | OtherError e => inl e
    end
  end.

(** The body of the [try] up to the point where [success] is known:
    [inr success], or [inl e] when an exception reaches the outer handler. *)
Definition attempt_install (env : conscript_env) (pkg_meta : PackageMetadata) (w : World)
  : (string + bool) * PackageMetadata * World :=
  let spec := package_spec "==" pkg_meta in
  if dry_run w then
    (inr true, pkg_meta, log_msg INFO ("DRY RUN: Would install " ++ spec) w)
  else
    match find_snakepit (co_probe env) snakepit_paths with
    | inl e => (inl e, pkg_meta, w)
    | inr snakepit_bin =>
      let w :=
        match snakepit_bin with
        | Some bin => log_msg INFO ("Using snakepit binary: " ++ bin) w
        | None => log_msg INFO "Snakepit binary not found, using pip directly" w
        end in
      match co_install env with
      | Exited rc _ err =>
        if decide (rc = 0%Z) then (inr true, pkg_meta, w)
        else (inr false, add_error ("Installation failed: " ++ err) pkg_meta, w)
      | TimeoutExpired e | FileNotFound e | OtherError e => (inl e, pkg_meta, w)
      end
    end.

(** [conscript_install] *)
Definition conscript_install (package_name : string) (env : conscript_env) (w : World)
  : bool * World :=
  match lookup_active package_name w with
  | None =>
    (false, log_msg ERROR ("Package " ++ package_name ++ " not found for installation") w)
  | Some (a, pkg_meta) =>
    if decide (status pkg_meta ≠ APPROVED) then
      (false, log_msg ERROR ("Package " ++ package_name ++ " not approved for installation") w)
    else
      let w := log_msg INFO ("⚔️ CONSCRIPT: Installing " ++ package_name) w in
      let pkg_meta := set_install_time (co_now env) pkg_meta in
      let '(attempt, pkg_meta, w) := attempt_install env pkg_meta w in
      match attempt with
      | inr true =>
        let pkg_meta := set_status CONSCRIPTED pkg_meta in
        let pkg_meta := add_success "Package installed successfully" pkg_meta in
        let w := store a pkg_meta w in
        let w := _update_dependency_graph pkg_meta (co_toml env) w in
        let w := log_msg INFO ("✅ CONSCRIPT: Successfully installed " ++ package_name) w in
        (* Cleanup sandbox after successful install *)
        let '(_, w) := kill_destroy package_name (co_kill env) w in
        (true, w)
      | inr false =>
        let pkg_meta := set_status FAILED pkg_meta in
        let w := store a pkg_meta w in
        (false, log_msg ERROR ("❌ CONSCRIPT: Failed to install " ++ package_name) w)
      | inl e =>
        let pkg_meta := set_status FAILED pkg_meta in
        let pkg_meta := add_error ("Installation error: " ++ e) pkg_meta in
        let w := store a pkg_meta w in
        (false, log_msg ERROR
                  ("❌ CONSCRIPT: Error installing " ++ package_name ++ ": " ++ e) w)
      end
  end.

(** ** Queries and the composed workflow *)

(** [get_package_status] *)
Definition get_package_status (package_name : string) (w : World)
  : option PackageStatus :=
  match lookup_active package_name w with
  | Some (_, pkg_meta) => Some (status pkg_meta)
  | None => None
  end.

(** [list_packages]: [self.active_packages.copy()] is a new dict object with
    the same bindings (the records themselves are shared). *)
Definition list_packages (w : World) : addr * World :=
  (next_dict w, with_dicts (<[next_dict w := active w]> (dicts w)) (S (next_dict w)) w).

(** [handle_package] *)
Definition handle_package (package_name version : string) (script : option string)
    (ie : ingest_env) (te : test_env) (ke : kill_env) (ce : conscript_env) (w : World)
  : bool * World :=
  let w := log_msg INFO ("🐍 Starting Smart Snakepit handling for " ++ package_name) w in
  let '(a, w) := ingest package_name version script ie w in
  if decide (status <$> records w !! a = Some FAILED) then
    let '(_, w) := kill_destroy package_name ke w in (false, w)
  else
    let '(passed, w) := test_collaborate package_name te w in
    if passed then conscript_install package_name ce w
    else let '(_, w) := kill_destroy package_name ke w in (false, w).

(** ** What a caller can do *)

(** Mutations of a dict object that a caller holds a reference to:
    [d[k] = v], [del d[k]] / [d.pop(k, None)], [d.clear()]. *)
Inductive dict_mutation :=
| SetItem (k : string) (v : addr)
| DelItem (k : string)
| Clear.

Definition mutate_dict (d : addr) (m : dict_mutation) (w : World) : World :=
  let f (c : gmap string addr) : gmap string addr :=
    match m with
    | SetItem k v => <[k := v]> c
    | DelItem k => delete k c
    | Clear => ∅
    end in
  with_dicts (alter f d (dicts w)) (next_dict w) w.

(** Calls of the handler's public operations, each with the answers the
    outside world gives during that call. *)
Inductive call :=
| Ingest (package_name version : string) (script : option string) (env : ingest_env)
| TestCollaborate (package_name : string) (env : test_env)
| KillDestroy (package_name : string) (env : kill_env)
| ConscriptInstall (package_name : string) (env : conscript_env)
| GetPackageStatus (package_name : string)
| SetDryRun (b : bool).                 (* [handler.config['dry_run'] = b] *)

Inductive result :=
| RRecord (a : addr)
| RBool (b : bool)
| RStatus (s : option PackageStatus)
| RNone.

Definition exec_call (c : call) (w : World) : result * World :=
  match c with
  | Ingest n v s env => let '(a, w) := ingest n v s env w in (RRecord a, w)
  | TestCollaborate n env => let '(b, w) := test_collaborate n env w in (RBool b, w)
  | KillDestroy n env => let '(b, w) := kill_destroy n env w in (RBool b, w)
  | ConscriptInstall n env => let '(b, w) := conscript_install n env w in (RBool b, w)
  | GetPackageStatus n => (RStatus (get_package_status n w), w)
  | SetDryRun b => (RNone, with_dry_run b w)
  end.

(** A sequence of calls, with the results in call order. *)
Fixpoint exec_calls (cs : list call) (w : World) : list result * World :=
  match cs with
  | [] => ([], w)
  | c :: cs =>
    let '(r, w) := exec_call c w in
    let '(rs, w) := exec_calls cs w in
    (r :: rs, w)
  end.

(** ** Vocabulary of the properties *)

(** Whether the directory removal of [kill_destroy] raises, and with what. *)
Definition removal (env : kill_env) (r : PackageMetadata) (w : World) : option string :=
  if decide (sandbox_id r ∈ sandboxes w) then ke_rmtree env else None.

(** The record as [kill_destroy] leaves it. *)
Definition destroyed (r : PackageMetadata) : PackageMetadata :=
  add_success "Package sandbox destroyed" (set_status DESTROYED r).

(** Whether the sandbox creation attempted by [ingest] succeeds. *)
Definition container_created (env : container_env) : bool :=
  match ce_files env, ce_build env with
  | None, Exited rc _ _ => bool_decide (rc = 0%Z)
  | _, _ => false
  end.

Definition venv_created (env : venv_env) : bool :=
  match checked_run (ve_venv env), checked_run (ve_pip env), ve_files env with
  | None, None, None => true
  | _, _, _ => false
  end.

Definition sandbox_created (env : ingest_env) (w : World) : bool :=
  match ie_mkdir env with
  | Some _ => false
  | None =>
    match container_engine w with
    | Some _ => container_created (ie_container env)
    | None => venv_created (ie_venv env)
    end
  end.

(** The installer reports success, or dry-run is set. *)
Definition install_ok (env : conscript_env) (w : World) : Prop :=
  dry_run w = true ∨
  ∃ bin out err, find_snakepit (co_probe env) snakepit_paths = inr bin ∧
                 co_install env = Exited 0 out err.

(** The record as a successful [conscript_install] has it when it calls
    [kill_destroy]. *)
Definition conscripted (now : float) (r : PackageMetadata) : PackageMetadata :=
  add_success "Package installed successfully"
              (set_status CONSCRIPTED (set_install_time now r)).

(** The statuses the property is about. *)
Definition target (s : PackageStatus) : Prop := s = APPROVED ∨ s = CONSCRIPTED.

(** [preceded req t]: wherever [t] holds APPROVED or CONSCRIPTED, the part
    of [t] before that place satisfies [req]. *)
Definition preceded (req : list PackageStatus → Prop) (t : list PackageStatus) : Prop :=
  ∀ pre s post, t = (pre ++ s :: post)%list → target s → req pre.

(** TESTING and later COLLABORATING occur, in that order. *)
Definition testing_then_collaborating (pre : list PackageStatus) : Prop :=
  ∃ x y z, pre = (x ++ TESTING :: y ++ COLLABORATING :: z)%list.

(** The claim about one status history. *)
Definition passed_phases (t : list PackageStatus) : Prop :=
  preceded testing_then_collaborating t.

(** The part that holds on every backend. *)
Definition collaborated (t : list PackageStatus) : Prop :=
  preceded (λ pre, COLLABORATING ∈ pre) t.

(** What is known of every record object, on a handler whose backend is
    [eng]. *)
Definition record_inv (eng : option string) (r : PackageMetadata) : Prop :=
  let t := status_trace r in
  last t = Some (status r) ∧
  collaborated t ∧
  (TESTING ∈ t → passed_phases t) ∧
  (eng = None → is_Some (validation_results r !! "python_path") → TESTING ∈ t) ∧
  (eng = None → APPROVED ∈ t ∨ CONSCRIPTED ∈ t → TESTING ∈ t).

Definition world_inv (eng : option string) (w : World) : Prop :=
  container_engine w = eng ∧
  ∀ a r, records w !! a = Some r → record_inv eng r.

(** Steps that leave status, history and the interpreter path alone. *)
Definition same_core (r r' : PackageMetadata) : Prop :=
  status r' = status r ∧ status_trace r' = status_trace r ∧
  validation_results r' !! "python_path" = validation_results r !! "python_path".

(** What the handler can see of a world: everything but the dict objects
    other than its own [active_packages] (whose address is normalised). *)
Definition handler_view (w : World) : World :=
  mkWorld (sandbox_dir w) (container_engine w) (dry_run w) (win32 w)
          0 {[ 0 := active w ]} 1 (records w) (next_record w)
          (sandboxes w) (history_file w) (log w).

(** ** Backend detection and shutdown *)

(** The loop of [_detect_container_engine] over the engine names: [inl e]
    when a probe raises something other than [TimeoutExpired] or
    [FileNotFoundError] (the exception then leaves [__init__]), else the
    first engine whose [--version] exits with status 0, if any. *)
Fixpoint detect_loop (probe : string -> proc_result) (engines : list string)
  : string + option string :=
  match engines with
  | [] => inr None
  | engine :: rest =>
    match probe engine with
    | Exited rc _ _ =>
      if decide (rc = 0%Z) then inr (Some engine) else detect_loop probe rest
    | TimeoutExpired _ | FileNotFound _ => detect_loop probe rest
    | OtherError e => inl e
    end
  end.

(** [_detect_container_engine], with the lines it logs. *)
Definition _detect_container_engine (probe : string -> proc_result)
  : (string + option string) * list (level * string) :=
  match detect_loop probe ["podman"; "docker"] with
  | inr (Some engine) =>
    (inr (Some engine), [(INFO, "Detected container engine: " ++ engine)])
  | inr None =>
    (inr None,
     [(WARNING, "No container engine detected. Falling back to venv sandbox.")])
  | inl e => (inl e, [])
  end.



(** ** Vocabulary of the further properties *)

(** Every bound name refers to a record object, and every record object
    was allocated. *)
Definition store_inv (w : World) : Prop :=
  (∀ n a, active w !! n = Some a → is_Some (records w !! a)) ∧
  (∀ a, is_Some (records w !! a) → a < next_record w).

(** [r'] is a later state of the record object [r]: same identity, logs
    and status history only extended. *)
Definition extends (r r' : PackageMetadata) : Prop :=
  name r' = name r ∧ version r' = version r ∧ sandbox_id r' = sandbox_id r ∧
  ingest_time r' = ingest_time r ∧
  error_log r `prefix_of` error_log r' ∧
  success_log r `prefix_of` success_log r' ∧
  status_trace r `prefix_of` status_trace r'.

(** Every record object of [w] is still there in [w'], in a later state. *)
Definition grows (w w' : World) : Prop :=
  ∀ a r, records w !! a = Some r → ∃ r', records w' !! a = Some r' ∧ extends r r'.

(** [w'] is a later state of the handler [w]: still well formed, with
    every record object of [w] in a later state. *)
Definition later (w w' : World) : Prop := store_inv w' ∧ grows w w'.

(** Every entry of the history file carries the status value "destroyed". *)
Definition all_destroyed (h : option (list HistoryEntry)) : Prop :=
  ∀ e, e ∈ default [] h → h_status e = "destroyed".

(** A probe that the detection loops pass over: a non-zero exit status, a
    timeout, or a missing binary. *)
Definition passed_over (p : proc_result) : bool :=
  match p with
  | Exited rc _ _ => bool_decide (rc ≠ 0%Z)
  | TimeoutExpired _ | FileNotFound _ => true
  | OtherError _ => false
  end.

(** Whether the record holds what the backend needs to start the test. *)
Definition can_start_test (eng : option string) (r : PackageMetadata) : bool :=
  match eng with
  | Some _ => true
  | None =>
    match validation_results r !! "python_path", validation_results r !! "sandbox_path" with
    | Some _, Some _ => true
    | _, _ => false
    end
  end.

(** The test run of [test_collaborate] exited with status 0. *)
Definition run_passes (env : test_env) : bool :=
  match te_run env with
  | Exited rc _ _ => bool_decide (rc = 0%Z)
  | _ => false
  end.

(** The install step of [conscript_install] succeeds: dry-run, or no probe
    raises unexpectedly and the install command exits with status 0. *)
Definition install_succeeds (env : conscript_env) (w : World) : bool :=
  if dry_run w then true
  else match find_snakepit (co_probe env) snakepit_paths, co_install env with
       | inr _, Exited rc _ _ => bool_decide (rc = 0%Z)
       | _, _ => false
       end.

End Handler.

(* ===================================================================== *)
(** * validation_framework.py                                             *)
(* ===================================================================== *)

Module Validation.

Inductive ValidationLevel :=
| BASIC | STANDARD | COMPREHENSIVE | SECURITY | PERFORMANCE.

#[global] Instance ValidationLevel_eq_dec : EqDecision ValidationLevel.
Proof. solve_decision. Defined.

(** [ValidationLevel.<X>.value] *)
Definition level_value (l : ValidationLevel) : string :=
  match l with
  | BASIC => "basic"
  | STANDARD => "standard"
  | COMPREHENSIVE => "comprehensive"
  | SECURITY => "security"
  | PERFORMANCE => "performance"
  end.

(** [validation_level in [...]] *)
Definition level_in (l : ValidationLevel) (ls : list ValidationLevel) : bool :=
  bool_decide (l ∈ ls).

(** ** Strings *)

Definition nl : string := String "010"%char "".   (* the newline character *)
Definition dq : string := String "034"%char "".   (* the double quote *)
Definition tq : string := dq ++ dq ++ dq.

(** [str.lower] on a package name.  Package names are ASCII (letters,
    digits, [-], [_], [.]); other bytes are left as they are. *)
Definition lower_ascii (c : ascii) : ascii :=
  let n := nat_of_ascii c in
  if (65 <=? n)%nat && (n <=? 90)%nat then ascii_of_nat (n + 32) else c.

Fixpoint lower (s : string) : string :=
  match s with
  | EmptyString => EmptyString
  | String c s' => String (lower_ascii c) (lower s')
  end.

(** [pattern in s] on strings *)
Fixpoint contains (pattern s : string) : bool :=
  String.prefix pattern s ||
  match s with
  | EmptyString => false
  | String _ s' => contains pattern s'
  end.

(** [sep.join(parts)] *)
Fixpoint join (sep : string) (parts : list string) : string :=
  match parts with
  | [] => ""
  | [x] => x
  | x :: rest => x ++ sep ++ join sep rest
  end.

(** ** The framework object *)

(** [security_patterns] is a dict literal: its iteration order is the order
    of the literal, which the order of the findings follows. *)
Record ValidationFramework := mkFramework {
  test_templates : gmap string string;
  security_patterns : list (string * list string)
}.

(** [create_custom_test] *)
Definition create_custom_test (test_name test_function : string)
    (fw : ValidationFramework) : ValidationFramework :=
  mkFramework (<[test_name := test_function]> (test_templates fw)) (security_patterns fw).

(** [_load_security_patterns] *)
Definition _load_security_patterns : list (string * list string) :=
  [ ("dangerous_imports",
     [ "import\s+os\.system";
       "import\s+subprocess\.";
       "from\s+subprocess\s+import";
       "import\s+eval";
       "import\s+exec";
       "__import__\s*\(" ]);
    ("network_access",
     [ "import\s+urllib";
       "import\s+requests";
       "import\s+socket";
       "import\s+http\.";
       "from\s+urllib" ]);
    ("file_system",
     [ "open\s*\(";
       "file\s*\(";
       "import\s+shutil";
       "os\.remove";
       "os\.unlink";
       "pathlib\." ]);
    ("eval_patterns",
     [ "eval\s*\(";
       "exec\s*\(";
       "compile\s*\(";
       "__import__\s*\(" ]) ].

(** [ValidationFramework.__init__], given the templates that
    [_load_test_templates] installs. *)
Definition new_framework (templates : gmap string string) : ValidationFramework :=
  mkFramework templates _load_security_patterns.

(** ** Test-script generation *)

(** [_detect_package_type] *)
Definition _detect_package_type (package_name : string) : string :=
  let web_patterns := ["flask"; "django"; "fastapi"; "tornado"; "pyramid"; "bottle"] in
  let data_patterns := ["pandas"; "numpy"; "scipy"; "sklearn"; "matplotlib"; "seaborn"] in
  let ml_patterns := ["tensorflow"; "torch"; "keras"; "xgboost"; "lightgbm"] in
  let name_lower := lower package_name in
  if existsb (fun pattern => contains pattern name_lower) web_patterns then "web"
  else if existsb (fun pattern => contains pattern name_lower) data_patterns then "data"
  else if existsb (fun pattern => contains pattern name_lower) ml_patterns then "ml"
  else "general".

(** The text of [main_script].  The f-string of the source interpolates
    nothing: every brace in it is doubled and the one backslash is
    escaped, so the text below is the source's with single braces and a
    single backslash. *)
Definition main_script : string :=
  "
def run_validation():
    " ++ tq ++ "Main validation function" ++ tq ++ "
    results = {
        'package_name': PACKAGE_NAME,
        'validation_level': VALIDATION_LEVEL,
        'start_time': time.time(),
        'tests': {},
        'warnings': [],
        'errors': [],
        'overall_score': 0.0
    }
    
    test_count = 0
    passed_tests = 0
    
    # Basic import test
    try:
        print(f" ++ dq ++ "üß™ Testing basic import of {PACKAGE_NAME}" ++ dq ++ ")
        passed, message = test_basic_import(PACKAGE_NAME)
        results['tests']['basic_import'] = {'passed': passed, 'message': message}
        test_count += 1
        if passed:
            passed_tests += 1
            print(f" ++ dq ++ "‚úÖ Basic import: {message}" ++ dq ++ ")
        else:
            print(f" ++ dq ++ "‚ùå Basic import: {message}" ++ dq ++ ")
    except Exception as e:
        results['errors'].append(f" ++ dq ++ "Basic import test error: {e}" ++ dq ++ ")
        print(f" ++ dq ++ "‚ùå Basic import test failed: {e}" ++ dq ++ ")
        
    # Additional tests based on validation level
    if VALIDATION_LEVEL in ['standard', 'comprehensive']:
        try:
            module = __import__(PACKAGE_NAME)
            
            # Version check
            version_attrs = ['__version__', 'VERSION', 'version']
            version = None
            for attr in version_attrs:
                if hasattr(module, attr):
                    version = getattr(module, attr)
                    break
                    
            if version:
                results['tests']['version_info'] = {'passed': True, 'version': str(version)}
                print(f" ++ dq ++ "üìå Package version: {version}" ++ dq ++ ")
            else:
                results['warnings'].append(" ++ dq ++ "No version information found" ++ dq ++ ")
                
            # Attribute count check
            attrs = [attr for attr in dir(module) if not attr.startswith('_')]
            results['tests']['attribute_count'] = {'passed': True, 'count': len(attrs)}
            print(f" ++ dq ++ "üì¶ Public attributes: {len(attrs)}" ++ dq ++ ")
            
            test_count += 2
            passed_tests += 2
            
        except Exception as e:
            results['errors'].append(f" ++ dq ++ "Extended testing error: {e}" ++ dq ++ ")
            
    # Performance test for comprehensive validation
    if VALIDATION_LEVEL in ['performance', 'comprehensive']:
        try:
            print(" ++ dq ++ "‚ö° Running performance tests" ++ dq ++ ")
            start_time = time.time()
            
            # Import time measurement
            import_start = time.time()
            __import__(PACKAGE_NAME)
            import_time = time.time() - import_start
            
            results['tests']['import_performance'] = {
                'passed': import_time < 5.0,  # Fail if import takes >5s
                'import_time': import_time
            }
            
            print(f" ++ dq ++ "‚è±Ô∏è Import time: {import_time:.3f}s" ++ dq ++ ")
            test_count += 1
            if import_time < 5.0:
                passed_tests += 1
                
        except Exception as e:
            results['errors'].append(f" ++ dq ++ "Performance test error: {e}" ++ dq ++ ")
    
    # Calculate overall score
    if test_count > 0:
        results['overall_score'] = passed_tests / test_count
    
    results['end_time'] = time.time()
    results['duration'] = results['end_time'] - results['start_time']
    results['passed_tests'] = passed_tests
    results['total_tests'] = test_count
    
    return results

if __name__ == " ++ dq ++ "__main__" ++ dq ++ ":
    try:
        print(f" ++ dq ++ "üêç Starting validation for {PACKAGE_NAME} ({VALIDATION_LEVEL} level)" ++ dq ++ ")
        results = run_validation()
        
        print(f" ++ dq ++ "\nüìä Validation Results:" ++ dq ++ ")
        print(f" ++ dq ++ "   Score: {results['overall_score']:.2f} ({results['passed_tests']}/{results['total_tests']} tests passed)" ++ dq ++ ")
        print(f" ++ dq ++ "   Duration: {results['duration']:.2f}s" ++ dq ++ ")
        
        if results['warnings']:
            print(f" ++ dq ++ "   Warnings: {len(results['warnings'])}" ++ dq ++ ")
            
        if results['errors']:
            print(f" ++ dq ++ "   Errors: {len(results['errors'])}" ++ dq ++ ")
            for error in results['errors']:
                print(f" ++ dq ++ "     ‚Ä¢ {error}" ++ dq ++ ")
        
        # Exit with appropriate code
        if results['overall_score'] >= 0.8:
            print(" ++ dq ++ "‚úÖ Package validation PASSED" ++ dq ++ ")
            sys.exit(0)
        else:
            print(" ++ dq ++ "‚ùå Package validation FAILED" ++ dq ++ ")
            sys.exit(1)
            
    except Exception as e:
        print(f" ++ dq ++ "‚ùå Validation script error: {e}" ++ dq ++ ")
        traceback.print_exc()
        sys.exit(1)
".

(** [generate_test_script].  A subscript of [self.test_templates] with a
    missing key raises [KeyError]: the result is then [None]. *)
Definition generate_test_script (fw : ValidationFramework) (package_name : string)
    (validation_level : ValidationLevel) (custom_tests : option (list string))
  : option string :=
  let package_type := _detect_package_type package_name in
  let script_parts :=
    [ "#!/usr/bin/env python3";
      tq ++ "Generated test script for package validation" ++ tq;
      "";
      "import sys";
      "import time";
      "import json";
      "import traceback";
      "from pathlib import Path";
      "";
      "PACKAGE_NAME = '" ++ package_name ++ "'";
      "VALIDATION_LEVEL = '" ++ level_value validation_level ++ "'";
      "" ] in
  (* basic import test *)
  script_parts ←
    (if level_in validation_level [BASIC; STANDARD]
     then t ← test_templates fw !! "basic"; Some (script_parts ++ [t])%list
     else Some script_parts);
  (* template of the package type *)
  script_parts ←
    (if level_in validation_level [STANDARD; COMPREHENSIVE] then
       if decide (package_type = "web")
       then t ← test_templates fw !! "web"; Some (script_parts ++ [t])%list
       else if decide (package_type = "data")
       then t ← test_templates fw !! "data"; Some (script_parts ++ [t])%list
       else Some script_parts
     else Some script_parts);
  (* security template *)
  script_parts ←
    (if level_in validation_level [SECURITY; COMPREHENSIVE]
     then t ← test_templates fw !! "security"; Some (script_parts ++ [t])%list
     else Some script_parts);
  (* custom test functions *)
  let script_parts :=
    match custom_tests with
    | Some (t :: ts) => (script_parts ++ t :: ts)%list
    | Some [] | None => script_parts
    end in
  Some (join nl (script_parts ++ [main_script])%list).

(** ** The generated driver

    What the child process does when it runs the generated script, as a
    function of what the steps that are not the driver's own do there: the
    text placed before the driver (the header, the templates, the custom
    tests), the calls into the package under test, and the prints.

    A step returns, raises an exception that [except Exception] catches,
    or ends the process: [SystemExit] and the other exceptions outside
    [Exception] pass through every handler of the script, and [os._exit]
    or a fatal signal ends the process on the spot.  A caught exception is
    carried as its text.

    The name [test_basic_import] is bound or not by the text before the
    driver, whatever the level: by the basic template as loaded, by a
    template that replaced one of the four, or by nothing.  The other names
    the driver uses ([print], [time], [sys], [PACKAGE_NAME], ...) are taken
    to be bound as the header and the builtins bind them. *)

Inductive outcome (A : Type) : Type :=
| Returns (a : A)
| Raises (e : string)
| Ends (status : Z).
Arguments Returns {A} a.
Arguments Raises {A} e.
Arguments Ends {A} status.

#[global] Instance outcome_ret : MRet outcome := λ A a, Returns a.
#[global] Instance outcome_bind : MBind outcome := λ A B f m,
  match m with
  | Returns a => f a
  | Raises e => Raises e
  | Ends status => Ends status
  end.

(** The [print] calls of the driver whose text holds no object of the
    package. *)
Inductive print_site :=
| PStart          (* "Starting validation for ..." *)
| PTesting        (* "Testing basic import of ..." *)
| PBasicFailed    (* "Basic import test failed: ..." *)
| PPerformance    (* "Running performance tests" *)
| PImportTime     (* "Import time: ...s" *)
| PReport         (* the lines from "Validation Results:" to the last error line *)
| PPassed         (* "Package validation PASSED" *)
| PFailed.        (* "Package validation FAILED" *)

Record driver_env := mkDriverEnv {
  (* the module-level code before the [__main__] block *)
  de_prelude : outcome unit;
  (* [passed, message = test_basic_import(PACKAGE_NAME)]: [None] when the
     name is unbound; else what the call and the unpacking do, and, when
     they return, what the truth test [if passed:] does *)
  de_basic : option (outcome (outcome bool));
  (* the print of "Basic import: {message}" *)
  de_message : outcome unit;
  (* the extended block from [__import__(PACKAGE_NAME)] to the truth test
     [if version:] *)
  de_extended : outcome bool;
  (* [str(version)] and the print of the version *)
  de_version : outcome unit;
  (* [dir(module)], the list of public attributes and the print of its
     length *)
  de_attributes : outcome unit;
  (* the timed [__import__(PACKAGE_NAME)]: [import_time] *)
  de_import_time : outcome float;
  (* the other prints: [None], or the exception raised *)
  de_print : print_site → option string
}.

(** The local variables of [run_validation] that the properties read. *)
Record counters := mkCounters {
  test_count : Z;
  passed_count : Z;
  c_warnings : list string;
  c_errors : list string
}.

Record driver_results := mkDriverResults {
  overall_score : float;
  passed_tests : Z;
  total_tests : Z;
  d_warnings : list string;
  d_errors : list string
}.

(** Code of [run_validation]: it acts on the counters, which keep what was
    done to them when an exception leaves a block half way. *)
Definition script (A : Type) : Type := counters → outcome A * counters.

#[global] Instance script_ret : MRet script := λ A a c, (Returns a, c).
#[global] Instance script_bind : MBind script := λ A B f m c,
  match m c with
  | (Returns a, c') => f a c'
  | (Raises e, c') => (Raises e, c')
  | (Ends status, c') => (Ends status, c')
  end.

(** A step of the outside world. *)
Definition step {A} (o : outcome A) : script A := λ c, (o, c).

(** An assignment to the local variables. *)
Definition update (f : counters → counters) : script unit := λ c, (Returns tt, f c).

(** [try: body except Exception as e: handler] *)
Definition try_except (body : script unit) (handler : string → script unit) : script unit :=
  λ c, match body c with
       | (Raises e, c') => handler e c'
       | (o, c') => (o, c')
       end.

Definition printed (env : driver_env) (site : print_site) : outcome unit :=
  match de_print env site with
  | None => Returns tt
  | Some e => Raises e
  end.

Definition count_tests (n : Z) (c : counters) : counters :=
  mkCounters (test_count c + n) (passed_count c) (c_warnings c) (c_errors c).

Definition count_passed (n : Z) (c : counters) : counters :=
  mkCounters (test_count c) (passed_count c + n) (c_warnings c) (c_errors c).

Definition add_warning (msg : string) (c : counters) : counters :=
  mkCounters (test_count c) (passed_count c) (c_warnings c ++ [msg]) (c_errors c).

Definition add_driver_error (msg : string) (c : counters) : counters :=
  mkCounters (test_count c) (passed_count c) (c_warnings c) (c_errors c ++ [msg]).

(** Conversion of a Python [int] to [float]; exact below [2^53], and the
    driver's counters never exceed 4. *)
Definition float_of_int (n : Z) : float := PrimFloat.of_uint63 (Uint63.of_Z n).

(** [passed_tests / test_count] when [test_count > 0], else the initial
    [0.0]. *)
Definition score_of (passed_tests test_count : Z) : float :=
  if decide (0 < test_count)%Z
  then PrimFloat.div (float_of_int passed_tests) (float_of_int test_count)
  else 0%float.

(** [VALIDATION_LEVEL in [...]] inside the driver, on the level's value. *)
Definition value_in (l : ValidationLevel) (vs : list string) : bool :=
  bool_decide (level_value l ∈ vs).

(** The basic import test: the first [try] of [run_validation]. *)
Definition basic_block (env : driver_env) : script unit :=
  try_except
    (step (printed env PTesting);;
     truth ← step (match de_basic env with
                   | None => Raises "name 'test_basic_import' is not defined"
                   | Some call => call
                   end);
     update (count_tests 1);;
     is_true ← step truth;
     if is_true : bool
     then update (count_passed 1);; step (de_message env)
     else step (de_message env))
    (λ e, update (add_driver_error ("Basic import test error: " ++ e));;
          step (printed env PBasicFailed)).

(** The additional tests of the levels standard and comprehensive. *)
Definition extended_block (env : driver_env) : script unit :=
  try_except
    (has_version ← step (de_extended env);
     (if has_version : bool
      then step (de_version env)
      else update (add_warning "No version information found"));;
     step (de_attributes env);;
     update (count_tests 2);;
     update (count_passed 2))
    (λ e, update (add_driver_error ("Extended testing error: " ++ e))).

(** The performance test of the levels performance and comprehensive. *)
Definition performance_block (env : driver_env) : script unit :=
  try_except
    (step (printed env PPerformance);;
     import_time ← step (de_import_time env);
     step (printed env PImportTime);;
     update (count_tests 1);;
     if PrimFloat.ltb import_time 5%float
     then update (count_passed 1)
     else mret tt)
    (λ e, update (add_driver_error ("Performance test error: " ++ e))).

(** The body of [run_validation] up to the computation of the score. *)
Definition validation_blocks (level : ValidationLevel) (env : driver_env) : script unit :=
  basic_block env;;
  (if value_in level ["standard"; "comprehensive"]
   then extended_block env else mret tt);;
  (if value_in level ["performance"; "comprehensive"]
   then performance_block env else mret tt).

(** [run_validation()] of the generated script. *)
Definition run_validation (level : ValidationLevel) (env : driver_env)
  : outcome driver_results :=
  let '(o, c) := validation_blocks level env (mkCounters 0 0 [] []) in
  _ ← o;
  Returns (mkDriverResults (score_of (passed_count c) (test_count c))
                           (passed_count c) (test_count c) (c_warnings c) (c_errors c)).

(** The pass threshold [0.8] of the source, that is the binary64 number
    nearest to it, which is what the Python literal denotes. *)
Definition threshold : float := 0x1.999999999999ap-1%float.

(** The exit status chosen at the end of the [__main__] block:
    [results['overall_score'] >= 0.8]. *)
Definition exit_status (results : driver_results) : Z :=
  if PrimFloat.leb threshold (overall_score results) then 0%Z else 1%Z.

(** The [try] of the [__main__] block; [sys.exit] ends the process. *)
Definition main_try (level : ValidationLevel) (env : driver_env) : outcome unit :=
  printed env PStart;;
  results ← run_validation level env;
  printed env PReport;;
  if PrimFloat.leb threshold (overall_score results)
  then printed env PPassed;; Ends 0
  else printed env PFailed;; Ends 1.

(** The exit status of the child process.  An exception of the text before
    the driver is uncaught: status 1.  The handler of the [__main__] block
    prints and exits with status 1, and an exception inside it is uncaught:
    status 1 again. *)
Definition driver (level : ValidationLevel) (env : driver_env) : Z :=
  match de_prelude env with
  | Ends status => status
  | Raises _ => 1
  | Returns _ =>
    match main_try level env with
    | Ends status => status
    | Raises _ => 1
    | Returns _ => 0   (* not reached: both branches of [main_try] end in [sys.exit] *)
    end
  end.

(** ** Regular expressions: the subset the pattern table uses

    Text is a sequence of code points.  A pattern is a sequence of atoms,
    each a literal character or the class [\s], each optionally followed
    by [*] or [+]. *)

Definition codes (s : string) : list N := map N_of_ascii (String.list_ascii_of_string s).

Inductive atom := Lit (c : N) | Space.
Inductive quantifier := Once | Star | Plus.
Definition regex := list (atom * quantifier).

Inductive token := TAtom (a : atom) | TStar | TPlus | TBad.

Definition is_alnum (c : N) : bool :=
  ((48 <=? c) && (c <=? 57) || (65 <=? c) && (c <=? 90) || (97 <=? c) && (c <=? 122))%N.

(** Characters with a meaning of their own in a pattern. *)
Definition metachar (c : N) : bool := existsb (N.eqb c) (codes ".^$*+?{}[]|()\").

Fixpoint tokens (escaped : bool) (p : list N) : list token :=
  match p with
  | [] => if escaped then [TBad] else []
  | c :: rest =>
    if escaped then
      (if (c =? 115)%N then TAtom Space           (* \s *)
       else if is_alnum c then TBad               (* \d, \w, \b, ...: not in the subset *)
       else TAtom (Lit c)) :: tokens false rest   (* an escaped punctuation character *)
    else if (c =? 92)%N then tokens true rest
    else if (c =? 42)%N then TStar :: tokens false rest
    else if (c =? 43)%N then TPlus :: tokens false rest
    else if metachar c then TBad :: tokens false rest
    else TAtom (Lit c) :: tokens false rest
  end.

Fixpoint group (ts : list token) : option regex :=
  match ts with
  | [] => Some []
  | TAtom a :: rest =>
    match rest with
    | TStar :: rest' => cons (a, Star) <$> group rest'
    | TPlus :: rest' => cons (a, Plus) <$> group rest'
    | _ => cons (a, Once) <$> group rest
    end
  | _ => None
  end.

(** [re.compile(pattern)] on the subset; [None] outside it. *)
Definition compile (pattern : string) : option regex := group (tokens false (codes pattern)).

(** [\s] on [str]: the characters for which [str.isspace] holds. *)
Definition is_space (c : N) : bool :=
  ((9 <=? c) && (c <=? 13) || (28 <=? c) && (c <=? 32)
   || (c =? 0x85) || (c =? 0xA0) || (c =? 0x1680)
   || (0x2000 <=? c) && (c <=? 0x200A)
   || (c =? 0x2028) || (c =? 0x2029) || (c =? 0x202F) || (c =? 0x205F) || (c =? 0x3000))%N.

(** The lower-case mapping as far as ASCII is concerned: the result is an
    ASCII character exactly when Python's simple lower-case mapping of [c]
    is that character (capital I with dot above and the Kelvin sign are
    the two characters outside ASCII that map into it). *)
Definition to_lower (c : N) : N :=
  (if (65 <=? c) && (c <=? 90) then c + 32
   else if c =? 0x130 then 105
   else if c =? 0x212A then 107
   else c)%N.

(** A literal of the pattern against a character of the text, under
    [re.IGNORECASE]: equal after lower-casing, or one of the two extra
    equivalences the [re] module knows for ASCII letters (dotless i for
    [i], long s for [s]). *)
Definition lit_matches (p c : N) : bool :=
  ((to_lower c =? to_lower p)
   || (to_lower p =? 105) && (c =? 0x131)
   || (to_lower p =? 115) && (c =? 0x17F))%N.

Definition atom_matches (a : atom) (c : N) : bool :=
  match a with
  | Lit p => lit_matches p c
  | Space => is_space c
  end.

(** Does [r] match a prefix of [s]? *)
Fixpoint match_here (r : regex) (s : list N) {struct r} : bool :=
  match r with
  | [] => true
  | (a, Once) :: r' =>
    match s with
    | c :: s' => atom_matches a c && match_here r' s'
    | [] => false
    end
  | (a, Star) :: r' =>
    (fix star (s : list N) : bool :=
       match_here r' s ||
       match s with
       | c :: s' => atom_matches a c && star s'
       | [] => false
       end) s
  | (a, Plus) :: r' =>
    match s with
    | c :: s' =>
      atom_matches a c &&
      (fix star (s : list N) : bool :=
         match_here r' s ||
         match s with
         | c :: s' => atom_matches a c && star s'
         | [] => false
         end) s'
    | [] => false
    end
  end.

(** Does [r] match somewhere in [s]? *)
Fixpoint search (r : regex) (s : list N) : bool :=
  match_here r s ||
  match s with
  | _ :: s' => search r s'
  | [] => false
  end.

(** [re.search(pattern, content, re.IGNORECASE)] as a truth value.  Every
    pattern of the table is in the subset (see [table_compiles]). *)
Definition re_search (pattern : string) (content : list N) : bool :=
  match compile pattern with
  | Some r => search r content
  | None => false
  end.

(** ** Security scan *)

(** A file found by [package_dir.rglob("*.py")]: its [name] (last path
    component) and its decoded content, [None] when reading it raises. *)
Record source_file := mkFile {
  file_name : string;
  file_content : option (list N)
}.

Record finding := mkFinding {
  f_category : string;
  f_pattern : string;
  f_file : string
}.

(** [f"{category}: {pattern} found in {file_path.name}"] *)
Definition render (x : finding) : string :=
  f_category x ++ ": " ++ f_pattern x ++ " found in " ++ f_file x.

(** The body of the loop over files: an unreadable file is skipped (with a
    logged warning), a readable one is checked against every pattern of
    every category, in table order. *)
Definition file_findings (patterns : list (string * list string)) (f : source_file)
  : list finding :=
  match file_content f with
  | None => []
  | Some content =>
    flat_map (fun '(category, pats) =>
      flat_map (fun pattern =>
        if re_search pattern content
        then [mkFinding category pattern (file_name f)]
        else []) pats) patterns
  end.

(** [_security_scan] *)
Definition _security_scan (fw : ValidationFramework) (python_files : list source_file)
  : list string :=
  map render (flat_map (file_findings (security_patterns fw)) python_files).

(** ** validate_package *)

(** What [subprocess.run] of the test file did. *)
Inductive run_outcome :=
| Completed (returncode : Z) (stdout stderr : string)
| Timeout
| Failure (msg : string).

(** The fields of [ValidationResult] that the properties below read;
    [score], [test_results], [warnings] and [errors] are parsed from the
    captured output and are left out. *)
Record ValidationResult := mkResult {
  vr_package_name : string;
  vr_level : ValidationLevel;
  passed : bool;
  security_issues : option (list string)
}.

(** [validate_package]: [None] when [generate_test_script] raises, which
    happens before the [try]. *)
Definition validate_package (fw : ValidationFramework) (package_name : string)
    (python_files : list source_file) (validation_level : ValidationLevel)
    (run : run_outcome) : option ValidationResult :=
  _ ← generate_test_script fw package_name validation_level None;
  match run with
  | Completed returncode _ _ =>
    let validation_result :=
      mkResult package_name validation_level (bool_decide (returncode = 0%Z)) None in
    if level_in validation_level [SECURITY; COMPREHENSIVE]
    then Some (mkResult package_name validation_level (passed validation_result)
                        (Some (_security_scan fw python_files)))
    else Some validation_result
  | Timeout | Failure _ =>
    Some (mkResult package_name validation_level false None)
  end.

(** ** Vocabulary of the properties *)

(** The binary64 number nearest to 0.6. *)
Definition six_tenths : float := 0x1.3333333333333p-1%float.

(** The run goes through to the exit decision of the [__main__] block:
    the text before the driver runs through, [run_validation] returns
    [results], and the prints around it do not raise. *)
Definition reaches_verdict (level : ValidationLevel) (env : driver_env)
    (results : driver_results) : Prop :=
  de_prelude env = Returns tt ∧
  run_validation level env = Returns results ∧
  ∀ site, site ∈ [PStart; PReport; PPassed; PFailed] → de_print env site = None.

(** [m] counts at most [n] tests, and no more passed tests than tests. *)
Definition counts_at_most (n : Z) (m : script unit) : Prop :=
  ∀ c, ∃ k j, (0 ≤ j ≤ k ≤ n)%Z ∧
              test_count (m c).2 = (test_count c + k)%Z ∧
              passed_count (m c).2 = (passed_count c + j)%Z.



(** ** Error lines *)

(** [s.split('\n')] *)
Fixpoint split_lines (s : list N) : list (list N) :=
  match s with
  | [] => [[]]
  | c :: rest =>
    if (c =? 10)%N then [] :: split_lines rest
    else match split_lines rest with
         | line :: lines => (c :: line) :: lines
         | [] => [[c]]
         end
  end.

(** ["\n".join(lines)] *)
Fixpoint join_lines (lines : list (list N)) : list N :=
  match lines with
  | [] => []
  | [line] => line
  | line :: rest => (line ++ 10%N :: join_lines rest)%list
  end.

(** [s.lstrip()], [s.rstrip()], [s.strip()]: whitespace is what
    [str.isspace] accepts. *)
Fixpoint lstrip (s : list N) : list N :=
  match s with
  | c :: rest => if is_space c then lstrip rest else s
  | [] => []
  end.

Definition rstrip (s : list N) : list N := rev (lstrip (rev s)).

Definition strip (s : list N) : list N := rstrip (lstrip s).

(** [_extract_errors_from_output] *)
Definition _extract_errors_from_output (error_output : list N) : list (list N) :=
  match error_output with
  | [] => []
  | _ =>
    flat_map (λ line, match strip line with
                      | [] => []
                      | stripped => [stripped]
                      end)
             (split_lines error_output)
  end.

(** ** Vocabulary of the further properties *)

(** Lower-casing and upper-casing of the ASCII letters of a text. *)
Definition ascii_lower (c : N) : N :=
  (if (65 <=? c) && (c <=? 90) then c + 32 else c)%N.

Definition ascii_upper (c : N) : N :=
  (if (97 <=? c) && (c <=? 122) then c - 32 else c)%N.

(** The number of patterns of a table. *)
Definition pattern_count (table : list (string * list string)) : nat :=
  length (flat_map snd table).

(** A stripped, non-empty, single line. *)
Definition clean_line (line : list N) : Prop :=
  line ≠ [] ∧ (10%N ∉ line) ∧
  (∀ c rest, line = c :: rest → is_space c = false) ∧
  (∀ c front, line = (front ++ [c])%list → is_space c = false).

(** The four templates that [_load_test_templates] installs are present. *)
Definition templates_loaded (fw : ValidationFramework) : Prop :=
  ∀ k, k ∈ ["basic"; "web"; "data"; "security"] → is_Some (test_templates fw !! k).

(** A sequence of [create_custom_test] calls. *)
Definition register_all (customs : list (string * string)) (fw : ValidationFramework)
  : ValidationFramework :=
  foldl (λ fw '(test_name, test_function), create_custom_test test_name test_function fw)
        fw customs.

(** The file with [g] applied to every character of its content. *)
Definition map_content (g : N → N) (f : source_file) : source_file :=
  mkFile (file_name f) (map g <$> file_content f).

(** Whether reading the file succeeds. *)
Definition readable (f : source_file) : bool := bool_decide (is_Some (file_content f)).

End Validation.

(* ===================================================================== *)
(** * Callers: smart_snakepit.py and snakepit_cli.py                      *)
(* ===================================================================== *)

Module Callers.
Import Handler.

(** The record object behind a reference that is known to be live. *)
Definition deref (a : addr) (w : World) : PackageMetadata :=
  default (mkMeta "" "" PENDING 0 None None "" None [] [] [] ∅ []) (records w !! a).

(** What [validate_only] returns: the short dict after a failed ingest, or
    the full one. *)
Inductive validate_only_result :=
| IngestFailed (errors : list string)
| Validated (success : bool) (package_name version : string)
            (validation_results : gmap string value) (errors warnings : list string).

(** [SmartSnakepitIntegration.validate_only].  The [finally] clause runs on
    every path; the handler's operations raise nothing. *)
Definition validate_only (package_name version : string)
    (ie : ingest_env) (te : test_env) (ke : kill_env) (w : World)
  : validate_only_result * World :=
  let original_dry_run := dry_run w in
  (* Enable dry-run mode *)
  let w := with_dry_run true w in
  let '(a, w) := ingest package_name version None ie w in
  if decide (status (deref a w) = FAILED) then
    (IngestFailed (error_log (deref a w)), with_dry_run original_dry_run w)
  else
    let '(test_success, w) := test_collaborate package_name te w in
    (* Cleanup *)
    let '(_, w) := kill_destroy package_name ke w in
    let pkg_meta := deref a w in
    (Validated test_success package_name version (validation_results pkg_meta)
               (error_log pkg_meta) (success_log pkg_meta),
     with_dry_run original_dry_run w).

(** [SmartSnakepitIntegration.handle_package_smart], as far as the handler
    is concerned.  [add_dependency] is what
    [self.config_manager.add_dependency] does after a successful install:
    [None], or the exception it raises, which the [except] branch answers
    with a [kill_destroy].  On every path the function itself calls
    [kill_destroy] at most once, with the answers [ke]. *)
Definition handle_package_smart (package_name version : string)
    (test_script : option string) (ie : ingest_env) (te : test_env) (ke : kill_env)
    (ce : conscript_env) (add_dependency : option string) (w : World) : bool * World :=
  (* Phase 1: Ingest *)
  let '(a, w) := ingest package_name version test_script ie w in
  if decide (status (deref a w) = FAILED) then
    let '(_, w) := kill_destroy package_name ke w in (false, w)
  else
    (* Phase 2: Test/Collaborate *)
    let '(test_success, w) := test_collaborate package_name te w in
    if negb test_success then
      let '(_, w) := kill_destroy package_name ke w in (false, w)
    else
      (* Phase 4: Conscript *)
      let '(install_success, w) := conscript_install package_name ce w in
      if install_success then
        match add_dependency with
        | None => (true, w)
        | Some _ =>
          (* Cleanup on error *)
          let '(_, w) := kill_destroy package_name ke w in (false, w)
        end
      else (false, w).

(** A Python truth test on an optional string argument. *)
Definition given (arg : option string) : option string :=
  match arg with
  | Some "" | None => None
  | Some s => Some s
  end.

(** [l[-n:]] for an integer [n] other than 0: the last [n] elements when
    [n] is positive, and [l[k:]] when [n = -k] is negative. *)
Definition slice_from_minus (n : Z) (l : list HistoryEntry) : list HistoryEntry :=
  if decide (0 < n)%Z then drop (length l - Z.to_nat n) l
  else drop (Z.to_nat (- n)) l.

(** The selection made by [cmd_history] from the loaded history:
    [--package], [--status], [--limit]. *)
Definition cmd_history_select (package status : option string) (limit : Z)
    (history : list HistoryEntry) : list HistoryEntry :=
  let filtered_history := history in
  let filtered_history :=
    match given package with
    | Some p => List.filter (λ h, String.eqb (h_name h) p) history
    | None => filtered_history
    end in
  let filtered_history :=
    match given status with
    | Some st => List.filter (λ h, String.eqb (h_status h) st) filtered_history
    | None => filtered_history
    end in
  if decide (limit = 0%Z) then filtered_history
  else slice_from_minus limit filtered_history.

End Callers.

(* ===================================================================== *)
(** * Sample runs                                                         *)
(* ===================================================================== *)

(** Concrete environments and worlds, used to run the model. *)
Module Sample.
Import Handler.

Definition ok : proc_result := Exited 0 "" "".
Definition nonzero : proc_result := Exited 1 "" "build failed".

(** An ingest in which everything the sandbox needs works. *)
Definition ingest_ok : ingest_env :=
  mkIngestEnv 100%float "5f0c" None (mkContainerEnv None ok) (mkVenvEnv ok ok None).

(** An ingest in which the sandbox cannot be built or installed. *)
Definition ingest_broken : ingest_env :=
  mkIngestEnv 100%float "5f0c" None
              (mkContainerEnv None nonzero) (mkVenvEnv ok nonzero None).

Definition test_ok : test_env := mkTestEnv 101%float (Exited 0 "Score: 1.00" "").

Definition kill_ok : kill_env := mkKillEnv ok None (mkHistoryEnv None).

(** A destroy during which [shutil.rmtree] raises. *)
Definition kill_rmtree_raises : kill_env :=
  mkKillEnv ok (Some "[Errno 13] Permission denied") (mkHistoryEnv None).

Definition conscript_ok : conscript_env :=
  mkConscriptEnv 102%float (fun _ => FileNotFound "No such file or directory")
                 ok TomlAdded kill_ok.

(** A fresh handler on the venv backend, in dry-run mode, with no history
    file yet. *)
Definition venv_handler : World :=
  new_handler "/tmp/snakepit-sandbox" None true false None.

(** A fresh handler on a container backend. *)
Definition container_handler : World :=
  new_handler "/tmp/snakepit-sandbox" (Some "podman") false false None.

(** [requests] ingested, then tested and approved, on the venv backend. *)
Definition ingested : World := (ingest "requests" "2.31.0" None ingest_ok venv_handler).2.
Definition approved : World := (test_collaborate "requests" test_ok ingested).2.

(** The record object at an address (a blank record if there is none). *)
Definition record_at (a : addr) (w : World) : PackageMetadata :=
  default (mkMeta "" "" PENDING 0 None None "" None [] [] [] ∅ []) (records w !! a).

(** Scenario B: ingest, test, conscript. *)
Definition scenario_b : list call :=
  [ Ingest "requests" "2.31.0" None ingest_ok;
    TestCollaborate "requests" test_ok;
    ConscriptInstall "requests" conscript_ok ].

(** A failed ingest followed, without a destroy, by a test that passes. *)
Definition test_after_failed_ingest : list call :=
  [ Ingest "requests" "2.31.0" None ingest_broken;
    TestCollaborate "requests" test_ok ].

(** A framework whose basic template is a one-line stand-in. *)
Definition framework : Validation.ValidationFramework :=
  Validation.new_framework {[ "basic" := "def test_basic_import(package_name): ..." ]}.

(** The same templates with an empty pattern table. *)
Definition framework_no_patterns : Validation.ValidationFramework :=
  Validation.mkFramework (Validation.test_templates framework) [].


(** A package whose top-level code calls [sys.exit(0)]: the import inside
    [test_basic_import] ends the process with status 0. *)
Definition exits_on_import : Validation.driver_env :=
  Validation.mkDriverEnv
    (Validation.Returns tt) (Some (Validation.Ends 0))
    (Validation.Returns tt) (Validation.Ends 0) (Validation.Returns tt)
    (Validation.Returns tt) (Validation.Ends 0) (λ _, None).

(** A healthy package in a child process whose standard output refuses
    the report: the print of the results raises. *)
Definition report_print_raises : Validation.driver_env :=
  Validation.mkDriverEnv
    (Validation.Returns tt) (Some (Validation.Returns (Validation.Returns true)))
    (Validation.Returns tt) (Validation.Returns true) (Validation.Returns tt)
    (Validation.Returns tt) (Validation.Returns 0.25%float)
    (λ site, match site with
             | Validation.PReport => Some "[Errno 32] Broken pipe"
             | _ => None
             end).




(** An install command that exits with a non-zero status. *)
Definition conscript_fails : conscript_env :=
  mkConscriptEnv 102%float (fun _ => FileNotFound "No such file or directory")
                 (Exited 1 "" "ERROR: No matching distribution found") TomlAdded kill_ok.

(** A handler on the venv backend that is not in dry-run mode. *)
Definition live_handler : World :=
  new_handler "/tmp/snakepit-sandbox" None false false None.

(** [requests] ingested and approved on that handler. *)
Definition live_approved : World :=
  (test_collaborate "requests" test_ok
     (ingest "requests" "2.31.0" None ingest_ok live_handler).2).2.

End Sample.

(* ===================================================================== *)
(** * Properties of the lifecycle controller                              *)
(* ===================================================================== *)

Module HandlerSpec.
Import Handler.

(** ** Reading a world after a primitive step *)

Lemma active_set_active m w : active (set_active m w) = m.
Proof. unfold active, set_active; simpl. by rewrite lookup_insert_eq. Qed.

Lemma active_log_msg lvl msg w : active (log_msg lvl msg w) = active w.
Proof. reflexivity. Qed.

Lemma active_store a r w : active (store a r w) = active w.
Proof. reflexivity. Qed.

Lemma active_with_sandboxes s w : active (with_sandboxes s w) = active w.
Proof. reflexivity. Qed.

Lemma active_save_history r env w : active (_save_package_history r env w) = active w.
Proof. unfold _save_package_history. by destruct (he_error env) as [[e|e]|]. Qed.

Lemma records_save_history r env w : records (_save_package_history r env w) = records w.
Proof. unfold _save_package_history. by destruct (he_error env) as [[e|e]|]. Qed.

Lemma records_log_msg lvl msg w : records (log_msg lvl msg w) = records w.
Proof. reflexivity. Qed.

Lemma records_store a r w : records (store a r w) = <[a := r]> (records w).
Proof. reflexivity. Qed.

Lemma records_set_active m w : records (set_active m w) = records w.
Proof. reflexivity. Qed.

Lemma records_with_sandboxes s w : records (with_sandboxes s w) = records w.
Proof. reflexivity. Qed.

Lemma active_with_records rs n w : active (with_records rs n w) = active w.
Proof. reflexivity. Qed.

Lemma records_with_records rs n w : records (with_records rs n w) = rs.
Proof. reflexivity. Qed.

Lemma sandboxes_log_msg lvl msg w : sandboxes (log_msg lvl msg w) = sandboxes w.
Proof. reflexivity. Qed.

Lemma sandboxes_store a r w : sandboxes (store a r w) = sandboxes w.
Proof. reflexivity. Qed.

Lemma sandboxes_set_active m w : sandboxes (set_active m w) = sandboxes w.
Proof. reflexivity. Qed.

Lemma sandboxes_with_sandboxes s w : sandboxes (with_sandboxes s w) = s.
Proof. reflexivity. Qed.

Lemma sandboxes_save_history r env w : sandboxes (_save_package_history r env w) = sandboxes w.
Proof. unfold _save_package_history. by destruct (he_error env) as [[e|e]|]. Qed.

Lemma active_update_graph r o w : active (_update_dependency_graph r o w) = active w.
Proof. by destruct o. Qed.

Lemma records_update_graph r o w : records (_update_dependency_graph r o w) = records w.
Proof. by destruct o. Qed.

Lemma sandboxes_update_graph r o w : sandboxes (_update_dependency_graph r o w) = sandboxes w.
Proof. by destruct o. Qed.

Create Rewrite HintDb world.
#[global] Hint Rewrite active_set_active active_log_msg active_store active_with_sandboxes
  active_save_history active_with_records
  records_log_msg records_store records_set_active records_with_sandboxes
  records_save_history records_with_records
  sandboxes_log_msg sandboxes_store sandboxes_set_active sandboxes_with_sandboxes
  sandboxes_save_history active_update_graph records_update_graph sandboxes_update_graph
  : world.

Lemma lookup_active_Some name w a r :
  lookup_active name w = Some (a, r) ↔ active w !! name = Some a ∧ records w !! a = Some r.
Proof.
  unfold lookup_active. split.
  - destruct (active w !! name) as [a'|]; [|done].
    destruct (records w !! a') as [r'|] eqn:Hr; [|done].
    intros [= <- <-]. done.
  - intros [-> ->]. done.
Qed.

Lemma lookup_active_absent name w : active w !! name = None → lookup_active name w = None.
Proof. unfold lookup_active. by intros ->. Qed.

(** The two ways [kill_destroy] ends on an active name. *)
Lemma kill_destroy_active name env w a r :
  lookup_active name w = Some (a, r) →
  kill_destroy name env w =
    match removal env r w with
    | Some e =>
      (false,
       log_msg ERROR ("❌ KILL/DESTROY: Error cleaning up " ++ name ++ ": " ++ e)
         (log_msg INFO ("💀 KILL/DESTROY: Cleaning up " ++ name) w))
    | None =>
      let w1 := log_msg INFO ("💀 KILL/DESTROY: Cleaning up " ++ name) w in
      let w2 := with_sandboxes (sandboxes w1 ∖ {[ sandbox_id r ]}) w1 in
      let w3 := _save_package_history (destroyed r) (ke_history env) (store a (destroyed r) w2) in
      (true, log_msg INFO ("💀 KILL/DESTROY: Cleaned up " ++ name)
               (set_active (delete name (active w3)) w3))
    end.
Proof.
  intros H. unfold kill_destroy, removal. rewrite H. simpl.
  destruct (decide (sandbox_id r ∈ sandboxes w)); [destruct (ke_rmtree env)|]; reflexivity.
Qed.

Lemma kill_destroy_absent name env w :
  lookup_active name w = None →
  kill_destroy name env w =
    (false, log_msg WARNING ("Package " ++ name ++ " not found for destruction") w).
Proof. intros H. unfold kill_destroy. by rewrite H. Qed.

(** After a [kill_destroy] that returned true the name is unbound. *)
Lemma kill_destroy_true_unbinds name env w w' :
  kill_destroy name env w = (true, w') → active w' !! name = None.
Proof.
  destruct (lookup_active name w) as [[a r]|] eqn:H.
  - rewrite (kill_destroy_active _ _ _ _ _ H).
    destruct (removal env r w); [done|]. intros [= <-].
    rewrite active_log_msg, active_set_active. apply lookup_delete_eq.
  - rewrite (kill_destroy_absent _ _ _ H). done.
Qed.

(** C5.  A second [kill_destroy] right after one that returned true finds
    no active record: it changes nothing but the log, to which it adds
    one warning, and it returns false.  The operation is a total function,
    so no exception leaves it. *)
Theorem kill_destroy_twice name env1 env2 w w1 :
  kill_destroy name env1 w = (true, w1) →
  get_package_status name w1 = None ∧
  kill_destroy name env2 w1 =
    (false, log_msg WARNING ("Package " ++ name ++ " not found for destruction") w1).
Proof.
  intros H. apply kill_destroy_true_unbinds in H.
  pose proof (lookup_active_absent _ _ H) as Hn. split.
  - unfold get_package_status. by rewrite Hn.
  - by apply kill_destroy_absent.
Qed.

Lemma kill_destroy_twice_witness :
  kill_destroy "requests" Sample.kill_ok Sample.ingested
    = (true, (kill_destroy "requests" Sample.kill_ok Sample.ingested).2) ∧
  get_package_status "requests" (kill_destroy "requests" Sample.kill_ok Sample.ingested).2
    = None ∧
  kill_destroy "requests" Sample.kill_rmtree_raises
               (kill_destroy "requests" Sample.kill_ok Sample.ingested).2
    = (false,
       log_msg WARNING ("Package " ++ "requests" ++ " not found for destruction")
               (kill_destroy "requests" Sample.kill_ok Sample.ingested).2).
Proof.
  split; [vm_compute; reflexivity|].
  apply (kill_destroy_twice "requests" Sample.kill_ok Sample.kill_rmtree_raises
                            Sample.ingested).
  vm_compute; reflexivity.
Defined.

(** ** Destroy: what is archived, and when *)

(** The history file after a save that met no I/O error ends with the
    entry of the record just saved, whatever the cap dropped. *)
Lemma save_history_appends r env w :
  he_error env = None →
  ∃ older, history_file (_save_package_history r env w) = Some (older ++ [history_entry r])%list.
Proof.
  intros He. unfold _save_package_history. rewrite He. simpl.
  set (h := default [] (history_file w)).
  destruct (decide (1000 < length (h ++ [history_entry r])%list)) as [Hlt|_].
  - exists (drop (length (h ++ [history_entry r])%list - 1000) h).
    unfold last_1000. rewrite drop_app_le; [done|].
    rewrite length_app in *. simpl in *. lia.
  - by exists h.
Qed.



(** A [kill_destroy] whose directory removal does not raise. *)
Lemma kill_destroy_clean name env w a r :
  lookup_active name w = Some (a, r) →
  removal env r w = None →
  ∃ w', kill_destroy name env w = (true, w') ∧
        active w' !! name = None ∧
        records w' !! a = Some (destroyed r) ∧
        sandboxes w' = sandboxes w ∖ {[ sandbox_id r ]} ∧
        (he_error (ke_history env) = None →
         ∃ older, history_file w' = Some (older ++ [history_entry (destroyed r)])%list).
Proof.
  intros Hl Hrm. rewrite (kill_destroy_active _ _ _ _ _ Hl), Hrm.
  eexists. split; [reflexivity|].
  autorewrite with world. split; [apply lookup_delete_eq|].
  split; [apply lookup_insert_eq|]. split; [done|].
  intros He. cbn. apply save_history_appends, He.
Qed.




(** ** Ingest always leaves a tracked record *)




Lemma create_venv_keeps is_win32 path env r :
  let r' := (_create_venv_sandbox is_win32 path env r).2 in
  status r' = status r ∧ status_trace r' = status_trace r ∧
  name r' = name r ∧ sandbox_id r' = sandbox_id r.
Proof.
  unfold _create_venv_sandbox.
  destruct (checked_run (ve_venv env)); [done|].
  destruct (checked_run (ve_pip env)); [done|].
  by destruct (ve_files env).
Qed.



(** ** Conscript: what a successful install leaves in the history *)

Lemma attempt_install_ok env r w :
  install_ok env w →
  ∃ msg, attempt_install env r w = (inr true, r, log_msg INFO msg w).
Proof.
  unfold attempt_install. intros [Hd|(bin & out & err & Hf & Hi)].
  - rewrite Hd. by eexists.
  - destruct (dry_run w); [by eexists|].
    rewrite Hf, Hi. destruct bin; by eexists.
Qed.

(** C1, as the code has it.  On every record on which [conscript_install]
    succeeds, the call returns true after setting the status to CONSCRIPTED
    and calling [kill_destroy]; when that cleanup's directory removal does
    not raise, the sandbox is gone, the name is unbound, the status trace
    ends CONSCRIPTED, DESTROYED, and the history entry written for the
    record carries the status value "destroyed": [kill_destroy] overwrites
    the status before it takes the snapshot. *)
Theorem conscript_install_archives_destroyed pkg env w a r :
  active w !! pkg = Some a →
  records w !! a = Some r →
  status r = APPROVED →
  install_ok env w →
  let r1 := conscripted (co_now env) r in
  ∃ w',
    conscript_install pkg env w = (true, w') ∧
    status r1 = CONSCRIPTED ∧
    (removal (co_kill env) r1 w = None →
     active w' !! pkg = None ∧
     (sandbox_id r ∉ sandboxes w') ∧
     records w' !! a = Some (destroyed r1) ∧
     status_trace (destroyed r1) = (status_trace r ++ [CONSCRIPTED; DESTROYED])%list ∧
     (he_error (ke_history (co_kill env)) = None →
      h_status (history_entry (destroyed r1)) = "destroyed" ∧
      ∃ older, history_file w' = Some (older ++ [history_entry (destroyed r1)])%list)).
Proof.
  intros Ha Hr Hs Hok r1.
  pose proof (proj2 (lookup_active_Some pkg w a r) (conj Ha Hr)) as Hl.
  unfold conscript_install. rewrite Hl.
  destruct (decide (status r ≠ APPROVED)) as [Hne|_]; [done|].
  destruct (attempt_install_ok env (set_install_time (co_now env) r)
              (log_msg INFO ("⚔️ CONSCRIPT: Installing " ++ pkg) w)) as [msg ->].
  { destruct Hok as [Hd|H]; [by left|by right]. }
  fold (conscripted (co_now env) r). fold r1.
  set (w2 := log_msg INFO _ (_update_dependency_graph r1 _ _)).
  assert (lookup_active pkg w2 = Some (a, r1)) as Hl2.
  { apply lookup_active_Some. unfold w2. autorewrite with world.
    split; [done|apply lookup_insert_eq]. }
  destruct (kill_destroy pkg (co_kill env) w2) as [b w'] eqn:Hk.
  exists w'. split; [done|]. split; [done|]. intros Hrm.
  assert (removal (co_kill env) r1 w2 = None) as Hrm2.
  { unfold removal in *. unfold w2. by autorewrite with world. }
  destruct (kill_destroy_clean pkg (co_kill env) w2 a r1 Hl2 Hrm2)
    as (w'' & Hk' & Hu & Hd & Hsb & Hh).
  rewrite Hk in Hk'. injection Hk' as _ <-.
  split; [done|]. split; [rewrite Hsb; apply not_elem_of_difference; right; by apply elem_of_singleton|].
  split; [done|]. split; [cbn; by rewrite <- app_assoc|].
  intros He. split; [done|]. by apply Hh.
Qed.

Lemma conscript_install_archives_destroyed_witness :
  let w := Sample.approved in
  let r := Sample.record_at 0 w in
  let r1 := conscripted (co_now Sample.conscript_ok) r in
  (active w !! "requests" = Some 0 ∧ records w !! 0 = Some r ∧ status r = APPROVED) ∧
  ∃ w',
    conscript_install "requests" Sample.conscript_ok w = (true, w') ∧
    status r1 = CONSCRIPTED ∧
    (removal (co_kill Sample.conscript_ok) r1 w = None →
     active w' !! "requests" = None ∧
     (sandbox_id r ∉ sandboxes w') ∧
     records w' !! 0 = Some (destroyed r1) ∧
     status_trace (destroyed r1) = (status_trace r ++ [CONSCRIPTED; DESTROYED])%list ∧
     (he_error (ke_history (co_kill Sample.conscript_ok)) = None →
      h_status (history_entry (destroyed r1)) = "destroyed" ∧
      ∃ older, history_file w' = Some (older ++ [history_entry (destroyed r1)])%list)).
Proof.
  split; [vm_compute; done|].
  apply (conscript_install_archives_destroyed "requests" Sample.conscript_ok
           Sample.approved 0); [vm_compute; reflexivity ..|].
  left. vm_compute; reflexivity.
Defined.

(** The run of scenario B: dry-run handler, [requests] ingested and
    approved, then conscripted.  The call returns true, nothing is active
    afterwards, and the history holds exactly one entry, whose status is
    "destroyed" (not "conscripted"). *)
Example conscript_dry_run_history :
  let res := conscript_install "requests" Sample.conscript_ok Sample.approved in
  get_package_status "requests" Sample.approved = Some APPROVED ∧
  res.1 = true ∧
  get_package_status "requests" res.2 = None ∧
  sandboxes res.2 = ∅ ∧
  (h_status <$> default [] (history_file res.2)) = ["destroyed"] ∧
  status_trace (Sample.record_at 0 res.2)
    = [INGESTING; TESTING; COLLABORATING; APPROVED; CONSCRIPTED; DESTROYED].
Proof. vm_compute. done. Qed.

(** ** The order of the phases *)

Lemma snoc_split {A} (t pre post : list A) (s s' : A) :
  (t ++ [s] = pre ++ s' :: post)%list →
  (post = [] ∧ pre = t ∧ s' = s) ∨
  (∃ post', post = (post' ++ [s])%list ∧ t = (pre ++ s' :: post')%list).
Proof.
  destruct post as [|x post _] using rev_ind; intros H.
  - left. apply app_inj_tail in H as [-> ->]. done.
  - right. exists post.
    change (pre ++ s' :: post ++ [x])%list with (pre ++ (s' :: post) ++ [x])%list in H.
    rewrite (assoc_L (++)) in H. apply app_inj_tail in H as [-> ->]. done.
Qed.

Lemma preceded_nil req : preceded req [].
Proof. intros pre s post H. by destruct pre. Qed.

Lemma preceded_snoc req t s :
  preceded req t → (target s → req t) → preceded req (t ++ [s]).
Proof.
  intros Ht Hs pre s' post H Htg.
  apply snoc_split in H as [(-> & -> & ->)|(post' & -> & ->)].
  - by apply Hs.
  - by apply (Ht pre s' post').
Qed.

Lemma testing_then_collaborating_mono pre more :
  testing_then_collaborating pre → testing_then_collaborating (pre ++ more).
Proof.
  intros (x & y & z & ->). exists x, y, (z ++ more)%list.
  rewrite <- app_assoc. cbn. by rewrite <- app_assoc.
Qed.

Lemma same_core_refl r : same_core r r.
Proof. done. Qed.

Lemma same_core_trans r1 r2 r3 : same_core r1 r2 → same_core r2 r3 → same_core r1 r3.
Proof. intros (?&?&?) (?&?&?). repeat split; congruence. Qed.

Lemma record_inv_same_core eng r r' : same_core r r' → record_inv eng r → record_inv eng r'.
Proof. intros (Hs & Ht & Hv). unfold record_inv. by rewrite Hs, Ht, Hv. Qed.

Lemma same_core_add_error msg r : same_core r (add_error msg r).
Proof. done. Qed.

Lemma same_core_add_success msg r : same_core r (add_success msg r).
Proof. done. Qed.

Lemma same_core_set_test_time t r : same_core r (set_test_time t r).
Proof. done. Qed.

Lemma same_core_set_install_time t r : same_core r (set_install_time t r).
Proof. done. Qed.

Lemma same_core_set_result k v r : k ≠ "python_path" → same_core r (set_result k v r).
Proof. intros Hk. repeat split. cbn. by rewrite lookup_insert_ne. Qed.

Lemma same_core_run_validation_command backend run r :
  same_core r (run_validation_command backend run r).2.
Proof.
  unfold run_validation_command. destruct run as [rc out err| | |]; try done.
  assert (same_core r (set_result "returncode" (VInt rc)
            (set_result "stderr" (VStr err) (set_result "stdout" (VStr out) r)))) as H.
  { repeat (eapply same_core_trans; [|by apply same_core_set_result]). done. }
  destruct (decide (rc = 0%Z)); cbn [snd];
    (eapply same_core_trans; [exact H|done]).
Qed.

Lemma same_core_test_in_venv env r : same_core r (_test_in_venv env r).2.
Proof.
  unfold _test_in_venv.
  destruct (validation_results r !! "python_path"); [|done].
  destruct (validation_results r !! "sandbox_path"); [|done].
  apply same_core_run_validation_command.
Qed.

(** On the venv backend a passing test needs the interpreter path that
    only a successful sandbox creation records. *)
Lemma test_in_venv_passes env r :
  (_test_in_venv env r).1 = true → is_Some (validation_results r !! "python_path").
Proof.
  unfold _test_in_venv. destruct (validation_results r !! "python_path"); [eauto|done].
Qed.

Lemma same_core_attempt_install env r w : same_core r (attempt_install env r w).1.2.
Proof.
  unfold attempt_install. destruct (dry_run w); [done|].
  destruct (find_snakepit _ _); [done|].
  destruct (co_install env) as [rc ? ?| | |]; try done.
  by destruct (decide (rc = 0%Z)).
Qed.

Lemma elem_of_snoc {A} (t : list A) (x y : A) : x ∈ (t ++ [y])%list ↔ x ∈ t ∨ x = y.
Proof. rewrite elem_of_app, list_elem_of_singleton. done. Qed.

(** A new value of [status]. *)
Lemma record_inv_set_status eng r s :
  record_inv eng r →
  s ≠ TESTING →
  (s = APPROVED →
   status r = COLLABORATING ∧ (eng = None → is_Some (validation_results r !! "python_path"))) →
  (s = CONSCRIPTED → status r = APPROVED) →
  record_inv eng (set_status s r).
Proof.
  intros (Hl & Hc & Hp & Hv & Hd) HT HA HC. unfold record_inv. cbn.
  apply last_Some in Hl as [t0 Ht0].
  assert (target s → COLLABORATING ∈ status_trace r) as Hcol.
  { intros [->| ->].
    - destruct (HA eq_refl) as [Hs _]. rewrite Ht0, Hs. rewrite elem_of_snoc. by right.
    - rewrite (HC eq_refl) in Ht0.
      assert (COLLABORATING ∈ t0) by (apply (Hc t0 APPROVED []); [done|by left]).
      rewrite Ht0. rewrite elem_of_snoc. by left. }
  assert (TESTING ∈ status_trace r → target s →
          testing_then_collaborating (status_trace r)) as Hord.
  { intros Hin [->| ->].
    - destruct (HA eq_refl) as [Hs _]. rewrite Hs in Ht0. rewrite Ht0 in Hin |- *.
      apply elem_of_snoc in Hin as [Hin|Hin]; [|done].
      apply list_elem_of_split in Hin as (x & y & ->).
      exists x, y, []. by rewrite <- app_assoc.
    - rewrite (HC eq_refl) in Ht0. specialize (Hp Hin).
      assert (testing_then_collaborating t0)
        by (apply (Hp t0 APPROVED []); [done|by left]).
      rewrite Ht0. by apply testing_then_collaborating_mono. }
  assert (TESTING ∈ (status_trace r ++ [s])%list → TESTING ∈ status_trace r) as Hin.
  { intros H. apply elem_of_snoc in H as [H|H]; [done|]. by subst. }
  split; [by rewrite last_snoc|].
  split; [by apply preceded_snoc|].
  split; [intros H%Hin; apply preceded_snoc; [by apply Hp|by apply Hord]|].
  split; [intros He Hk; rewrite elem_of_snoc; left; auto|].
  intros He Hr. rewrite elem_of_snoc. left.
  assert (APPROVED ∈ status_trace r ∨ CONSCRIPTED ∈ status_trace r ∨ target s) as [H|[H|H]].
  { destruct Hr as [H|H]; apply elem_of_snoc in H as [H|H]; auto;
      subst; right; right; [by left|by right]. }
  - auto.
  - auto.
  - destruct H as [->| ->].
    + destruct (HA eq_refl) as [_ Hk]. auto.
    + apply Hd; [done|]. left. rewrite Ht0, (HC eq_refl). rewrite elem_of_snoc. by right.
Qed.

(** The record as its constructor call in [ingest] makes it. *)
Lemma record_inv_new eng r :
  status r = INGESTING → status_trace r = [INGESTING] → validation_results r = ∅ →
  record_inv eng r.
Proof.
  intros Hs Ht Hv. unfold record_inv. rewrite Hs, Ht, Hv. cbn.
  assert (∀ req, preceded req [INGESTING]) as Hp.
  { intros req. apply (preceded_snoc req [] INGESTING (preceded_nil req)).
    by intros [|]. }
  split; [done|]. split; [apply Hp|]. split; [intros _; apply Hp|].
  split; [intros _ H; rewrite lookup_empty in H; by destruct H|].
  intros _ [H|H]; apply list_elem_of_singleton in H; done.
Qed.

(** The record after a successful sandbox creation. *)
Lemma record_inv_testing eng r :
  status_trace r = [INGESTING] → record_inv eng (set_status TESTING r).
Proof.
  intros Ht. unfold record_inv. cbn. rewrite Ht. cbn.
  assert (∀ req, preceded req [INGESTING; TESTING]) as Hp.
  { intros req. apply (preceded_snoc req [INGESTING] TESTING); [|by intros [|]].
    apply (preceded_snoc req [] INGESTING (preceded_nil req)). by intros [|]. }
  assert (TESTING ∈ [INGESTING; TESTING]) as Hin.
  { apply (elem_of_snoc [INGESTING]). by right. }
  split; [done|]. split; [apply Hp|]. split; [intros _; apply Hp|]. done.
Qed.

Lemma same_core_create_container env r : same_core r (_create_container_sandbox env r).2.
Proof.
  unfold _create_container_sandbox.
  destruct (ce_files env); [done|].
  destruct (ce_build env) as [rc ? ?| | |]; try done.
  by destruct (decide (rc = 0%Z)).
Qed.

Lemma same_core_create_venv_failed is_win32 path env r :
  (_create_venv_sandbox is_win32 path env r).1 = false →
  same_core r (_create_venv_sandbox is_win32 path env r).2.
Proof.
  unfold _create_venv_sandbox.
  destruct (checked_run (ve_venv env)); [done|].
  destruct (checked_run (ve_pip env)); [done|].
  by destruct (ve_files env).
Qed.

(** *** Preservation *)

Lemma world_inv_store eng a r w :
  world_inv eng w → record_inv eng r → world_inv eng (store a r w).
Proof.
  intros [He Hw] Hr. split; [done|]. intros a' r'. rewrite records_store.
  rewrite lookup_insert. case_decide; [by intros [= <-]|apply Hw].
Qed.

Lemma world_inv_same eng w w' :
  container_engine w' = container_engine w → records w' = records w →
  world_inv eng w → world_inv eng w'.
Proof. intros He Hr [? Hw]. split; [congruence|]. by rewrite Hr. Qed.

Lemma world_inv_lookup eng name w a r :
  world_inv eng w → lookup_active name w = Some (a, r) → record_inv eng r.
Proof. intros [_ Hw] [_ Hr]%lookup_active_Some. by apply (Hw a). Qed.

Lemma world_inv_log_msg eng lvl msg w : world_inv eng w → world_inv eng (log_msg lvl msg w).
Proof. apply world_inv_same; done. Qed.

Lemma world_inv_set_active eng m w : world_inv eng w → world_inv eng (set_active m w).
Proof. apply world_inv_same; done. Qed.

Lemma world_inv_with_sandboxes eng sb w :
  world_inv eng w → world_inv eng (with_sandboxes sb w).
Proof. apply world_inv_same; done. Qed.

Lemma world_inv_save_history eng r env w :
  world_inv eng w → world_inv eng (_save_package_history r env w).
Proof.
  unfold _save_package_history. destruct (he_error env) as [[e|e]|]; apply world_inv_same; done.
Qed.

Lemma world_inv_update_graph eng r o w :
  world_inv eng w → world_inv eng (_update_dependency_graph r o w).
Proof. destruct o; apply world_inv_same; done. Qed.

Lemma world_inv_alloc eng r w :
  world_inv eng w → record_inv eng r → world_inv eng (alloc_record r w).2.
Proof.
  intros Hw Hr. apply (world_inv_same eng (store (next_record w) r w)); [done..|].
  by apply world_inv_store.
Qed.

Lemma ingest_preserves eng pkg ver script env w :
  world_inv eng w → world_inv eng (ingest pkg ver script env w).2.
Proof.
  intros Hw. pose proof Hw as [He _]. unfold ingest.
  set (r0 := mkMeta pkg ver INGESTING (ie_now env) None None (ie_uuid env) script
                    [] [] [] ∅ [INGESTING]).
  assert (record_inv eng r0) as H0 by by apply record_inv_new.
  pose proof (world_inv_alloc eng r0 _ (world_inv_log_msg eng INFO
    ("🐍 INGEST: Starting ingestion of " ++ pkg) w Hw) H0) as Hw0.
  destruct (alloc_record r0 _) as [a w0]. cbn [snd] in Hw0.
  apply (world_inv_set_active eng (<[pkg := a]> (active w0))) in Hw0.
  set (w1 := set_active _ w0) in *.
  destruct (ie_mkdir env) as [e|]; cbn [snd].
  - apply world_inv_log_msg, world_inv_store; [done|].
    apply (record_inv_same_core eng _ _ (same_core_add_error _ _)).
    by apply record_inv_set_status.
  - apply (world_inv_with_sandboxes eng ({[ sandbox_id r0 ]} ∪ sandboxes w1)) in Hw0.
    set (w2 := with_sandboxes _ w1) in *.
    destruct (container_engine w2) as [e|] eqn:He2.
    + pose proof (same_core_create_container (ie_container env) r0) as Hc.
      destruct (_create_container_sandbox _ _) as [ok r']. cbn [snd] in Hc.
      pose proof Hc as (Hs & Ht & Hv).
      destruct ok; cbn [snd]; apply world_inv_log_msg, world_inv_store; try done.
      * by apply record_inv_testing.
      * apply (record_inv_same_core eng _ _ (same_core_add_error _ _)).
        apply record_inv_set_status; [|done..].
        by apply (record_inv_same_core eng r0).
    + pose proof (same_core_create_venv_failed (win32 w2)
                    (sandbox_dir w2 ++ "/" ++ sandbox_id r0) (ie_venv env) r0) as Hc.
      pose proof (create_venv_keeps (win32 w2)
                    (sandbox_dir w2 ++ "/" ++ sandbox_id r0) (ie_venv env) r0) as Hk.
      destruct (_create_venv_sandbox _ _ _ _) as [ok r']. cbn [fst snd] in Hc, Hk.
      destruct Hk as (_ & Ht & _).
      destruct ok; cbn [snd]; apply world_inv_log_msg, world_inv_store; try done.
      * by apply record_inv_testing.
      * apply (record_inv_same_core eng _ _ (same_core_add_error _ _)).
        apply record_inv_set_status; [|done..].
        by apply (record_inv_same_core eng r0 r' (Hc eq_refl)).
Qed.

Lemma test_collaborate_preserves eng pkg env w :
  world_inv eng w → world_inv eng (test_collaborate pkg env w).2.
Proof.
  intros Hw. pose proof Hw as [He _]. unfold test_collaborate.
  destruct (lookup_active pkg w) as [[a r]|] eqn:Hl; [|by apply world_inv_log_msg].
  pose proof (world_inv_lookup eng pkg w a r Hw Hl) as Hr.
  set (r1 := set_test_time (te_now env) (set_status COLLABORATING r)).
  assert (record_inv eng r1 ∧ status r1 = COLLABORATING) as [H1 Hs1].
  { split; [|done].
    apply (record_inv_same_core eng _ _ (same_core_set_test_time _ _)).
    by apply record_inv_set_status. }
  change (container_engine (log_msg INFO ("🧪 TEST/COLLABORATE: Validating " ++ pkg) w))
    with (container_engine w). rewrite He.
  assert (∃ ok r2, (match eng with
                    | Some _ => _test_in_container env r1
                    | None => _test_in_venv env r1
                    end) = (ok, r2) ∧ same_core r1 r2 ∧
                   (ok = true → eng = None →
                    is_Some (validation_results r1 !! "python_path")))
    as (ok & r2 & -> & Hc & Hpp).
  { destruct eng.
    - eexists _, _. split; [apply surjective_pairing|].
      split; [apply same_core_run_validation_command|done].
    - eexists _, _. split; [apply surjective_pairing|].
      split; [apply same_core_test_in_venv|]. intros H _. by apply (test_in_venv_passes env). }
  pose proof (record_inv_same_core eng r1 r2 Hc H1) as H2.
  destruct Hc as (Hs2 & _ & Hv2).
  destruct ok; cbn [snd]; apply world_inv_log_msg, world_inv_store;
    try by apply world_inv_log_msg.
  - apply (record_inv_same_core eng _ _ (same_core_add_success _ _)).
    apply record_inv_set_status; [done|done| |done].
    intros _. split; [congruence|]. intros ->. rewrite Hv2. by apply Hpp.
  - by apply record_inv_set_status.
Qed.

Lemma kill_destroy_preserves eng pkg env w :
  world_inv eng w → world_inv eng (kill_destroy pkg env w).2.
Proof.
  intros Hw. unfold kill_destroy.
  destruct (lookup_active pkg w) as [[a r]|] eqn:Hl; [|by apply world_inv_log_msg].
  pose proof (world_inv_lookup eng pkg w a r Hw Hl) as Hr.
  destruct (if decide _ then ke_rmtree env else None); cbn [snd].
  - by do 2 apply world_inv_log_msg.
  - apply world_inv_log_msg, world_inv_set_active, world_inv_save_history, world_inv_store.
    + by apply world_inv_with_sandboxes, world_inv_log_msg.
    + apply (record_inv_same_core eng _ _ (same_core_add_success _ _)).
      by apply record_inv_set_status.
Qed.

Lemma attempt_install_world eng env r w :
  world_inv eng w → world_inv eng (attempt_install env r w).2.
Proof.
  intros Hw. unfold attempt_install. destruct (dry_run w); [by apply world_inv_log_msg|].
  destruct (find_snakepit _ _) as [e|bin]; [done|].
  assert (world_inv eng (match bin with
                         | Some b => log_msg INFO ("Using snakepit binary: " ++ b) w
                         | None => log_msg INFO "Snakepit binary not found, using pip directly" w
                         end)) by (destruct bin; by apply world_inv_log_msg).
  destruct (co_install env) as [rc ? ?| | |]; try done.
  by destruct (decide (rc = 0%Z)).
Qed.

Lemma conscript_install_preserves eng pkg env w :
  world_inv eng w → world_inv eng (conscript_install pkg env w).2.
Proof.
  intros Hw. unfold conscript_install.
  destruct (lookup_active pkg w) as [[a r]|] eqn:Hl; [|by apply world_inv_log_msg].
  pose proof (world_inv_lookup eng pkg w a r Hw Hl) as Hr.
  destruct (decide (status r ≠ APPROVED)) as [|Hs%dec_stable]; [by apply world_inv_log_msg|].
  set (r1 := set_install_time (co_now env) r).
  set (w1 := log_msg INFO _ w).
  pose proof (same_core_attempt_install env r1 w1) as Hc.
  pose proof (attempt_install_world eng env r1 w1 (world_inv_log_msg _ _ _ _ Hw)) as Hw2.
  destruct (attempt_install env r1 w1) as [[attempt r2] w2]. cbn [fst snd] in Hc, Hw2.
  assert (record_inv eng r2 ∧ status r2 = APPROVED) as [H2 Hs2].
  { split; [|by destruct Hc as (-> & _)].
    by apply (record_inv_same_core eng r1 r2 Hc), (record_inv_same_core eng r r1). }
  destruct attempt as [e|[|]]; cbn [snd].
  - apply world_inv_log_msg, world_inv_store; [done|].
    apply (record_inv_same_core eng _ _ (same_core_add_error _ _)).
    by apply record_inv_set_status.
  - set (w3 := log_msg INFO _ (_update_dependency_graph _ _ _)).
    assert (world_inv eng w3) as Hw3.
    { apply world_inv_log_msg, world_inv_update_graph, world_inv_store; [done|].
      apply (record_inv_same_core eng _ _ (same_core_add_success _ _)).
      by apply record_inv_set_status. }
    pose proof (kill_destroy_preserves eng pkg (co_kill env) w3 Hw3) as Hk.
    by destruct (kill_destroy pkg (co_kill env) w3).
  - apply world_inv_log_msg, world_inv_store; [done|].
    by apply record_inv_set_status.
Qed.

Lemma exec_call_preserves eng c w : world_inv eng w → world_inv eng (exec_call c w).2.
Proof.
  intros Hw. destruct c as [n v sc env|n env|n env|n env|n|b]; unfold exec_call.
  - pose proof (ingest_preserves eng n v sc env w Hw). by destruct (ingest _ _ _ _ _).
  - pose proof (test_collaborate_preserves eng n env w Hw).
    by destruct (test_collaborate _ _ _).
  - pose proof (kill_destroy_preserves eng n env w Hw). by destruct (kill_destroy _ _ _).
  - pose proof (conscript_install_preserves eng n env w Hw).
    by destruct (conscript_install _ _ _).
  - done.
  - revert Hw. by apply world_inv_same.
Qed.

Lemma exec_calls_preserves eng cs w : world_inv eng w → world_inv eng (exec_calls cs w).2.
Proof.
  revert w. induction cs as [|c cs IH]; intros w Hw; [done|]. cbn [exec_calls].
  pose proof (exec_call_preserves eng c w Hw) as H1.
  destruct (exec_call c w) as [r w1]. cbn [snd] in H1.
  specialize (IH w1 H1). by destruct (exec_calls cs w1).
Qed.

(** *** Establishment and use *)

Lemma new_handler_inv dir eng dry is_win32 hist :
  world_inv eng (new_handler dir eng dry is_win32 hist).
Proof. split; [done|]. intros a r H. cbn in H. by rewrite lookup_empty in H. Qed.

Lemma record_inv_use eng r :
  record_inv eng r →
  collaborated (status_trace r) ∧
  (eng = None ∨ TESTING ∈ status_trace r → passed_phases (status_trace r)).
Proof.
  intros (_ & Hc & Hp & _ & Hd). split; [done|].
  intros H. destruct (decide (TESTING ∈ status_trace r)) as [Hin|Hnin]; [by apply Hp|].
  destruct H as [->|H]; [|done].
  intros pre s post Ht Hs. exfalso. apply Hnin, Hd; [done|].
  assert (s ∈ status_trace r) as Hin
    by (rewrite Ht, elem_of_app, elem_of_cons; right; by left).
  destruct Hs as [->| ->]; [by left|by right].
Qed.

(** C4, as the code has it.  Take a new handler and any sequence of calls
    of ingest, test_collaborate, kill_destroy and conscript_install (and of
    status queries and dry-run switches), with any answers of the outside
    world.  For every record object there is: wherever its status history
    holds APPROVED or CONSCRIPTED, COLLABORATING occurs earlier; and when
    the handler runs on the venv backend, or the record's sandbox creation
    succeeded (its history holds TESTING), TESTING and then COLLABORATING
    occur earlier, in that order. *)
Theorem phases_in_order dir eng dry is_win32 hist cs a r :
  records (exec_calls cs (new_handler dir eng dry is_win32 hist)).2 !! a = Some r →
  collaborated (status_trace r) ∧
  (eng = None ∨ TESTING ∈ status_trace r → passed_phases (status_trace r)).
Proof.
  intros Hr. apply record_inv_use.
  destruct (exec_calls_preserves eng cs _ (new_handler_inv dir eng dry is_win32 hist))
    as [_ Hw].
  by apply (Hw a).
Qed.

Lemma phases_in_order_witness :
  let w := (exec_calls Sample.scenario_b Sample.venv_handler).2 in
  let r := Sample.record_at 0 w in
  records w !! 0 = Some r ∧
  status r = DESTROYED ∧
  collaborated (status_trace r) ∧
  (@None string = None ∨ TESTING ∈ status_trace r → passed_phases (status_trace r)).
Proof.
  split; [vm_compute; reflexivity|]. split; [vm_compute; reflexivity|].
  apply (phases_in_order "/tmp/snakepit-sandbox" None true false None Sample.scenario_b 0).
  vm_compute; reflexivity.
Defined.

(** C4 as stated fails on a container backend: the image build of
    [requests] fails, so [ingest] leaves the record FAILED; the caller then
    calls [test_collaborate] (which does not look at the status) and the
    container run exits with status 0.  The record is APPROVED and its
    history never held TESTING. *)
Lemma approved_without_testing :
  let w := (exec_calls Sample.test_after_failed_ingest Sample.container_handler).2 in
  let r := Sample.record_at 0 w in
  records w !! 0 = Some r ∧
  status r = APPROVED ∧
  status_trace r = [INGESTING; FAILED; COLLABORATING; APPROVED] ∧
  ¬ passed_phases (status_trace r).
Proof.
  cbv zeta.
  assert (status_trace (Sample.record_at 0
            (exec_calls Sample.test_after_failed_ingest Sample.container_handler).2)
          = [INGESTING; FAILED; COLLABORATING; APPROVED]) as Ht
    by (vm_compute; reflexivity).
  split; [vm_compute; reflexivity|]. split; [vm_compute; reflexivity|].
  split; [exact Ht|]. rewrite Ht. intros H.
  destruct (H [INGESTING; FAILED; COLLABORATING] APPROVED [] eq_refl (or_introl eq_refl))
    as (x & y & z & Hx).
  assert (TESTING ∈ [INGESTING; FAILED; COLLABORATING]) as Hin.
  { rewrite Hx, elem_of_app, elem_of_cons. right. by left. }
  rewrite !elem_of_cons, elem_of_nil in Hin.
  destruct Hin as [Hin|[Hin|[Hin|Hin]]]; done.
Qed.

(** ** The mapping returned by list_packages *)

Lemma active_view w : active (handler_view w) = active w.
Proof. unfold active at 1. cbn. by rewrite lookup_singleton_eq. Qed.

Lemma lookup_active_view name w : lookup_active name (handler_view w) = lookup_active name w.
Proof. unfold lookup_active. by rewrite active_view. Qed.

Lemma view_log_msg lvl msg w : log_msg lvl msg (handler_view w) = handler_view (log_msg lvl msg w).
Proof. reflexivity. Qed.

Lemma view_store a r w : store a r (handler_view w) = handler_view (store a r w).
Proof. reflexivity. Qed.

Lemma view_with_sandboxes sb w :
  with_sandboxes sb (handler_view w) = handler_view (with_sandboxes sb w).
Proof. reflexivity. Qed.

Lemma view_with_records rs n w :
  with_records rs n (handler_view w) = handler_view (with_records rs n w).
Proof. reflexivity. Qed.

Lemma view_with_dry_run b w : with_dry_run b (handler_view w) = handler_view (with_dry_run b w).
Proof. reflexivity. Qed.

Lemma view_set_active m w : set_active m (handler_view w) = handler_view (set_active m w).
Proof.
  unfold handler_view at 2. rewrite active_set_active.
  unfold set_active, handler_view, with_dicts. cbn. by rewrite insert_singleton_eq.
Qed.

Lemma view_save_history r env w :
  _save_package_history r env (handler_view w) = handler_view (_save_package_history r env w).
Proof. unfold _save_package_history. by destruct (he_error env) as [[e|e]|]. Qed.

Lemma view_update_graph r o w :
  _update_dependency_graph r o (handler_view w) = handler_view (_update_dependency_graph r o w).
Proof. by destruct o. Qed.

Lemma sandboxes_view w : sandboxes (handler_view w) = sandboxes w.
Proof. reflexivity. Qed.

Create Rewrite HintDb view.
#[global] Hint Rewrite view_log_msg view_store view_with_sandboxes view_with_records
  view_set_active view_save_history view_update_graph active_view lookup_active_view
  sandboxes_view : view.

Lemma kill_destroy_view name env w :
  kill_destroy name env (handler_view w)
  = ((kill_destroy name env w).1, handler_view (kill_destroy name env w).2).
Proof.
  unfold kill_destroy. rewrite lookup_active_view.
  destruct (lookup_active name w) as [[a r]|]; [|done].
  rewrite view_log_msg, sandboxes_log_msg, sandboxes_view, sandboxes_log_msg.
  destruct (if decide _ then ke_rmtree env else None); cbn [fst snd].
  - by rewrite view_log_msg.
  - by autorewrite with view.
Qed.

Lemma test_collaborate_view name env w :
  test_collaborate name env (handler_view w)
  = ((test_collaborate name env w).1, handler_view (test_collaborate name env w).2).
Proof.
  unfold test_collaborate. rewrite lookup_active_view.
  destruct (lookup_active name w) as [[a r]|]; [|done].
  change (container_engine (log_msg INFO ("🧪 TEST/COLLABORATE: Validating " ++ name)
                                    (handler_view w)))
    with (container_engine (log_msg INFO ("🧪 TEST/COLLABORATE: Validating " ++ name) w)).
  destruct (match container_engine _ with
            | Some _ => _test_in_container env _
            | None => _test_in_venv env _
            end) as [[|] r2]; reflexivity.
Qed.

Lemma ingest_view pkg ver script env w :
  ingest pkg ver script env (handler_view w)
  = ((ingest pkg ver script env w).1, handler_view (ingest pkg ver script env w).2).
Proof.
  unfold ingest, alloc_record.
  set (r0 := mkMeta pkg ver INGESTING (ie_now env) None None (ie_uuid env) script
                    [] [] [] ∅ [INGESTING]).
  rewrite view_log_msg, view_with_records, active_view. cbn [records next_record handler_view].
  rewrite view_set_active.
  destruct (ie_mkdir env) as [e|]; [reflexivity|].
  rewrite sandboxes_view, view_with_sandboxes.
  cbn [container_engine win32 sandbox_dir handler_view with_sandboxes set_active
       with_dicts with_records log_msg].
  destruct (match container_engine w with
            | Some _ => _create_container_sandbox (ie_container env) r0
            | None => _create_venv_sandbox (win32 w) (sandbox_dir w ++ "/" ++ sandbox_id r0)
                                           (ie_venv env) r0
            end) as [[|] r']; reflexivity.
Qed.

Lemma attempt_install_view env r w :
  attempt_install env r (handler_view w)
  = ((attempt_install env r w).1, handler_view (attempt_install env r w).2).
Proof.
  unfold attempt_install. cbn [dry_run handler_view].
  destruct (dry_run w); [reflexivity|].
  destruct (find_snakepit _ _) as [e|[bin|]]; [reflexivity|..];
    (destruct (co_install env) as [rc ? ?| | |]; try reflexivity;
     by destruct (decide (rc = 0%Z))).
Qed.

Lemma conscript_install_view name env w :
  conscript_install name env (handler_view w)
  = ((conscript_install name env w).1, handler_view (conscript_install name env w).2).
Proof.
  unfold conscript_install. rewrite lookup_active_view.
  destruct (lookup_active name w) as [[a r]|]; [|done].
  destruct (decide (status r ≠ APPROVED)); [done|].
  rewrite view_log_msg, attempt_install_view.
  destruct (attempt_install _ _ _) as [[[e|[|]] r2] w2]; cbn [fst snd]; [reflexivity| |reflexivity].
  rewrite view_store, view_update_graph, view_log_msg, kill_destroy_view.
  by destruct (kill_destroy _ _ _).
Qed.

Lemma exec_call_view c w :
  exec_call c (handler_view w) = ((exec_call c w).1, handler_view (exec_call c w).2).
Proof.
  destruct c as [n v sc env|n env|n env|n env|n|b]; unfold exec_call.
  - rewrite ingest_view. by destruct (ingest _ _ _ _ _).
  - rewrite test_collaborate_view. by destruct (test_collaborate _ _ _).
  - rewrite kill_destroy_view. by destruct (kill_destroy _ _ _).
  - rewrite conscript_install_view. by destruct (conscript_install _ _ _).
  - unfold get_package_status. by rewrite lookup_active_view.
  - reflexivity.
Qed.

Lemma exec_calls_view cs w :
  exec_calls cs (handler_view w) = ((exec_calls cs w).1, handler_view (exec_calls cs w).2).
Proof.
  revert w. induction cs as [|c cs IH]; intros w; [done|]. cbn [exec_calls].
  rewrite exec_call_view. destruct (exec_call c w) as [r w1]. cbn [fst snd].
  rewrite IH. by destruct (exec_calls cs w1).
Qed.

(** Mutating another dict object is invisible to the handler. *)
Lemma mutate_dict_view d m w :
  d ≠ active_packages w →
  handler_view (mutate_dict d m w) = handler_view w ∧
  active_packages (mutate_dict d m w) = active_packages w.
Proof.
  intros Hd. split; [|done]. unfold handler_view. f_equal. f_equal.
  unfold active, mutate_dict. cbn. by rewrite lookup_alter_ne.
Qed.

Lemma mutate_dicts_view d ms w :
  d ≠ active_packages w →
  handler_view (foldl (λ w m, mutate_dict d m w) w ms) = handler_view w.
Proof.
  revert w. induction ms as [|m ms IH]; intros w Hd; [done|]. cbn.
  destruct (mutate_dict_view d m w Hd) as [Hv Ha].
  rewrite IH; [done|by rewrite Ha].
Qed.

(** C10.  [list_packages] returns a new dict object holding the bindings of
    the active map.  Whatever entries a caller then sets or deletes in the
    returned object, the handler's own active map and everything else the
    handler sees stay as they were before the call, and every sequence of
    later operations returns the same results and leaves the same
    handler-visible state as it would have without the call. *)
Theorem list_packages_is_copy w ms :
  active_packages w < next_dict w →
  let d := (list_packages w).1 in
  let w1 := (list_packages w).2 in
  let w2 := foldl (λ w m, mutate_dict d m w) w1 ms in
  d ≠ active_packages w ∧
  dicts w1 !! d = Some (active w) ∧
  active w1 = active w ∧
  active w2 = active w ∧
  handler_view w2 = handler_view w ∧
  ∀ cs, (exec_calls cs w2).1 = (exec_calls cs w).1 ∧
        handler_view (exec_calls cs w2).2 = handler_view (exec_calls cs w).2.
Proof.
  intros Hlt. cbn zeta. unfold list_packages. cbn [fst snd].
  set (w1 := with_dicts _ _ w).
  assert (next_dict w ≠ active_packages w) as Hne by lia.
  assert (active w1 = active w) as Ha1.
  { unfold active, w1. cbn. by rewrite lookup_insert_ne. }
  assert (handler_view w1 = handler_view w) as Hv1.
  { unfold handler_view. by rewrite Ha1. }
  assert (handler_view (foldl (λ x m, mutate_dict (next_dict w) m x) w1 ms)
          = handler_view w) as Hv2.
  { rewrite <- Hv1. by apply mutate_dicts_view. }
  split; [done|]. split; [apply lookup_insert_eq|]. split; [done|].
  split; [by rewrite <- active_view, Hv2, active_view|].
  split; [done|]. intros cs.
  pose proof (exec_calls_view cs (foldl (λ x m, mutate_dict (next_dict w) m x) w1 ms)) as H2.
  pose proof (exec_calls_view cs w) as H.
  rewrite Hv2, H in H2.
  split; [exact (eq_sym (f_equal fst H2))|exact (eq_sym (f_equal snd H2))].
Qed.

Lemma list_packages_is_copy_witness :
  let w := Sample.approved in
  let ms := [SetItem "flask" 7; DelItem "requests"; Clear] in
  let d := (list_packages w).1 in
  let w1 := (list_packages w).2 in
  let w2 := foldl (λ w m, mutate_dict d m w) w1 ms in
  dicts w2 !! d = Some ∅ ∧
  d ≠ active_packages w ∧
  dicts w1 !! d = Some (active w) ∧
  active w1 = active w ∧
  active w2 = active w ∧
  handler_view w2 = handler_view w ∧
  ∀ cs, (exec_calls cs w2).1 = (exec_calls cs w).1 ∧
        handler_view (exec_calls cs w2).2 = handler_view (exec_calls cs w).2.
Proof.
  split; [vm_compute; reflexivity|].
  apply (list_packages_is_copy Sample.approved
           [SetItem "flask" 7; DelItem "requests"; Clear]).
  vm_compute. lia.
Defined.

End HandlerSpec.

(* ===================================================================== *)
(** * Properties of the validation framework                              *)
(* ===================================================================== *)

Module ValidationSpec.
Import Validation.

(** ** Test-script generation *)

(** The generated text for a BASIC validation of [requests]: the header,
    the basic template, the driver. *)
Example generate_basic_requests :
  generate_test_script Sample.framework "requests" BASIC None =
  Some (join nl
    [ "#!/usr/bin/env python3";
      tq ++ "Generated test script for package validation" ++ tq;
      "";
      "import sys";
      "import time";
      "import json";
      "import traceback";
      "from pathlib import Path";
      "";
      "PACKAGE_NAME = 'requests'";
      "VALIDATION_LEVEL = 'basic'";
      "";
      "def test_basic_import(package_name): ...";
      main_script ]).
Proof. vm_compute. reflexivity. Qed.

(** With a template missing the subscript raises. *)
Example generate_security_missing_template :
  generate_test_script Sample.framework "requests" SECURITY None = None.
Proof. vm_compute. reflexivity. Qed.

(** The text produced by [generate_test_script] depends on the framework
    object only through the four templates it may look up: two frameworks
    that agree on these give the same text (or both raise), whatever else
    they hold. *)
Lemma generate_test_script_deterministic fw1 fw2 pkg level custom :
  (∀ k, k ∈ ["basic"; "web"; "data"; "security"] →
        test_templates fw1 !! k = test_templates fw2 !! k) →
  generate_test_script fw1 pkg level custom = generate_test_script fw2 pkg level custom.
Proof.
  intros H. unfold generate_test_script.
  rewrite (H "basic"), (H "web"), (H "data"), (H "security"); [done|..];
    rewrite !elem_of_cons; auto 10.
Qed.

(** ** The pass threshold *)

Lemma counts_mret : counts_at_most 0 (mret tt).
Proof. intros c. exists 0%Z, 0%Z. cbn. split; [lia|]. split; lia. Qed.

Lemma counts_weaken n n' m : (n ≤ n')%Z → counts_at_most n m → counts_at_most n' m.
Proof.
  intros Hn H c. destruct (H c) as (k & j & Hk & Ht & Hp).
  exists k, j. split; [lia|done].
Qed.

Lemma counts_bind n1 n2 (m1 m2 : script unit) :
  counts_at_most n1 m1 → counts_at_most n2 m2 → (0 ≤ n2)%Z →
  counts_at_most (n1 + n2) (m1;; m2).
Proof.
  intros H1 H2 Hn c. destruct (H1 c) as (k1 & j1 & Hk1 & Ht1 & Hp1).
  unfold mbind, script_bind. destruct (m1 c) as [[[]|e|status] c1]; cbn [snd] in *.
  - destruct (H2 c1) as (k2 & j2 & Hk2 & Ht2 & Hp2).
    exists (k1 + k2)%Z, (j1 + j2)%Z. split; [lia|]. split; lia.
  - exists k1, j1. split; [lia|done].
  - exists k1, j1. split; [lia|done].
Qed.

Lemma counts_basic env : counts_at_most 1 (basic_block env).
Proof.
  intros c. unfold basic_block, try_except, printed, step, update, mbind, script_bind.
  destruct (de_print env PTesting), (de_basic env) as [[[[|]|e1|n1]|e2|n2]|],
    (de_message env) as [[]|e3|n3], (de_print env PBasicFailed); cbn;
    first [exists 0%Z, 0%Z; split; [lia|]; split; lia
          |exists 1%Z, 0%Z; split; [lia|]; split; lia
          |exists 1%Z, 1%Z; split; [lia|]; split; lia].
Qed.

Lemma counts_extended env : counts_at_most 2 (extended_block env).
Proof.
  intros c. unfold extended_block, try_except, step, update, mbind, script_bind.
  destruct (de_extended env) as [[|]|e1|n1], (de_version env) as [[]|e2|n2],
    (de_attributes env) as [[]|e3|n3]; cbn;
    first [exists 0%Z, 0%Z; split; [lia|]; split; lia
          |exists 2%Z, 2%Z; split; [lia|]; split; lia].
Qed.

Lemma counts_performance env : counts_at_most 1 (performance_block env).
Proof.
  intros c. unfold performance_block, try_except, printed, step, update, mbind, script_bind.
  destruct (de_print env PPerformance), (de_import_time env) as [t|e1|n1],
    (de_print env PImportTime); cbn; try destruct (PrimFloat.ltb t 5); cbn;
    first [exists 0%Z, 0%Z; split; [lia|]; split; lia
          |exists 1%Z, 0%Z; split; [lia|]; split; lia
          |exists 1%Z, 1%Z; split; [lia|]; split; lia].
Qed.

Lemma counts_blocks level env : counts_at_most 4 (validation_blocks level env).
Proof.
  unfold validation_blocks.
  apply (counts_bind 1 3); [apply counts_basic| |lia].
  apply (counts_bind 2 1); [| |lia].
  - destruct (value_in level _);
      [apply counts_extended|apply (counts_weaken 0); [lia|apply counts_mret]].
  - destruct (value_in level _);
      [apply counts_performance|apply (counts_weaken 0); [lia|apply counts_mret]].
Qed.

(** What [run_validation] returns: the score is the ratio of the two
    counters, of which there are at most four tests. *)
Lemma run_validation_returns level env results :
  run_validation level env = Returns results →
  overall_score results = score_of (passed_tests results) (total_tests results) ∧
  (0 ≤ passed_tests results ≤ total_tests results ≤ 4)%Z.
Proof.
  unfold run_validation.
  destruct (counts_blocks level env (mkCounters 0 0 [] [])) as (k & j & Hk & Ht & Hp).
  destruct (validation_blocks level env _) as [[[]|e|status] c]; [|done..].
  cbn [snd test_count passed_count] in *. intros [= <-]. cbn. split; [done|lia].
Qed.

(** On every pair of counters the driver can reach, the floating-point
    test [score >= 0.8] decides the exact inequality
    [passed_tests / total_tests >= 4/5], which with at most four tests
    says that none failed. *)
Lemma threshold_exact (p t : Z) :
  (0 ≤ p ≤ t ≤ 4)%Z →
  (PrimFloat.leb threshold (score_of p t) = true ↔ (0 < t ∧ 4 * t ≤ 5 * p)%Z) ∧
  ((0 < t ∧ 4 * t ≤ 5 * p)%Z ↔ (0 < t ∧ p = t)%Z).
Proof.
  intros H. split; [|lia].
  assert (t = 0 ∨ t = 1 ∨ t = 2 ∨ t = 3 ∨ t = 4)%Z as Ht by lia.
  assert (p = 0 ∨ p = 1 ∨ p = 2 ∨ p = 3 ∨ p = 4)%Z as Hp by lia.
  destruct Ht as [->|[->|[->|[->| ->]]]], Hp as [->|[->|[->|[->| ->]]]];
    try lia;
    first [vm_compute; split; [intros _; split; congruence|reflexivity]
          |vm_compute; split; [discriminate|intros [? ?]; congruence]].
Qed.

Lemma exit_status_zero results :
  exit_status results = 0%Z ↔ PrimFloat.leb threshold (overall_score results) = true.
Proof. unfold exit_status. by destruct (PrimFloat.leb _ _). Qed.

(** A run that goes through to the exit decision exits as decided. *)
Lemma driver_verdict level env results :
  reaches_verdict level env results → driver level env = exit_status results.
Proof.
  intros (Hpre & Hrun & Hpr). unfold driver, main_try, printed, exit_status.
  rewrite Hpre, Hrun, (Hpr PStart), (Hpr PReport), (Hpr PPassed), (Hpr PFailed);
    rewrite ?elem_of_cons; auto 10.
  cbn. by destruct (PrimFloat.leb _ _).
Qed.

(** [passed] is the test [returncode == 0] on a run that completed. *)
Lemma validate_package_passed fw pkg files level rc out err res :
  validate_package fw pkg files level (Completed rc out err) = Some res →
  passed res = bool_decide (rc = 0%Z).
Proof.
  unfold validate_package.
  destruct (generate_test_script fw pkg level None); [|done]. cbn.
  destruct (level_in level [SECURITY; COMPREHENSIVE]); by intros [= <-].
Qed.

(** C3.  [passed] is the exit status of the child process, and that is
    the driver's decision [score >= 0.8] only on the runs that go through
    to it.  On such a run the score is [passed_tests/total_tests], the
    driver exits with status 0 exactly when the score is at least 0.8, and
    [passed] is true exactly then; 4 of 5 is the threshold itself and
    passes the test, 3 of 5 is 0.6 and does not.  But the handlers of the
    script catch [Exception] only.  A package whose import ends the process
    with status 0 (a [sys.exit(0)] at its top level) leaves
    [run_validation] without a score and gives [passed = true]; and a run
    with any score whose report cannot be printed exits with status 1 and
    gives [passed = false]. *)
Theorem passed_is_exit_status_not_score fw pkg files level env out err res :
  validate_package fw pkg files level (Completed (driver level env) out err) = Some res →
  (∀ results,
     reaches_verdict level env results →
     overall_score results = score_of (passed_tests results) (total_tests results) ∧
     (driver level env = 0%Z ↔ PrimFloat.leb threshold (overall_score results) = true) ∧
     (passed res = true ↔ PrimFloat.leb threshold (overall_score results) = true) ∧
     (passed res = true ↔
      (0 < total_tests results ∧ 4 * total_tests results ≤ 5 * passed_tests results)%Z)) ∧
  (score_of 4 5 = threshold ∧ PrimFloat.leb threshold (score_of 4 5) = true ∧
   score_of 3 5 = six_tenths ∧ PrimFloat.leb threshold (score_of 3 5) = false) ∧
  (de_prelude env = Returns tt →
   de_print env PStart = None → de_print env PTesting = None →
   de_basic env = Some (Ends 0) →
   run_validation level env = Ends 0 ∧ driver level env = 0%Z ∧ passed res = true) ∧
  (∀ results,
     de_prelude env = Returns tt →
     de_print env PStart = None →
     run_validation level env = Returns results →
     is_Some (de_print env PReport) →
     driver level env = 1%Z ∧ passed res = false).
Proof.
  intros Hv.
  pose proof (validate_package_passed _ _ _ _ _ _ _ _ Hv) as Hp.
  assert (passed res = true ↔ driver level env = 0%Z) as Hpd.
  { rewrite Hp. apply bool_decide_eq_true. }
  split; [|split; [|split]].
  - intros results Hr. pose proof (driver_verdict _ _ _ Hr) as Hd.
    destruct Hr as (_ & Hrun & _).
    destruct (run_validation_returns _ _ _ Hrun) as [Hs Hc].
    split; [done|]. split; [rewrite Hd; apply exit_status_zero|].
    split; [rewrite Hpd, Hd; apply exit_status_zero|].
    rewrite Hpd, Hd, exit_status_zero, Hs. by apply threshold_exact.
  - split; [|split; [|split]]; vm_compute; reflexivity.
  - intros Hpre Hst Hte Hb.
    assert (run_validation level env = Ends 0) as Hrun.
    { unfold run_validation, validation_blocks, basic_block, try_except, printed, step,
        mbind, script_bind.
      rewrite Hte, Hb. reflexivity. }
    split; [done|].
    assert (driver level env = 0%Z) as Hd.
    { unfold driver, main_try, printed. rewrite Hpre, Hst, Hrun. reflexivity. }
    split; [done|]. by apply Hpd.
  - intros results Hpre Hst Hrun [e He].
    assert (driver level env = 1%Z) as Hd.
    { unfold driver, main_try, printed. rewrite Hpre, Hst, Hrun, He. reflexivity. }
    split; [done|]. rewrite Hp, Hd. done.
Qed.

Lemma passed_is_exit_status_not_score_witness :
  let env := Sample.exits_on_import in
  let res := mkResult "requests" BASIC true None in
  validate_package Sample.framework "requests" [] BASIC (Completed (driver BASIC env) "" "")
    = Some res ∧
  run_validation BASIC env = Ends 0 ∧ driver BASIC env = 0%Z ∧ passed res = true.
Proof.
  assert (validate_package Sample.framework "requests" [] BASIC
            (Completed (driver BASIC Sample.exits_on_import) "" "")
          = Some (mkResult "requests" BASIC true None)) as H by (vm_compute; reflexivity).
  split; [exact H|].
  destruct (passed_is_exit_status_not_score Sample.framework "requests" [] BASIC
              Sample.exits_on_import "" "" (mkResult "requests" BASIC true None) H)
    as (_ & _ & Hexit & _).
  apply Hexit; reflexivity.
Defined.

(** The other direction, run: a healthy package scores 1.0 at the
    standard level, the print of the report raises, and the result has
    [passed = false]. *)
Example report_print_raises_run :
  let env := Sample.report_print_raises in
  run_validation STANDARD env = Returns (mkDriverResults 1 3 3 [] []) ∧
  driver STANDARD env = 1%Z ∧
  validate_package Sample.framework "requests" [] STANDARD
                   (Completed (driver STANDARD env) "" "")
  = Some (mkResult "requests" STANDARD false None).
Proof. vm_compute. done. Qed.

(** A run that timed out or could not be started has [passed = false]. *)
Lemma validate_package_not_completed fw pkg files level run res :
  validate_package fw pkg files level run = Some res →
  (run = Timeout ∨ ∃ msg, run = Failure msg) → passed res = false.
Proof.
  unfold validate_package.
  destruct (generate_test_script fw pkg level None); [|done]. cbn.
  intros H [->|[msg ->]]; by injection H as <-.
Qed.

(** ** Security scan *)

(** Every pattern of the table is in the subset [compile] handles. *)
Example table_compiles :
  forallb (λ '(_, pats), forallb (λ pattern, bool_decide (is_Some (compile pattern))) pats)
          _load_security_patterns = true.
Proof. vm_compute. reflexivity. Qed.





Lemma file_findings_unreadable table f :
  file_content f = None → file_findings table f = [].
Proof. unfold file_findings. by intros ->. Qed.




End ValidationSpec.

(* ===================================================================== *)
(** * Further properties of the lifecycle controller                      *)
(* ===================================================================== *)

Module HandlerMore.
Import Handler HandlerSpec.

(** ** Backend detection *)

(** X1.  [_detect_container_engine] returns podman exactly when the podman
    probe exits with status 0; docker exactly when the podman probe is
    passed over (non-zero status, timeout, missing binary) and the docker
    probe exits with status 0; no engine exactly when both probes are
    passed over; and it lets an exception [e] escape exactly when the first
    probe that is not passed over raised [e]. *)
Theorem detect_container_engine_choice probe :
  let res := (_detect_container_engine probe).1 in
  (res = inr (Some "podman") ↔ ∃ out err, probe "podman" = Exited 0 out err) ∧
  (res = inr (Some "docker") ↔
   passed_over (probe "podman") = true ∧ ∃ out err, probe "docker" = Exited 0 out err) ∧
  (res = inr None ↔
   passed_over (probe "podman") = true ∧ passed_over (probe "docker") = true) ∧
  (∀ e, res = inl e ↔
        probe "podman" = OtherError e ∨
        passed_over (probe "podman") = true ∧ probe "docker" = OtherError e).
Proof.
  cbn zeta. unfold _detect_container_engine, detect_loop, passed_over.
  destruct (probe "podman") as [rc1 o1 e1|m1|m1|m1];
    [destruct (decide (rc1 = 0%Z)) as [->|Hne1];
     [|rewrite (bool_decide_eq_true_2 _ Hne1)]|..];
    (destruct (probe "docker") as [rc2 o2 e2|m2|m2|m2];
     [destruct (decide (rc2 = 0%Z)) as [->|Hne2];
      [|rewrite (bool_decide_eq_true_2 _ Hne2)]|..]);
    cbn [fst];
    (split; [split; [intros ?; simplify_eq; eauto|intros (?&?&?); simplify_eq; done]|]);
    (split; [split; [intros ?; simplify_eq; eauto|intros (?&?&?&?); simplify_eq; done]|]);
    (split; [split; [intros ?; simplify_eq; eauto|intros (?&?); simplify_eq; done]|]);
    intros e; (split; [intros ?; simplify_eq; eauto|intros [?|(?&?)]; simplify_eq; done]).
Qed.

(** ** The history file *)

(** X2.  A save that meets no I/O error leaves a history of at most 1000
    entries that ends with the entry just saved and is a suffix of the old
    history followed by that entry (so the cap drops the oldest entries
    first, and nothing is dropped while the old history has fewer than
    1000 entries).  A save that meets an exception before the file is
    opened for writing leaves the history as it was; one that meets it
    after, while the list is written, has already truncated the file, and
    nothing can be loaded from what is left.  Either way one warning is
    logged and nothing else changes. *)
Theorem save_history_capped r env w :
  let old := default [] (history_file w) in
  let w' := _save_package_history r env w in
  match he_error env with
  | None =>
    ∃ h, history_file w' = Some h ∧
         (length h ≤ 1000)%nat ∧
         last h = Some (history_entry r) ∧
         h `suffix_of` (old ++ [history_entry r])%list ∧
         ((length old < 1000)%nat → h = (old ++ [history_entry r])%list)
  | Some (BeforeTruncation e) =>
    history_file w' = history_file w ∧
    log w' = (log w ++ [(WARNING, ("Could not save package history: " ++ e)%string)])%list
  | Some (AfterTruncation e) =>
    history_file w' = None ∧
    log w' = (log w ++ [(WARNING, ("Could not save package history: " ++ e)%string)])%list
  end.
Proof.
  cbn zeta. unfold _save_package_history. destruct (he_error env) as [[e|e]|]; [done..|].
  cbn [history_file with_history].
  remember (default [] (history_file w)) as old eqn:Hold.
  assert (length (old ++ [history_entry r])%list = S (length old)) as Hlen
    by (rewrite length_app; cbn; lia).
  destruct (decide (1000 < length (old ++ [history_entry r])%list)) as [Hlt|Hle];
    eexists; (split; [reflexivity|]).
  - unfold last_1000. split; [rewrite length_drop; lia|].
    split; [rewrite drop_app_le, last_snoc; [done|lia]|].
    split; [apply suffix_drop|]. intros H. lia.
  - split; [lia|]. split; [apply last_snoc|]. split; done.
Qed.

(** ** Ingest *)

(** X3.  After [ingest] the new record is in one of two states: FAILED with
    a non-empty error log and an empty success log, or TESTING with an empty
    error log and exactly one success line.  So the ingest failed exactly
    when its error log is non-empty. *)
Theorem ingest_failed_iff_errors pkg ver script env w :
  let res := ingest pkg ver script env w in
  ∃ r, records res.2 !! res.1 = Some r ∧
       ((status r = FAILED ∧ error_log r ≠ [] ∧ success_log r = []) ∨
        (status r = TESTING ∧ error_log r = [] ∧ length (success_log r) = 1)) ∧
       (status r = FAILED ↔ error_log r ≠ []).
Proof.
  cbn zeta.
  assert (∀ r : PackageMetadata,
            (status r = FAILED ∧ error_log r ≠ [] ∧ success_log r = []) ∨
            (status r = TESTING ∧ error_log r = [] ∧ length (success_log r) = 1) →
            (status r = FAILED ↔ error_log r ≠ [])) as Hiff.
  { intros r [(-> & ? & _)|(-> & -> & _)]; split; done. }
  assert (∀ a l m (r : PackageMetadata) w0,
            (status r = FAILED ∧ error_log r ≠ [] ∧ success_log r = []) ∨
            (status r = TESTING ∧ error_log r = [] ∧ length (success_log r) = 1) →
            ∃ r', records (a, log_msg l m (store a r w0)).2 !! (a, log_msg l m (store a r w0)).1
                  = Some r' ∧
                  ((status r' = FAILED ∧ error_log r' ≠ [] ∧ success_log r' = []) ∨
                   (status r' = TESTING ∧ error_log r' = [] ∧ length (success_log r') = 1)) ∧
                  (status r' = FAILED ↔ error_log r' ≠ [])) as Hfin.
  { intros a l m r w0 H. exists r. split; [apply lookup_insert_eq|]. split; [done|by apply Hiff]. }
  unfold ingest, alloc_record.
  destruct (ie_mkdir env) as [e|]; [apply Hfin; by left|].
  cbn [container_engine with_sandboxes set_active with_dicts with_records log_msg
       win32 sandbox_dir].
  destruct (container_engine w).
  - unfold _create_container_sandbox.
    destruct (ce_files (ie_container env)); [apply Hfin; by left|].
    destruct (ce_build (ie_container env)) as [rc ? ?| | |]; try (apply Hfin; by left).
    destruct (decide (rc = 0%Z)); apply Hfin; [by right|by left].
  - unfold _create_venv_sandbox.
    destruct (checked_run (ve_venv (ie_venv env))); [apply Hfin; by left|].
    destruct (checked_run (ve_pip (ie_venv env))); [apply Hfin; by left|].
    destruct (ve_files (ie_venv env)); apply Hfin; [by left|by right].
Qed.

(** [ingest] leaves the configuration alone. *)
Lemma ingest_config pkg ver script env w :
  container_engine (ingest pkg ver script env w).2 = container_engine w ∧
  dry_run (ingest pkg ver script env w).2 = dry_run w ∧
  history_file (ingest pkg ver script env w).2 = history_file w.
Proof.
  unfold ingest, alloc_record.
  destruct (ie_mkdir env) as [e|]; [done|].
  destruct (match container_engine _ with
            | Some _ => _create_container_sandbox _ _
            | None => _create_venv_sandbox _ _ _ _
            end) as [[|] r']; done.
Qed.

(** What [ingest] leaves: the binding, and what the record knows of its
    sandbox. *)
Lemma ingest_spec pkg ver script env w :
  let res := ingest pkg ver script env w in
  ∃ r, lookup_active pkg res.2 = Some (res.1, r) ∧
       status r = (if sandbox_created env w then TESTING else FAILED) ∧
       status_trace r = [INGESTING; status r] ∧
       sandbox_id r = ie_uuid env ∧
       (container_engine w = None →
        if sandbox_created env w
        then is_Some (validation_results r !! "python_path") ∧
             is_Some (validation_results r !! "sandbox_path")
        else validation_results r = ∅).
Proof.
  cbn zeta.
  assert (∀ a l m (r : PackageMetadata) w0 (b : bool),
            active w0 !! pkg = Some a →
            status r = (if b then TESTING else FAILED) →
            status_trace r = [INGESTING; status r] →
            sandbox_id r = ie_uuid env →
            (container_engine w = None →
             if b then is_Some (validation_results r !! "python_path") ∧
                       is_Some (validation_results r !! "sandbox_path")
             else validation_results r = ∅) →
            ∃ r', lookup_active pkg (a, log_msg l m (store a r w0)).2
                  = Some ((a, log_msg l m (store a r w0)).1, r') ∧
                  status r' = (if b then TESTING else FAILED) ∧
                  status_trace r' = [INGESTING; status r'] ∧
                  sandbox_id r' = ie_uuid env ∧
                  (container_engine w = None →
                   if b then is_Some (validation_results r' !! "python_path") ∧
                             is_Some (validation_results r' !! "sandbox_path")
                   else validation_results r' = ∅)) as Hfin.
  { intros a l m r w0 b Ha Hs Ht Hi Hv. exists r. split; [|done].
    apply lookup_active_Some. split; [done|apply lookup_insert_eq]. }
  unfold ingest, alloc_record, sandbox_created.
  set (r0 := mkMeta pkg ver INGESTING (ie_now env) None None (ie_uuid env) script
                    [] [] [] ∅ [INGESTING]).
  assert (∀ sb w0, active (with_sandboxes sb (set_active (<[pkg := next_record w]> (active w0)) w0))
                   !! pkg = Some (next_record w)) as Hb.
  { intros sb w0. rewrite active_with_sandboxes, active_set_active. apply lookup_insert_eq. }
  destruct (ie_mkdir env) as [e|].
  { apply (Hfin _ _ _ _ _ false); try done.
    rewrite active_set_active. apply lookup_insert_eq. }
  repeat match goal with
         | |- context [container_engine (with_sandboxes ?x ?y)] =>
           change (container_engine (with_sandboxes x y)) with (container_engine w)
         | |- context [win32 (with_sandboxes ?x ?y)] =>
           change (win32 (with_sandboxes x y)) with (win32 w)
         end.
  destruct (container_engine w) as [eng|].
  - unfold _create_container_sandbox, container_created.
    destruct (ce_files (ie_container env));
      [apply (Hfin _ _ _ _ _ false); solve [apply Hb|done]|].
    destruct (ce_build (ie_container env)) as [rc ? ?| | |];
      try (apply (Hfin _ _ _ _ _ false); solve [apply Hb|done]).
    destruct (decide (rc = 0%Z)) as [->|Hne].
    + apply (Hfin _ _ _ _ _ true); solve [apply Hb|done].
    + rewrite (bool_decide_eq_false_2 _ Hne).
      apply (Hfin _ _ _ _ _ false); solve [apply Hb|done].
  - unfold _create_venv_sandbox, venv_created.
    destruct (checked_run (ve_venv (ie_venv env)));
      [apply (Hfin _ _ _ _ _ false); solve [apply Hb|done]|].
    destruct (checked_run (ve_pip (ie_venv env)));
      [apply (Hfin _ _ _ _ _ false); solve [apply Hb|done]|].
    destruct (ve_files (ie_venv env)).
    + apply (Hfin _ _ _ _ _ false); solve [apply Hb|done].
    + apply (Hfin _ _ _ _ _ true); [apply Hb|done..|].
      intros _. cbn. split; eexists.
      * rewrite lookup_insert_ne; [apply lookup_insert_eq|done].
      * apply lookup_insert_eq.
Qed.

(** ** Test / collaborate *)

Lemma lookup_after_store pkg a r lvl msg w :
  active w !! pkg = Some a →
  lookup_active pkg (log_msg lvl msg (store a r w)) = Some (a, r).
Proof. intros Ha. apply lookup_active_Some. split; [done|apply lookup_insert_eq]. Qed.

(** [test_collaborate] touches records and the log only. *)
Lemma test_collaborate_frame pkg env w :
  let res := test_collaborate pkg env w in
  sandboxes res.2 = sandboxes w ∧ history_file res.2 = history_file w ∧
  dry_run res.2 = dry_run w ∧ container_engine res.2 = container_engine w ∧
  active res.2 = active w.
Proof.
  cbn zeta. unfold test_collaborate.
  destruct (lookup_active pkg w) as [[a r]|]; [|done].
  destruct (match container_engine _ with
            | Some _ => _test_in_container env _
            | None => _test_in_venv env _
            end) as [[|] r2]; done.
Qed.

(** X4.  On an active name, [test_collaborate] returns true exactly when
    the record holds what the backend needs to start the test (on the venv
    backend the interpreter and sandbox paths stored by a successful
    ingest) and the test run exits with status 0.  Afterwards the record is
    still bound to the name, its status is APPROVED when the call returned
    true and FAILED otherwise, its test time is stamped, and a failure has
    added exactly one line to its error log while a success has added none;
    sandboxes and history are untouched. *)
Theorem test_collaborate_outcome pkg env w a r :
  lookup_active pkg w = Some (a, r) →
  let res := test_collaborate pkg env w in
  res.1 = can_start_test (container_engine w) r && run_passes env ∧
  sandboxes res.2 = sandboxes w ∧ history_file res.2 = history_file w ∧
  dry_run res.2 = dry_run w ∧ container_engine res.2 = container_engine w ∧
  ∃ r', lookup_active pkg res.2 = Some (a, r') ∧
        status r' = (if res.1 then APPROVED else FAILED) ∧
        test_time r' = Some (te_now env) ∧
        sandbox_id r' = sandbox_id r ∧
        length (error_log r') = (if res.1 then 0 else 1) + length (error_log r).
Proof.
  intros Hl. pose proof Hl as [Ha _]%lookup_active_Some.
  destruct (test_collaborate_frame pkg env w) as (Hsb & Hh & Hd & He & _).
  cbn zeta. split; [|do 4 (split; [done|])]; clear Hsb Hh Hd He;
    unfold test_collaborate; rewrite Hl;
    change (container_engine (log_msg INFO ("🧪 TEST/COLLABORATE: Validating " ++ pkg) w))
      with (container_engine w);
    unfold can_start_test, run_passes, _test_in_container, _test_in_venv,
      run_validation_command;
    cbn [validation_results set_test_time set_status].
  - destruct (container_engine w) as [eng|];
      [|destruct (validation_results r !! "python_path");
        [destruct (validation_results r !! "sandbox_path")|]];
      try reflexivity;
      (destruct (te_run env) as [rc out err|m|m|m]; try reflexivity;
       destruct (decide (rc = 0%Z)) as [->|Hne];
       [reflexivity|by rewrite (bool_decide_eq_false_2 _ Hne)]).
  - destruct (container_engine w) as [eng|];
      [|destruct (validation_results r !! "python_path");
        [destruct (validation_results r !! "sandbox_path")|]];
      try (destruct (te_run env) as [rc out err|m|m|m];
           [destruct (decide (rc = 0%Z))|..]);
      cbn [fst snd];
      (eexists; split; [by apply lookup_after_store|]);
      cbn; rewrite ?length_app; cbn; repeat split; lia.
Qed.

Lemma test_collaborate_outcome_witness :
  let w := Sample.ingested in
  let r := Sample.record_at 0 w in
  let res := test_collaborate "requests" Sample.test_ok w in
  lookup_active "requests" w = Some (0, r) ∧
  res.1 = can_start_test (container_engine w) r && run_passes Sample.test_ok ∧
  sandboxes res.2 = sandboxes w ∧ history_file res.2 = history_file w ∧
  dry_run res.2 = dry_run w ∧ container_engine res.2 = container_engine w ∧
  ∃ r', lookup_active "requests" res.2 = Some (0, r') ∧
        status r' = (if res.1 then APPROVED else FAILED) ∧
        test_time r' = Some (te_now Sample.test_ok) ∧
        sandbox_id r' = sandbox_id r ∧
        length (error_log r') = (if res.1 then 0 else 1) + length (error_log r).
Proof.
  split; [vm_compute; reflexivity|].
  apply (test_collaborate_outcome "requests" Sample.test_ok Sample.ingested 0).
  vm_compute; reflexivity.
Defined.

(** X5.  On the venv backend, a test that follows a failed ingest never
    starts: whatever the outside world would answer, [test_collaborate]
    returns false, the record ends FAILED with the missing-key message as
    its last error line, and nothing of a test run (output, return code) is
    recorded. *)
Theorem test_after_failed_venv_ingest pkg ver script ie te w :
  container_engine w = None →
  sandbox_created ie w = false →
  let w1 := (ingest pkg ver script ie w).2 in
  let res := test_collaborate pkg te w1 in
  res.1 = false ∧
  ∃ r', lookup_active pkg res.2 = Some ((ingest pkg ver script ie w).1, r') ∧
        status r' = FAILED ∧
        last (error_log r') = Some "Venv validation error: 'python_path'" ∧
        validation_results r' = ∅ ∧
        status_trace r' = [INGESTING; FAILED; COLLABORATING; FAILED].
Proof.
  intros He Hc. cbn zeta.
  destruct (ingest_config pkg ver script ie w) as (He1 & _).
  destruct (ingest_spec pkg ver script ie w) as (r & Hl & Hs & Ht & _ & Hv).
  rewrite Hc in Hs, Hv. specialize (Hv He). rewrite Hs in Ht.
  destruct (ingest pkg ver script ie w) as [a w1]. cbn [fst snd] in *.
  pose proof Hl as [Ha _]%lookup_active_Some.
  unfold test_collaborate. rewrite Hl.
  change (container_engine (log_msg INFO ("🧪 TEST/COLLABORATE: Validating " ++ pkg) w1))
    with (container_engine w1). rewrite He1, He.
  unfold _test_in_venv. cbn [validation_results set_test_time set_status].
  rewrite Hv, lookup_empty. cbn [fst snd]. split; [done|].
  eexists. split; [by apply lookup_after_store|].
  cbn. rewrite Ht, Hv, last_snoc. done.
Qed.

Lemma test_after_failed_venv_ingest_witness :
  let w := Sample.venv_handler in
  let ie := Sample.ingest_broken in
  let w1 := (ingest "requests" "2.31.0" None ie w).2 in
  let res := test_collaborate "requests" Sample.test_ok w1 in
  (container_engine w = None ∧ sandbox_created ie w = false) ∧
  res.1 = false ∧
  ∃ r', lookup_active "requests" res.2
        = Some ((ingest "requests" "2.31.0" None ie w).1, r') ∧
        status r' = FAILED ∧
        last (error_log r') = Some "Venv validation error: 'python_path'" ∧
        validation_results r' = ∅ ∧
        status_trace r' = [INGESTING; FAILED; COLLABORATING; FAILED].
Proof.
  split; [split; vm_compute; reflexivity|].
  apply (test_after_failed_venv_ingest "requests" "2.31.0" None Sample.ingest_broken
           Sample.test_ok Sample.venv_handler); vm_compute; reflexivity.
Defined.

(** ** Conscript / install *)

(** X6.  [conscript_install] returns true exactly when the name is bound to
    a record whose status is APPROVED and the install step succeeds:
    dry-run is set (then no probe and no install command has any
    influence), or no probe raises unexpectedly and the install command
    exits with status 0.  The outcome of the cleanup that follows does not
    change the returned value. *)
Theorem conscript_install_result pkg env w :
  (conscript_install pkg env w).1 =
  match lookup_active pkg w with
  | Some (_, r) => bool_decide (status r = APPROVED) && install_succeeds env w
  | None => false
  end.
Proof.
  unfold conscript_install. destruct (lookup_active pkg w) as [[a r]|]; [|done].
  destruct (decide (status r ≠ APPROVED)) as [Hne|Heq%dec_stable].
  { by rewrite (bool_decide_eq_false_2 _ Hne). }
  rewrite (bool_decide_eq_true_2 _ Heq).
  unfold attempt_install, install_succeeds. cbn [dry_run log_msg andb].
  destruct (dry_run w).
  { by destruct (kill_destroy _ _ _). }
  destruct (find_snakepit _ _) as [e|bin]; [done|].
  destruct (co_install env) as [rc ? ?| | |]; try done.
  destruct (decide (rc = 0%Z)) as [->|Hne].
  - by destruct (kill_destroy _ _ _).
  - by rewrite (bool_decide_eq_false_2 _ Hne).
Qed.

(** X7.  When the install step fails on an APPROVED record,
    [conscript_install] leaves the record bound to its name with status
    FAILED, the install time stamped and one more error line; it archives
    nothing and removes no sandbox (the cleanup is left to the caller). *)
Theorem conscript_install_failure pkg env w a r :
  lookup_active pkg w = Some (a, r) →
  status r = APPROVED →
  install_succeeds env w = false →
  let res := conscript_install pkg env w in
  res.1 = false ∧
  history_file res.2 = history_file w ∧ sandboxes res.2 = sandboxes w ∧
  ∃ r', lookup_active pkg res.2 = Some (a, r') ∧
        status r' = FAILED ∧
        install_time r' = Some (co_now env) ∧
        length (error_log r') = S (length (error_log r)) ∧
        status_trace r' = (status_trace r ++ [FAILED])%list.
Proof.
  intros Hl Hs Hi. pose proof Hl as [Ha _]%lookup_active_Some.
  cbn zeta. unfold conscript_install. rewrite Hl.
  destruct (decide (status r ≠ APPROVED)) as [Hne|_]; [done|].
  revert Hi. unfold attempt_install, install_succeeds. cbn [dry_run log_msg].
  destruct (dry_run w); [done|].
  destruct (find_snakepit _ _) as [e|bin].
  { intros _. cbn [fst snd]. do 3 (split; [done|]).
    eexists. split; [by apply lookup_after_store|].
    cbn. rewrite length_app. cbn. repeat split; lia. }
  destruct (co_install env) as [rc ? err|e|e|e];
    [destruct (decide (rc = 0%Z)) as [->|Hne]; [done|]|..];
    intros _; cbn [fst snd]; (do 3 (split; [by destruct bin|]));
    (eexists; split; [apply lookup_after_store; by destruct bin|]);
    cbn; rewrite length_app; cbn; repeat split; lia.
Qed.

Lemma conscript_install_failure_witness :
  let w := Sample.live_approved in
  let env := Sample.conscript_fails in
  let r := Sample.record_at 0 w in
  let res := conscript_install "requests" env w in
  (lookup_active "requests" w = Some (0, r) ∧ status r = APPROVED ∧
   install_succeeds env w = false) ∧
  res.1 = false ∧
  history_file res.2 = history_file w ∧ sandboxes res.2 = sandboxes w ∧
  ∃ r', lookup_active "requests" res.2 = Some (0, r') ∧
        status r' = FAILED ∧
        install_time r' = Some (co_now env) ∧
        length (error_log r') = S (length (error_log r)) ∧
        status_trace r' = (status_trace r ++ [FAILED])%list.
Proof.
  split; [split; [|split]; vm_compute; reflexivity|].
  apply (conscript_install_failure "requests" Sample.conscript_fails
           Sample.live_approved 0); vm_compute; reflexivity.
Defined.

(** The install attempt touches the log only. *)
Lemma attempt_install_frame env r w :
  let w' := (attempt_install env r w).2 in
  active w' = active w ∧ records w' = records w ∧ sandboxes w' = sandboxes w ∧
  history_file w' = history_file w ∧ dry_run w' = dry_run w ∧
  container_engine w' = container_engine w.
Proof.
  cbn zeta. unfold attempt_install. destruct (dry_run w) eqn:Hd; [done|].
  destruct (find_snakepit _ _) as [e|[bin|]]; [done|..];
    (destruct (co_install env) as [rc ? ?| | |]; try done;
     by destruct (decide (rc = 0%Z))).
Qed.

(** X8.  A package cannot be conscripted twice: right after a
    [conscript_install] that returned true, a second one on the same name
    returns false and changes nothing but the log (the record is either
    gone, or, when the cleanup failed, CONSCRIPTED and so not APPROVED). *)
Theorem conscript_install_once pkg env1 env2 w w1 :
  conscript_install pkg env1 w = (true, w1) →
  ∃ msg, conscript_install pkg env2 w1 = (false, log_msg ERROR msg w1).
Proof.
  unfold conscript_install at 1.
  destruct (lookup_active pkg w) as [[a r]|] eqn:Hl; [|done].
  apply lookup_active_Some in Hl as [Ha _].
  destruct (decide (status r ≠ APPROVED)); [done|].
  pose proof (attempt_install_frame env1 (set_install_time (co_now env1) r)
                (log_msg INFO ("⚔️ CONSCRIPT: Installing " ++ pkg) w)) as (Ha2 & _).
  destruct (attempt_install _ _ _) as [[[e|[|]] r2] w2]; [done| |done].
  cbn [snd] in Ha2.
  set (r3 := add_success _ (set_status CONSCRIPTED r2)).
  set (w3 := log_msg INFO _ (_update_dependency_graph r3 _ _)).
  assert (lookup_active pkg w3 = Some (a, r3)) as Hl3.
  { apply lookup_active_Some. unfold w3. autorewrite with world.
    split; [by rewrite Ha2|apply lookup_insert_eq]. }
  rewrite (kill_destroy_active _ _ _ _ _ Hl3).
  destruct (removal (co_kill env1) r3 w3) as [e|]; intros [= <-].
  - assert (lookup_active pkg (log_msg ERROR
              ("❌ KILL/DESTROY: Error cleaning up " ++ pkg ++ ": " ++ e)
              (log_msg INFO ("💀 KILL/DESTROY: Cleaning up " ++ pkg) w3))
            = Some (a, r3)) as Hl4 by exact Hl3.
    unfold conscript_install. rewrite Hl4.
    destruct (decide (status r3 ≠ APPROVED)) as [_|Hs%dec_stable]; [by eexists|done].
  - unfold conscript_install. rewrite lookup_active_absent; [by eexists|].
    rewrite active_log_msg, active_set_active. apply lookup_delete_eq.
Qed.

Lemma conscript_install_once_witness :
  let res := conscript_install "requests" Sample.conscript_ok Sample.approved in
  res.1 = true ∧
  ∃ msg, conscript_install "requests" Sample.conscript_ok res.2
         = (false, log_msg ERROR msg res.2).
Proof.
  split; [vm_compute; reflexivity|].
  apply (conscript_install_once "requests" Sample.conscript_ok Sample.conscript_ok
           Sample.approved).
  vm_compute; reflexivity.
Defined.

(** ** The composed workflow *)

(** The state part of a test, with the status history. *)
Lemma test_collaborate_spec pkg env w a r :
  lookup_active pkg w = Some (a, r) →
  let res := test_collaborate pkg env w in
  res.1 = can_start_test (container_engine w) r && run_passes env ∧
  ∃ r', lookup_active pkg res.2 = Some (a, r') ∧
        status r' = (if res.1 then APPROVED else FAILED) ∧
        sandbox_id r' = sandbox_id r ∧
        status_trace r' = (status_trace r ++
                           [COLLABORATING; if res.1 then APPROVED else FAILED])%list.
Proof.
  intros Hl. pose proof Hl as [Ha _]%lookup_active_Some.
  cbn zeta. split;
    unfold test_collaborate; rewrite Hl;
    change (container_engine (log_msg INFO ("🧪 TEST/COLLABORATE: Validating " ++ pkg) w))
      with (container_engine w);
    unfold can_start_test, run_passes, _test_in_container, _test_in_venv,
      run_validation_command;
    cbn [validation_results set_test_time set_status].
  - destruct (container_engine w) as [eng|];
      [|destruct (validation_results r !! "python_path");
        [destruct (validation_results r !! "sandbox_path")|]];
      try reflexivity;
      (destruct (te_run env) as [rc out err|m|m|m]; try reflexivity;
       destruct (decide (rc = 0%Z)) as [->|Hne];
       [reflexivity|by rewrite (bool_decide_eq_false_2 _ Hne)]).
  - destruct (container_engine w) as [eng|];
      [|destruct (validation_results r !! "python_path");
        [destruct (validation_results r !! "sandbox_path")|]];
      try (destruct (te_run env) as [rc out err|m|m|m];
           [destruct (decide (rc = 0%Z))|..]);
      cbn [fst snd];
      (eexists; split; [by apply lookup_after_store|]);
      cbn; rewrite <- ?app_assoc; done.
Qed.

Lemma attempt_install_true env r w :
  install_succeeds env w = true →
  ∃ msg, attempt_install env r w = (inr true, r, log_msg INFO msg w).
Proof.
  unfold attempt_install, install_succeeds. destruct (dry_run w); [by eexists|].
  destruct (find_snakepit _ _) as [e|bin]; [done|].
  destruct (co_install env) as [rc ? ?| | |]; try done.
  destruct (decide (rc = 0%Z)) as [->|Hne]; [destruct bin; by eexists|].
  by rewrite (bool_decide_eq_false_2 _ Hne).
Qed.

(** The state a successful [conscript_install] leaves. *)
Lemma conscript_install_success_state pkg env w a r :
  lookup_active pkg w = Some (a, r) →
  status r = APPROVED →
  install_succeeds env w = true →
  let res := conscript_install pkg env w in
  let r3 := conscripted (co_now env) r in
  res.1 = true ∧
  ((records res.2 !! a = Some (destroyed r3) ∧ active res.2 !! pkg = None ∧
    (sandbox_id r ∉ sandboxes res.2) ∧ removal (co_kill env) r3 w = None) ∨
   (lookup_active pkg res.2 = Some (a, r3) ∧ sandboxes res.2 = sandboxes w ∧
    history_file res.2 = history_file w ∧ is_Some (removal (co_kill env) r3 w))).
Proof.
  intros Hl Hs Hi. pose proof Hl as [Ha _]%lookup_active_Some.
  cbn zeta. unfold conscript_install. rewrite Hl.
  destruct (decide (status r ≠ APPROVED)) as [Hne|_]; [done|].
  destruct (attempt_install_true env (set_install_time (co_now env) r)
              (log_msg INFO ("⚔️ CONSCRIPT: Installing " ++ pkg) w)) as [msg ->]; [done|].
  fold (conscripted (co_now env) r).
  set (r3 := conscripted (co_now env) r).
  set (w3 := log_msg INFO _ (_update_dependency_graph r3 _ _)).
  assert (lookup_active pkg w3 = Some (a, r3)) as Hl3.
  { apply lookup_active_Some. unfold w3. autorewrite with world.
    split; [done|apply lookup_insert_eq]. }
  assert (removal (co_kill env) r3 w3 = removal (co_kill env) r3 w) as Hrm.
  { unfold removal, w3. by autorewrite with world. }
  rewrite (kill_destroy_active _ _ _ _ _ Hl3), Hrm.
  destruct (removal (co_kill env) r3 w) as [e|] eqn:He; cbn [fst snd]; (split; [done|]).
  - right. split; [exact Hl3|]. split; [|split; [|by eexists]].
    + unfold w3. by autorewrite with world.
    + unfold w3. by destruct (co_toml env).
  - left. autorewrite with world.
    split; [apply lookup_insert_eq|]. split; [apply lookup_delete_eq|]. split; [|done].
    unfold w3. autorewrite with world.
    apply not_elem_of_difference. right. by apply elem_of_singleton.
Qed.

(** What [ingest] does to the store and to the sandbox directories. *)
Lemma ingest_frame pkg ver script env w :
  let res := ingest pkg ver script env w in
  res.1 = next_record w ∧ next_record res.2 = S (next_record w) ∧
  (∀ a, a ≠ next_record w → records res.2 !! a = records w !! a) ∧
  (∀ n, n ≠ pkg → active res.2 !! n = active w !! n) ∧
  sandboxes res.2 = (if ie_mkdir env is Some _ then sandboxes w else {[ ie_uuid env ]} ∪ sandboxes w).
Proof.
  cbn zeta. unfold ingest, alloc_record.
  assert (∀ (a : addr) (r1 r2 : PackageMetadata) (M : gmap addr PackageMetadata),
            a ≠ next_record w →
            <[next_record w := r1]> (<[next_record w := r2]> M) !! a = M !! a) as Hrec.
  { intros a r1 r2 M Ha. by rewrite !lookup_insert_ne. }
  destruct (ie_mkdir env) as [e|].
  { cbn [fst snd]. do 2 (split; [done|]). split; [|split; [|done]].
    - intros a Ha. by apply Hrec.
    - intros n Hn. autorewrite with world. by apply lookup_insert_ne. }
  destruct (match container_engine _ with
            | Some _ => _create_container_sandbox _ _
            | None => _create_venv_sandbox _ _ _ _
            end) as [[|] r']; cbn [fst snd];
    (do 2 (split; [done|]); split;
     [intros a Ha; by apply Hrec
     |split; [intros n Hn; autorewrite with world; by apply lookup_insert_ne|done]]).
Qed.

(** X9.  [handle_package] returns true exactly when the sandbox was
    created, the test run exited with status 0 and the install step
    succeeded.  When it returns true, the record it created went through
    INGESTING, TESTING, COLLABORATING, APPROVED, CONSCRIPTED, on either
    backend, and the cleanup that follows the install decides the rest:
    when the removal of the sandbox directory does not raise, the record
    ends DESTROYED, the name is unbound and the directory is gone; when it
    raises, the record stays CONSCRIPTED and bound, and the directory
    stays. *)
Theorem handle_package_result pkg ver script ie te ke ce w :
  let res := handle_package pkg ver script ie te ke ce w in
  res.1 = sandbox_created ie w && run_passes te && install_succeeds ce w ∧
  (res.1 = true →
   ∃ r, records res.2 !! next_record w = Some r ∧
        match ke_rmtree (co_kill ce) with
        | None =>
          status_trace r
            = [INGESTING; TESTING; COLLABORATING; APPROVED; CONSCRIPTED; DESTROYED] ∧
          status r = DESTROYED ∧
          active res.2 !! pkg = None ∧
          ie_uuid ie ∉ sandboxes res.2
        | Some _ =>
          status_trace r = [INGESTING; TESTING; COLLABORATING; APPROVED; CONSCRIPTED] ∧
          status r = CONSCRIPTED ∧
          active res.2 !! pkg = Some (next_record w) ∧
          ie_uuid ie ∈ sandboxes res.2
        end).
Proof.
  cbn zeta. unfold handle_package.
  set (w0 := log_msg INFO ("🐍 Starting Smart Snakepit handling for " ++ pkg) w).
  change (sandbox_created ie w) with (sandbox_created ie w0).
  change (install_succeeds ce w) with (install_succeeds ce w0).
  destruct (ingest_config pkg ver script ie w0) as (He1 & Hd1 & _).
  destruct (ingest_spec pkg ver script ie w0) as (r & Hl & Hs & Ht & Hid & Hv).
  destruct (ingest_frame pkg ver script ie w0) as (Haddr & _ & _ & _ & Hsb).
  destruct (ingest pkg ver script ie w0) as [a w1]. cbn [fst snd] in *.
  change (next_record w0) with (next_record w) in Haddr. subst a.
  pose proof Hl as [Ha Hr]%lookup_active_Some. rewrite Hr. cbn [fmap option_fmap option_map].
  destruct (sandbox_created ie w0) eqn:Hc.
  2:{ rewrite Hs. destruct (decide (Some FAILED = Some FAILED)); [|done].
      destruct (kill_destroy pkg ke w1). by split. }
  rewrite Hs. destruct (decide (Some TESTING = Some FAILED)); [done|].
  assert (ie_uuid ie ∈ sandboxes w1) as Hin.
  { rewrite Hsb. unfold sandbox_created in Hc. destruct (ie_mkdir ie); [done|].
    apply elem_of_union. left. by apply elem_of_singleton. }
  destruct (test_collaborate_frame pkg te w1) as (Hsb2 & _ & Hd2 & _).
  destruct (test_collaborate_spec pkg te w1 _ r Hl) as (Hres & r' & Hl' & Hs' & Hid' & Ht').
  assert (can_start_test (container_engine w1) r = true) as Hcan.
  { unfold can_start_test. rewrite He1. destruct (container_engine w0); [done|].
    by destruct (Hv eq_refl) as [[? ->] [? ->]]. }
  rewrite Hcan in Hres. cbn [andb] in Hres.
  destruct (test_collaborate pkg te w1) as [passed w2]. cbn [fst snd] in *. subst passed.
  destruct (run_passes te).
  2:{ destruct (kill_destroy pkg ke w2). by split. }
  cbn [andb].
  assert (install_succeeds ce w2 = install_succeeds ce w0) as Hi.
  { unfold install_succeeds. by rewrite Hd2, Hd1. }
  rewrite <- Hi. destruct (install_succeeds ce w2) eqn:Hi2.
  - assert (removal (co_kill ce) (conscripted (co_now ce) r') w2 = ke_rmtree (co_kill ce))
      as Hrm.
    { unfold removal. change (sandbox_id (conscripted (co_now ce) r')) with (sandbox_id r').
      rewrite Hid', Hid, Hsb2. by destruct (decide (ie_uuid ie ∈ sandboxes w1)). }
    destruct (conscript_install_success_state pkg ce w2 _ r' Hl' Hs' Hi2)
      as (Hv1 & [(Hr3 & Hu & Hgone & Hnone)|(Hl3 & Hsame & _ & Hsome)]);
      rewrite Hrm in *; (split; [done|]); intros _.
    + rewrite Hnone. eexists. split; [exact Hr3|].
      split; [cbn; by rewrite Ht', Ht, Hs|]. split; [done|]. split; [done|].
      by rewrite <- Hid, <- Hid'.
    + destruct Hsome as [e ->]. apply lookup_active_Some in Hl3 as [Ha3 Hr3].
      eexists. split; [exact Hr3|].
      split; [cbn; by rewrite Ht', Ht, Hs|]. split; [done|]. split; [done|].
      by rewrite Hsame, Hsb2.
  - assert ((conscript_install pkg ce w2).1 = false) as Hf.
    { unfold conscript_install. rewrite Hl'.
      destruct (decide (status r' ≠ APPROVED)); [done|].
      revert Hi2. unfold attempt_install, install_succeeds. cbn [dry_run log_msg].
      destruct (dry_run w2); [done|].
      destruct (find_snakepit _ _) as [e|bin]; [done|].
      destruct (co_install ce) as [rc ? ?| | |]; try done.
      destruct (decide (rc = 0%Z)) as [->|Hne]; [done|]. done. }
    rewrite Hf. split; done.
Qed.



(** X11.  Ingesting a name that is already active leaks the first sandbox:
    the second ingest rebinds the name without cleaning up, so a following
    [kill_destroy], whatever it returns, leaves the first sandbox directory
    in place, the first record untouched (never DESTROYED, never archived
    by this call) and bound to no name. *)
Theorem reingest_leaks_sandbox pkg v1 v2 s1 s2 ie1 ie2 ke w :
  ie_mkdir ie1 = None →
  ie_uuid ie1 ≠ ie_uuid ie2 →
  let w1 := (ingest pkg v1 s1 ie1 w).2 in
  let w2 := (ingest pkg v2 s2 ie2 w1).2 in
  let res := kill_destroy pkg ke w2 in
  ie_uuid ie1 ∈ sandboxes res.2 ∧
  active res.2 !! pkg ≠ Some (next_record w) ∧
  records res.2 !! next_record w = records w1 !! next_record w ∧
  ∃ r1, records res.2 !! next_record w = Some r1 ∧ sandbox_id r1 = ie_uuid ie1 ∧
        status r1 ≠ DESTROYED.
Proof.
  intros Hmk Hne. cbn zeta.
  destruct (ingest_spec pkg v1 s1 ie1 w) as (r1 & Hl1 & Hs1 & _ & Hid1 & _).
  destruct (ingest_frame pkg v1 s1 ie1 w) as (Ha1 & Hn1 & _ & _ & Hsb1).
  rewrite Hmk in Hsb1.
  destruct (ingest pkg v1 s1 ie1 w) as [a1 w1]. cbn [fst snd] in *. subst a1.
  apply lookup_active_Some in Hl1 as [_ Hr1].
  destruct (ingest_spec pkg v2 s2 ie2 w1) as (r2 & Hl2 & _ & _ & Hid2 & _).
  destruct (ingest_frame pkg v2 s2 ie2 w1) as (Ha2 & _ & Hrec2 & _ & Hsb2).
  destruct (ingest pkg v2 s2 ie2 w1) as [a2 w2]. cbn [fst snd] in *. subst a2.
  assert (next_record w ≠ next_record w1) as Hfresh by (rewrite Hn1; lia).
  assert (ie_uuid ie1 ∈ sandboxes w2) as Hin.
  { rewrite Hsb2. destruct (ie_mkdir ie2); rewrite ?Hsb1;
      rewrite ?elem_of_union, !elem_of_singleton; auto. }
  assert (status r1 ≠ DESTROYED) as Hnd by (rewrite Hs1; by destruct (sandbox_created ie1 w)).
  rewrite (kill_destroy_active _ _ _ _ _ Hl2).
  apply lookup_active_Some in Hl2 as [Hb2 _].
  destruct (removal ke r2 w2) as [e|]; cbn [fst snd].
  - split; [exact Hin|]. split.
    { change (active w2 !! pkg ≠ Some (next_record w)). rewrite Hb2. congruence. }
    split; [by apply Hrec2|].
    exists r1. split; [|done]. change (records w2 !! next_record w = Some r1).
    by rewrite Hrec2.
  - autorewrite with world. split.
    { apply elem_of_difference. split; [exact Hin|].
      rewrite elem_of_singleton, Hid2. done. }
    split; [by rewrite lookup_delete_eq|].
    rewrite lookup_insert_ne; [|done]. split; [by apply Hrec2|].
    exists r1. split; [|done]. by rewrite Hrec2.
Qed.

Lemma reingest_leaks_sandbox_witness :
  let ie2 := mkIngestEnv 200%float "77aa" None (mkContainerEnv None Sample.ok)
                         (mkVenvEnv Sample.ok Sample.ok None) in
  let w := Sample.venv_handler in
  let w1 := (ingest "requests" "2.31.0" None Sample.ingest_ok w).2 in
  let w2 := (ingest "requests" "2.32.0" None ie2 w1).2 in
  let res := kill_destroy "requests" Sample.kill_ok w2 in
  (ie_mkdir Sample.ingest_ok = None ∧ ie_uuid Sample.ingest_ok ≠ ie_uuid ie2) ∧
  res.1 = true ∧
  "5f0c" ∈ sandboxes res.2 ∧
  active res.2 !! "requests" ≠ Some (next_record w) ∧
  records res.2 !! next_record w = records w1 !! next_record w ∧
  ∃ r1, records res.2 !! next_record w = Some r1 ∧ sandbox_id r1 = "5f0c" ∧
        status r1 ≠ DESTROYED.
Proof.
  split; [split; [vm_compute; reflexivity|vm_compute; discriminate]|].
  split; [vm_compute; reflexivity|].
  apply (reingest_leaks_sandbox "requests" "2.31.0" "2.32.0" None None Sample.ingest_ok
           (mkIngestEnv 200%float "77aa" None (mkContainerEnv None Sample.ok)
                        (mkVenvEnv Sample.ok Sample.ok None))
           Sample.kill_ok Sample.venv_handler).
  - vm_compute; reflexivity.
  - vm_compute. discriminate.
Defined.

(** ** Record objects over time *)

Local Ltac extends_step :=
  unfold extends; cbn;
  repeat (split; [first [reflexivity|by apply prefix_app_r]|]);
  first [reflexivity|by apply prefix_app_r].

Lemma extends_refl r : extends r r.
Proof. extends_step. Qed.

Lemma extends_trans r1 r2 r3 : extends r1 r2 → extends r2 r3 → extends r1 r3.
Proof.
  intros (?&?&?&?&?&?&?) (?&?&?&?&?&?&?).
  unfold extends. do 4 (split; [congruence|]).
  split; [by etrans|]. split; by etrans.
Qed.

Lemma extends_set_status s r : extends r (set_status s r).
Proof. extends_step. Qed.

Lemma extends_add_error msg r : extends r (add_error msg r).
Proof. extends_step. Qed.

Lemma extends_add_success msg r : extends r (add_success msg r).
Proof. extends_step. Qed.

Lemma extends_run_validation_command backend run r :
  extends r (run_validation_command backend run r).2.
Proof.
  unfold run_validation_command.
  destruct run as [rc out err| | |]; [destruct (decide (rc = 0%Z))|..];
    cbn [snd]; extends_step.
Qed.

Lemma extends_test_in_venv env r : extends r (_test_in_venv env r).2.
Proof.
  unfold _test_in_venv.
  destruct (validation_results r !! "python_path"); [|extends_step].
  destruct (validation_results r !! "sandbox_path"); [|extends_step].
  apply extends_run_validation_command.
Qed.

Lemma extends_create_container env r : extends r (_create_container_sandbox env r).2.
Proof.
  unfold _create_container_sandbox. destruct (ce_files env); [extends_step|].
  destruct (ce_build env) as [rc ? ?| | |]; [destruct (decide (rc = 0%Z))|..];
    cbn [snd]; extends_step.
Qed.

Lemma extends_create_venv is_win32 path env r :
  extends r (_create_venv_sandbox is_win32 path env r).2.
Proof.
  unfold _create_venv_sandbox.
  destruct (checked_run (ve_venv env)); [extends_step|].
  destruct (checked_run (ve_pip env)); [extends_step|].
  destruct (ve_files env); cbn [snd]; extends_step.
Qed.

Lemma extends_attempt_install env r w : extends r (attempt_install env r w).1.2.
Proof.
  unfold attempt_install. destruct (dry_run w); [apply extends_refl|].
  destruct (find_snakepit _ _) as [e|bin]; [apply extends_refl|].
  destruct (co_install env) as [rc ? ?| | |]; [destruct (decide (rc = 0%Z))|..];
    cbn [fst snd]; extends_step.
Qed.

Lemma later_refl w : store_inv w → later w w.
Proof. intros H. split; [done|]. intros a r Hr. exists r. split; [done|apply extends_refl]. Qed.

Lemma later_trans w1 w2 w3 : later w1 w2 → later w2 w3 → later w1 w3.
Proof.
  intros [_ H12] [H3 H23]. split; [done|]. intros a r Hr.
  destruct (H12 a r Hr) as (r2 & Hr2 & He2).
  destruct (H23 a r2 Hr2) as (r3 & Hr3 & He3).
  exists r3. split; [done|by apply (extends_trans r r2)].
Qed.

(** Steps that leave the store alone. *)
Lemma later_same w w1 w2 :
  active w2 = active w1 → records w2 = records w1 → next_record w2 = next_record w1 →
  later w w1 → later w w2.
Proof.
  intros Ha Hr Hn [[Hb Hal] Hg]. split; [split|].
  - intros n a. rewrite Ha, Hr. apply Hb.
  - intros a. rewrite Hr, Hn. apply Hal.
  - intros a r H. rewrite Hr. by apply Hg.
Qed.

Lemma later_log_msg w w1 lvl msg : later w w1 → later w (log_msg lvl msg w1).
Proof. by apply later_same. Qed.

Lemma later_with_sandboxes w w1 sb : later w w1 → later w (with_sandboxes sb w1).
Proof. by apply later_same. Qed.

Lemma later_with_dry_run w w1 b : later w w1 → later w (with_dry_run b w1).
Proof. by apply later_same. Qed.

Lemma later_save_history w w1 r env : later w w1 → later w (_save_package_history r env w1).
Proof.
  unfold _save_package_history. destruct (he_error env) as [[e|e]|]; by apply later_same.
Qed.

Lemma later_update_graph w w1 r o : later w w1 → later w (_update_dependency_graph r o w1).
Proof. destruct o; by apply later_same. Qed.

(** A write through a reference to a live record. *)
Lemma later_store w w1 a r r' :
  later w w1 → records w1 !! a = Some r → extends r r' → later w (store a r' w1).
Proof.
  intros [[Hb Hal] Hg] Hr He. split; [split|].
  - intros n a' Hn. rewrite records_store. apply lookup_insert_is_Some'.
    right. by apply (Hb n).
  - intros a'. rewrite records_store.
    intros [Ha'|Ha']%lookup_insert_is_Some'; [subst a'|]; apply Hal; [by eexists|done].
  - intros a' r0 H0. destruct (Hg a' r0 H0) as (r1 & Hr1 & He1).
    rewrite records_store. destruct (decide (a = a')) as [->|Hne].
    + rewrite lookup_insert_eq. exists r'. split; [done|].
      apply (extends_trans r0 r); [|done]. by simplify_eq.
    + rewrite lookup_insert_ne; [|done]. by exists r1.
Qed.

(** [del self.active_packages[n]] *)
Lemma later_unbind w w1 n : later w w1 → later w (set_active (delete n (active w1)) w1).
Proof.
  intros [[Hb Hal] Hg]. split; [split|]; [|done..].
  intros m a. rewrite active_set_active. intros [_ H]%lookup_delete_Some. by apply (Hb m).
Qed.

(** A new record object, bound to [n]. *)
Lemma later_alloc_bind w w1 n r :
  later w w1 →
  let w2 := (alloc_record r w1).2 in
  later w (set_active (<[n := next_record w1]> (active w2)) w2) ∧
  records (set_active (<[n := next_record w1]> (active w2)) w2) !! next_record w1 = Some r.
Proof.
  intros [[Hb Hal] Hg]. cbn zeta. split; [split; [split|]|].
  - intros m a. rewrite active_set_active. cbn [alloc_record snd].
    rewrite records_set_active, records_with_records.
    intros H. apply lookup_insert_is_Some'.
    destruct (decide (n = m)) as [->|Hne].
    + rewrite lookup_insert_eq in H. left. congruence.
    + rewrite lookup_insert_ne in H; [|done]. right. by apply (Hb m).
  - intros a. cbn [alloc_record snd]. rewrite records_set_active, records_with_records.
    change (next_record (set_active _ _)) with (S (next_record w1)).
    intros [<-|Ha]%lookup_insert_is_Some'; [lia|].
    specialize (Hal a Ha). lia.
  - intros a r0 H0. destruct (Hg a r0 H0) as (r1 & Hr1 & He1).
    exists r1. split; [|done]. cbn. rewrite lookup_insert_ne; [done|].
    intros <-. assert (next_record w1 < next_record w1); [|lia].
    apply Hal. by eexists.
  - cbn. apply lookup_insert_eq.
Qed.

Lemma ingest_later pkg ver script env w :
  store_inv w → later w (ingest pkg ver script env w).2.
Proof.
  intros Hw. unfold ingest.
  set (r0 := mkMeta pkg ver INGESTING (ie_now env) None None (ie_uuid env) script
                    [] [] [] ∅ [INGESTING]).
  set (w0 := log_msg INFO _ w).
  destruct (later_alloc_bind w w0 pkg r0) as [H1 Hr0];
    [by apply later_log_msg, later_refl|].
  change (let '(a, w1) := alloc_record r0 w0 in _)
    with (let a := next_record w0 in let w1 := (alloc_record r0 w0).2 in
          let w2 := set_active (<[pkg := a]> (active w1)) w1 in
          match ie_mkdir env with
          | Some e =>
            (a, log_msg ERROR ("❌ INGEST: Error ingesting " ++ pkg ++ ": " ++ e)
                  (store a (add_error ("Ingestion error: " ++ e) (set_status FAILED r0)) w2))
          | None =>
            let w3 := with_sandboxes ({[ sandbox_id r0 ]} ∪ sandboxes w2) w2 in
            let '(success, r1) :=
              match container_engine w3 with
              | Some _ => _create_container_sandbox (ie_container env) r0
              | None => _create_venv_sandbox (win32 w3) (sandbox_dir w3 ++ "/" ++ sandbox_id r0)
                          (ie_venv env) r0
              end in
            if success
            then (a, log_msg INFO ("✅ INGEST: Successfully ingested " ++ pkg)
                       (store a (set_status TESTING r1) w3))
            else (a, log_msg ERROR ("❌ INGEST: Failed to ingest " ++ pkg)
                       (store a (add_error "Failed to create sandbox environment"
                                   (set_status FAILED r1)) w3))
          end).
  cbn zeta.
  set (w2 := set_active _ (alloc_record r0 w0).2) in *.
  destruct (ie_mkdir env) as [e|]; cbn [snd].
  - apply later_log_msg, (later_store _ _ _ r0); [done..|].
    apply (extends_trans _ (set_status FAILED r0)); [apply extends_set_status|].
    apply extends_add_error.
  - set (w3 := with_sandboxes _ w2).
    assert (∃ ok r1, (match container_engine w3 with
                      | Some _ => _create_container_sandbox (ie_container env) r0
                      | None => _create_venv_sandbox (win32 w3)
                                  (sandbox_dir w3 ++ "/" ++ sandbox_id r0) (ie_venv env) r0
                      end) = (ok, r1) ∧ extends r0 r1) as (ok & r1 & -> & He).
    { destruct (container_engine w3); eexists _, _;
        (split; [apply surjective_pairing|]);
        [apply extends_create_container|apply extends_create_venv]. }
    destruct ok; cbn [snd];
      apply later_log_msg, (later_store _ _ _ r0); try done;
      try (by apply later_with_sandboxes).
    + apply (extends_trans _ r1); [done|apply extends_set_status].
    + apply (extends_trans _ r1); [done|].
      apply (extends_trans _ (set_status FAILED r1)); [apply extends_set_status|].
      apply extends_add_error.
Qed.

Lemma test_collaborate_later pkg env w :
  store_inv w → later w (test_collaborate pkg env w).2.
Proof.
  intros Hw. unfold test_collaborate.
  destruct (lookup_active pkg w) as [[a r]|] eqn:Hl; [|by apply later_log_msg, later_refl].
  apply lookup_active_Some in Hl as [_ Hr].
  set (r1 := set_test_time (te_now env) (set_status COLLABORATING r)).
  assert (extends r r1) as H1 by (unfold r1; extends_step).
  set (w1 := log_msg INFO _ w).
  assert (∃ ok r2, (match container_engine w1 with
                    | Some _ => _test_in_container env r1
                    | None => _test_in_venv env r1
                    end) = (ok, r2) ∧ extends r1 r2) as (ok & r2 & -> & H2).
  { destruct (container_engine w1); eexists _, _;
      (split; [apply surjective_pairing|]);
      [apply extends_run_validation_command|apply extends_test_in_venv]. }
  destruct ok; cbn [snd];
    apply later_log_msg, (later_store _ _ _ r); try done;
    try (by apply later_log_msg, later_refl).
  - apply (extends_trans _ r1); [done|]. apply (extends_trans _ r2); [done|].
    apply (extends_trans _ (set_status APPROVED r2)); [apply extends_set_status|].
    apply extends_add_success.
  - apply (extends_trans _ r1); [done|]. apply (extends_trans _ r2); [done|].
    apply extends_set_status.
Qed.

Lemma kill_destroy_later pkg env w :
  store_inv w → later w (kill_destroy pkg env w).2.
Proof.
  intros Hw.
  destruct (lookup_active pkg w) as [[a r]|] eqn:Hl.
  2:{ rewrite (kill_destroy_absent _ _ _ Hl). by apply later_log_msg, later_refl. }
  rewrite (kill_destroy_active _ _ _ _ _ Hl).
  apply lookup_active_Some in Hl as [_ Hr].
  destruct (removal env r w); cbn [snd].
  - by do 2 apply later_log_msg; apply later_refl.
  - apply later_log_msg, later_unbind, later_save_history, (later_store _ _ _ r); [|done|].
    + by apply later_with_sandboxes, later_log_msg, later_refl.
    + apply (extends_trans _ (set_status DESTROYED r)); [apply extends_set_status|].
      apply extends_add_success.
Qed.

Lemma attempt_install_later env r w w0 :
  later w0 w → later w0 (attempt_install env r w).2.
Proof.
  intros Hw. destruct (attempt_install_frame env r w) as (Ha & Hr & _).
  revert Hw. apply later_same; [done..|].
  unfold attempt_install. destruct (dry_run w); [done|].
  destruct (find_snakepit _ _) as [e|[bin|]]; [done|..];
    (destruct (co_install env) as [rc ? ?| | |]; try done;
     by destruct (decide (rc = 0%Z))).
Qed.

Lemma conscript_install_later pkg env w :
  store_inv w → later w (conscript_install pkg env w).2.
Proof.
  intros Hw. unfold conscript_install.
  destruct (lookup_active pkg w) as [[a r]|] eqn:Hl; [|by apply later_log_msg, later_refl].
  apply lookup_active_Some in Hl as [_ Hr].
  destruct (decide (status r ≠ APPROVED)); [by apply later_log_msg, later_refl|].
  set (r1 := set_install_time (co_now env) r).
  assert (extends r r1) as H1 by (unfold r1; extends_step).
  set (w1 := log_msg INFO _ w).
  pose proof (extends_attempt_install env r1 w1) as H2.
  pose proof (attempt_install_later env r1 w1 w (later_log_msg _ _ _ _ (later_refl w Hw)))
    as Hw2.
  pose proof (attempt_install_frame env r1 w1) as (_ & Hrec & _).
  destruct (attempt_install env r1 w1) as [[attempt r2] w2]. cbn [fst snd] in H2, Hw2, Hrec.
  assert (records w2 !! a = Some r) as Hr2 by by rewrite Hrec.
  assert (extends r r2) as H12 by by apply (extends_trans _ r1).
  destruct attempt as [e|[|]]; cbn [snd].
  - apply later_log_msg, (later_store _ _ _ r); [done..|].
    apply (extends_trans _ r2); [done|].
    apply (extends_trans _ (set_status FAILED r2)); [apply extends_set_status|].
    apply extends_add_error.
  - set (w3 := log_msg INFO _ (_update_dependency_graph _ _ _)).
    assert (later w w3) as Hw3.
    { apply later_log_msg, later_update_graph, (later_store _ _ _ r); [done..|].
      apply (extends_trans _ r2); [done|].
      apply (extends_trans _ (set_status CONSCRIPTED r2)); [apply extends_set_status|].
      apply extends_add_success. }
    pose proof (kill_destroy_later pkg (co_kill env) w3 (proj1 Hw3)) as Hk.
    destruct (kill_destroy pkg (co_kill env) w3) as [b w4]. cbn [snd] in *.
    by apply (later_trans _ w3).
  - apply later_log_msg, (later_store _ _ _ r); [done..|].
    apply (extends_trans _ r2); [done|]. apply extends_set_status.
Qed.

Lemma exec_call_later c w : store_inv w → later w (exec_call c w).2.
Proof.
  intros Hw. destruct c as [n v sc env|n env|n env|n env|n|b]; unfold exec_call.
  - pose proof (ingest_later n v sc env w Hw). by destruct (ingest _ _ _ _ _).
  - pose proof (test_collaborate_later n env w Hw). by destruct (test_collaborate _ _ _).
  - pose proof (kill_destroy_later n env w Hw). by destruct (kill_destroy _ _ _).
  - pose proof (conscript_install_later n env w Hw). by destruct (conscript_install _ _ _).
  - by apply later_refl.
  - by apply later_with_dry_run, later_refl.
Qed.

Lemma exec_calls_later cs w : store_inv w → later w (exec_calls cs w).2.
Proof.
  revert w. induction cs as [|c cs IH]; intros w Hw; [by apply later_refl|].
  cbn [exec_calls].
  pose proof (exec_call_later c w Hw) as H1.
  destruct (exec_call c w) as [r w1]. cbn [snd] in H1.
  pose proof (IH w1 (proj1 H1)) as H2.
  destruct (exec_calls cs w1) as [rs w2]. cbn [snd] in *.
  by apply (later_trans _ w1).
Qed.

Lemma new_handler_store_inv dir eng dry is_win32 hist :
  store_inv (new_handler dir eng dry is_win32 hist).
Proof.
  assert (active (new_handler dir eng dry is_win32 hist) = ∅) as Ha.
  { unfold active, new_handler. cbn [dicts active_packages].
    by rewrite lookup_singleton_eq. }
  split.
  - intros n a. rewrite Ha, lookup_empty. done.
  - intros a [r H]. cbn [records new_handler] in H. by rewrite lookup_empty in H.
Qed.

(** X12.  Record objects only move forward.  From a fresh handler, take
    any sequence of calls, then any further sequence.  Every record object
    that exists after the first still exists after the second, with the
    same name, version, sandbox id and ingest time, and with an error log,
    a success log and a status history that extend the earlier ones; and
    every bound name still refers to a record object.  So no call removes
    or rewrites a log line or a past status. *)
Theorem records_only_move_forward dir eng dry is_win32 hist cs1 cs2 :
  let w1 := (exec_calls cs1 (new_handler dir eng dry is_win32 hist)).2 in
  let w2 := (exec_calls cs2 w1).2 in
  store_inv w2 ∧
  ∀ a r1, records w1 !! a = Some r1 →
          ∃ r2, records w2 !! a = Some r2 ∧ extends r1 r2.
Proof.
  cbn zeta.
  pose proof (exec_calls_later cs1 _ (new_handler_store_inv dir eng dry is_win32 hist))
    as [H1 _].
  destruct (exec_calls_later cs2 _ H1) as [H2 Hg]. split; [done|]. apply Hg.
Qed.

(** ** Shutdown *)




(** ** The history file over time *)

Lemma save_history_all_destroyed r env w :
  status r = DESTROYED →
  all_destroyed (history_file w) →
  all_destroyed (history_file (_save_package_history r env w)).
Proof.
  intros Hs Hh. unfold _save_package_history.
  destruct (he_error env) as [[e|e]|]; [done|by intros x Hx%elem_of_nil|].
  cbn [history_file with_history].
  assert (∀ e, e ∈ (default [] (history_file w) ++ [history_entry r])%list →
               h_status e = "destroyed") as Hall.
  { intros e [He|He%list_elem_of_singleton]%elem_of_app; [by apply Hh|].
    subst e. cbn. by rewrite Hs. }
  destruct (decide _); [|done].
  intros e He. apply Hall. eapply subseteq_drop. exact He.
Qed.

Lemma kill_destroy_all_destroyed pkg env w :
  all_destroyed (history_file w) → all_destroyed (history_file (kill_destroy pkg env w).2).
Proof.
  intros Hh. destruct (lookup_active pkg w) as [[a r]|] eqn:Hl.
  - rewrite (kill_destroy_active _ _ _ _ _ Hl). destruct (removal env r w); [done|].
    cbn [snd]. by apply save_history_all_destroyed.
  - by rewrite (kill_destroy_absent _ _ _ Hl).
Qed.

Lemma exec_call_all_destroyed c w :
  all_destroyed (history_file w) → all_destroyed (history_file (exec_call c w).2).
Proof.
  intros Hh. destruct c as [n v sc env|n env|n env|n env|n|b]; unfold exec_call.
  - destruct (ingest_config n v sc env w) as (_ & _ & H).
    destruct (ingest _ _ _ _ _). cbn [snd] in *. by rewrite H.
  - destruct (test_collaborate_frame n env w) as (_ & H & _).
    destruct (test_collaborate _ _ _). cbn [snd] in *. by rewrite H.
  - pose proof (kill_destroy_all_destroyed n env w Hh). by destruct (kill_destroy _ _ _).
  - unfold conscript_install.
    destruct (lookup_active n w) as [[a r]|]; [|done].
    destruct (decide (status r ≠ APPROVED)); [done|].
    pose proof (attempt_install_frame env (set_install_time (co_now env) r)
                  (log_msg INFO ("⚔️ CONSCRIPT: Installing " ++ n) w)) as (_ & _ & _ & H & _).
    destruct (attempt_install _ _ _) as [[[e|[|]] r2] w2]; cbn [snd] in *.
    + change (all_destroyed (history_file w2)). by rewrite H.
    + set (w3 := log_msg INFO _ (_update_dependency_graph _ _ _)).
      assert (all_destroyed (history_file w3)) as H3.
      { unfold w3. destruct (co_toml env); cbn; by rewrite H. }
      pose proof (kill_destroy_all_destroyed n (co_kill env) w3 H3).
      by destruct (kill_destroy _ _ _).
    + change (all_destroyed (history_file w2)). by rewrite H.
  - done.
  - done.
Qed.

Lemma exec_calls_all_destroyed cs w :
  all_destroyed (history_file w) → all_destroyed (history_file (exec_calls cs w).2).
Proof.
  revert w. induction cs as [|c cs IH]; intros w Hw; [done|]. cbn [exec_calls].
  pose proof (exec_call_all_destroyed c w Hw) as H1.
  destruct (exec_call c w) as [r w1]. cbn [snd] in H1.
  specialize (IH w1 H1). by destruct (exec_calls cs w1).
Qed.

End HandlerMore.

(* ===================================================================== *)
(** * Callers of the lifecycle controller                                 *)
(* ===================================================================== *)

Module CallersSpec.
Import Handler HandlerSpec HandlerMore Callers.

(** ** [validate_only] *)

(** X14.  [validate_only] puts the dry-run setting back on every path.
    When the sandbox was created it reports the outcome of the test run
    and destroys the sandbox; its answer is built from the shared record
    after the destroy, so (unless the directory removal raised) the last
    of the returned warnings is the destroy line and the name is unbound.
    When the sandbox was not created it returns the error log without
    cleaning up: the record stays bound in state FAILED, and the sandbox
    directory, if it was made, stays. *)
Theorem validate_only_outcome pkg ver ie te ke w :
  let res := validate_only pkg ver ie te ke w in
  dry_run res.2 = dry_run w ∧
  if sandbox_created ie w then
    ∃ vr errs warns,
      res.1 = Validated (run_passes te) pkg ver vr errs warns ∧
      (ke_rmtree ke = None →
       active res.2 !! pkg = None ∧ last warns = Some "Package sandbox destroyed")
  else
    ∃ r, res.1 = IngestFailed (error_log r) ∧
         lookup_active pkg res.2 = Some (next_record w, r) ∧ status r = FAILED ∧
         (ie_mkdir ie = None → ie_uuid ie ∈ sandboxes res.2).
Proof.
  cbn zeta. unfold validate_only. set (w0 := with_dry_run true w).
  change (sandbox_created ie w) with (sandbox_created ie w0).
  destruct (ingest_config pkg ver None ie w0) as (He1 & _).
  destruct (ingest_spec pkg ver None ie w0) as (r & Hl & Hs & _ & Hid & Hv).
  destruct (ingest_frame pkg ver None ie w0) as (Haddr & _ & _ & _ & Hsb).
  destruct (ingest pkg ver None ie w0) as [a w1]. cbn [fst snd] in *.
  change (next_record w0) with (next_record w) in Haddr. subst a.
  pose proof Hl as [Ha Hr]%lookup_active_Some.
  assert (deref (next_record w) w1 = r) as Hd by (unfold deref; by rewrite Hr).
  rewrite !Hd.
  destruct (sandbox_created ie w0) eqn:Hc; rewrite Hs.
  - destruct (decide (TESTING = FAILED)); [done|].
    destruct (test_collaborate_spec pkg te w1 _ r Hl) as (Hres & r' & Hl' & _).
    assert (can_start_test (container_engine w1) r = true) as Hcan.
    { unfold can_start_test. rewrite He1. destruct (container_engine w0); [done|].
      by destruct (Hv eq_refl) as [[? ->] [? ->]]. }
    rewrite Hcan in Hres. cbn [andb] in Hres.
    destruct (test_collaborate pkg te w1) as [passed w2]. cbn [fst snd] in *. subst passed.
    rewrite (kill_destroy_active _ _ _ _ _ Hl').
    destruct (removal ke r' w2) as [e|] eqn:Hrm; cbn [fst snd].
    + split; [reflexivity|]. eexists _, _, _. split; [reflexivity|].
      intros He. unfold removal in Hrm. rewrite He in Hrm. by destruct (decide _).
    + split; [reflexivity|]. eexists _, _, _. split; [reflexivity|]. intros _. split.
      * match goal with
        | |- active (with_dry_run ?b ?x) !! _ = _ => change (active x !! pkg = None)
        end.
        autorewrite with world. apply lookup_delete_eq.
      * unfold deref.
        match goal with
        | |- context [records ?x !! ?a] =>
          assert (records x !! a = Some (destroyed r')) as ->
        end.
        { autorewrite with world. apply lookup_insert_eq. }
        cbn. apply last_snoc.
  - destruct (decide (FAILED = FAILED)); [|done]. cbn [fst snd].
    split; [reflexivity|]. exists r. split; [reflexivity|]. split; [exact Hl|].
    split; [done|]. intros Hmk. rewrite Hmk in Hsb.
    change (ie_uuid ie ∈ sandboxes w1). rewrite Hsb.
    apply elem_of_union. left. by apply elem_of_singleton.
Qed.


(** ** [handle_package_smart] *)

(** X15.  [handle_package_smart] drives the handler through the same
    steps as [handle_package]: when registering the dependency does not
    raise, both return the same value and leave the same handler, apart
    from the opening log line of [handle_package].  When the registration
    raises after a successful install, the call returns false although the
    package has been installed: its record went through CONSCRIPTED. *)
Theorem handle_package_smart_steps pkg ver script ie te ke ce w :
  handle_package pkg ver script ie te ke ce w
  = handle_package_smart pkg ver script ie te ke ce None
      (log_msg INFO ("🐍 Starting Smart Snakepit handling for " ++ pkg) w) ∧
  (∀ e, sandbox_created ie w && run_passes te && install_succeeds ce w = true →
        let res := handle_package_smart pkg ver script ie te ke ce (Some e) w in
        res.1 = false ∧
        ∃ r, records res.2 !! next_record w = Some r ∧ CONSCRIPTED ∈ status_trace r).
Proof.
  split.
  - unfold handle_package, handle_package_smart.
    set (w0 := log_msg INFO _ w).
    destruct (ingest_spec pkg ver script ie w0) as (r & [_ Hr]%lookup_active_Some & _).
    destruct (ingest pkg ver script ie w0) as [a w1]. cbn [fst snd] in Hr.
    assert (deref a w1 = r) as -> by (unfold deref; by rewrite Hr).
    rewrite Hr. cbn [fmap option_fmap option_map].
    destruct (decide (Some (status r) = Some FAILED)) as [[= H]|H],
             (decide (status r = FAILED)) as [H'|H']; try (exfalso; congruence); [done|].
    destruct (test_collaborate pkg te w1) as [[|] w2]; cbn [negb]; [|done].
    by destruct (conscript_install pkg ce w2) as [[|] w3].
  - intros e [[Hc Hp]%andb_true_iff Hi]%andb_true_iff. cbn zeta.
    unfold handle_package_smart.
    destruct (ingest_config pkg ver script ie w) as (He1 & Hd1 & _).
    destruct (ingest_spec pkg ver script ie w) as (r & Hl & Hs & _ & _ & Hv).
    destruct (ingest_frame pkg ver script ie w) as (Haddr & _).
    rewrite Hc in Hs, Hv.
    destruct (ingest pkg ver script ie w) as [a w1]. cbn [fst snd] in *. subst a.
    pose proof Hl as [_ Hr]%lookup_active_Some.
    assert (deref (next_record w) w1 = r) as -> by (unfold deref; by rewrite Hr).
    rewrite Hs.
    destruct (decide (TESTING = FAILED)); [done|].
    destruct (test_collaborate_frame pkg te w1) as (_ & _ & Hd2 & _).
    destruct (test_collaborate_spec pkg te w1 _ r Hl) as (Hres & r' & Hl' & Hs' & _).
    assert (can_start_test (container_engine w1) r = true) as Hcan.
    { unfold can_start_test. rewrite He1. destruct (container_engine w); [done|].
      by destruct (Hv eq_refl) as [[? ->] [? ->]]. }
    rewrite Hcan, Hp in Hres. cbn [andb] in Hres.
    destruct (test_collaborate pkg te w1) as [passed w2]. cbn [fst snd] in *. subst passed.
    cbn [negb]. cbv beta iota in Hs'.
    assert (install_succeeds ce w2 = true) as Hi2.
    { unfold install_succeeds in *. by rewrite Hd2, Hd1. }
    destruct (conscript_install_success_state pkg ce w2 _ r' Hl' Hs' Hi2) as (Hv1 & Hst).
    destruct (conscript_install pkg ce w2) as [ok w3]. cbn [fst snd] in *. subst ok.
    assert (CONSCRIPTED ∈ status_trace (conscripted (co_now ce) r')) as Hin.
    { cbn. apply elem_of_app. right. by left. }
    assert (CONSCRIPTED ∈ status_trace (destroyed (conscripted (co_now ce) r'))) as Hin'.
    { cbn. apply elem_of_app. left. exact Hin. }
    destruct Hst as [(Hr3 & Hu & _)|(Hl3 & _)].
    + rewrite (kill_destroy_absent pkg ke w3 (lookup_active_absent _ _ Hu)). cbn [fst snd].
      split; [done|]. eexists. split; [exact Hr3|exact Hin'].
    + rewrite (kill_destroy_active _ _ _ _ _ Hl3).
      apply lookup_active_Some in Hl3 as [_ Hr3].
      destruct (removal ke _ w3); cbn [fst snd]; (split; [done|]).
      * eexists. split; [exact Hr3|exact Hin].
      * eexists. autorewrite with world. split; [apply lookup_insert_eq|].
        cbn. apply elem_of_app. left. exact Hin.
Qed.

(** ** [cmd_history] *)

Lemma filter_sublist {A} (f : A → bool) (l : list A) : List.filter f l `sublist_of` l.
Proof. induction l as [|x l IH]; cbn; [done|]. destruct (f x); by constructor. Qed.

Lemma elem_of_filter_eqb (key : HistoryEntry → string) (s : string) l h :
  h ∈ List.filter (λ h, String.eqb (key h) s) l ↔ h ∈ l ∧ key h = s.
Proof. by rewrite list_elem_of_In, filter_In, <- list_elem_of_In, String.eqb_eq. Qed.

(** X16.  The selection of [cmd_history].  Without a limit it shows
    exactly the loaded entries that match the given filters (an empty
    filter argument counts as not given), in file order.  With a positive
    limit it shows the last [limit] of those, or all when there are fewer.
    With a negative limit [-k] it shows all but the first [k] (the slice
    [l[k:]]). *)
Theorem cmd_history_select_spec package status limit history :
  let matching := cmd_history_select package status 0 history in
  let shown := cmd_history_select package status limit history in
  matching `sublist_of` history ∧
  (∀ h, h ∈ matching ↔
        h ∈ history ∧ (∀ p, given package = Some p → h_name h = p) ∧
        (∀ st, given status = Some st → h_status h = st)) ∧
  shown `suffix_of` matching ∧
  length shown =
    (if decide (0 < limit)%Z then Z.to_nat limit `min` length matching
     else length matching - Z.to_nat (- limit)).
Proof.
  cbn zeta. unfold cmd_history_select.
  destruct (decide (0 = 0)%Z) as [_|]; [|done].
  set (m := match given status with
            | Some st => List.filter _ _
            | None => _
            end).
  split; [|split; [|split]].
  - unfold m. destruct (given package), (given status);
      repeat (etrans; [apply filter_sublist|]); done.
  - intros h. unfold m. destruct (given package) as [p|], (given status) as [st|];
      rewrite ?elem_of_filter_eqb; split.
    + intros [[? ?] ?]. split; [done|]. split; intros ? [= <-]; done.
    + intros (? & Hp & Hst). split; [split; [done|]|]; [by apply Hp|by apply Hst].
    + intros [? Hp]. split; [done|]. split; [by intros ? [= <-]|done].
    + intros (? & Hp & _). split; [done|by apply Hp].
    + intros [? Hst]. split; [done|]. split; [done|by intros ? [= <-]].
    + intros (? & _ & Hst). split; [done|by apply Hst].
    + intros ?. split; done.
    + by intros (? & _).
  - destruct (decide (limit = 0%Z)); [done|]. unfold slice_from_minus.
    destruct (decide (0 < limit)%Z); apply suffix_drop.
  - destruct (decide (limit = 0%Z)) as [->|Hne].
    + destruct (decide (0 < 0)%Z); [lia|]. cbn. lia.
    + unfold slice_from_minus. destruct (decide (0 < limit)%Z); rewrite length_drop; lia.
Qed.

(** X17.  Every entry of the history file has the status "destroyed":
    when that holds of the file a handler starts with (or there is none),
    it holds after any sequence of calls, since an entry is only written by
    [kill_destroy], after it has set the status.  So [cmd_history] with a
    status filter other than "destroyed" shows nothing. *)
Theorem history_shows_only_destroyed dir eng dry is_win32 hist cs package st limit :
  all_destroyed hist →
  let w := (exec_calls cs (new_handler dir eng dry is_win32 hist)).2 in
  let history := default [] (history_file w) in
  (∀ e, e ∈ history → h_status e = "destroyed") ∧
  (st ≠ "" → st ≠ "destroyed" →
   cmd_history_select package (Some st) limit history = []).
Proof.
  intros Hh. cbn zeta.
  pose proof (exec_calls_all_destroyed cs (new_handler dir eng dry is_win32 hist) Hh) as Hall.
  split; [exact Hall|]. intros Hne Hst.
  set (history := default [] (history_file _)) in *.
  assert (∀ l, (∀ e, e ∈ l → h_status e = "destroyed") →
               List.filter (λ h, String.eqb (h_status h) st) l = []) as Hnone.
  { intros l Hl. induction l as [|x l IH]; [done|]. cbn.
    rewrite (Hl x); [|by left].
    destruct (String.eqb_spec "destroyed" st) as [<-|_]; [done|].
    apply IH. intros e He. apply Hl. by right. }
  assert (cmd_history_select package (Some st) 0 history = []) as H0.
  { unfold cmd_history_select. destruct st; [done|]. cbn [given].
    destruct (decide (0 = 0)%Z); [|done]. apply Hnone.
    destruct (given package); [|exact Hall].
    intros x [Hx _]%elem_of_filter_eqb. by apply Hall. }
  unfold cmd_history_select in *. destruct (decide (0 = 0)%Z); [|done].
  rewrite H0. destruct (decide (limit = 0%Z)); [done|].
  unfold slice_from_minus. destruct (decide (0 < limit)%Z); apply drop_nil.
Qed.

Lemma history_shows_only_destroyed_witness :
  all_destroyed None ∧
  let w := (exec_calls Sample.scenario_b Sample.venv_handler).2 in
  let history := default [] (history_file w) in
  length history = 1 ∧
  (∀ e, e ∈ history → h_status e = "destroyed") ∧
  ("conscripted" ≠ "" → "conscripted" ≠ "destroyed" →
   cmd_history_select None (Some "conscripted") 10 history = []).
Proof.
  assert (all_destroyed None) as H by (intros e He; by apply elem_of_nil in He).
  split; [exact H|]. split; [vm_compute; reflexivity|].
  exact (history_shows_only_destroyed "/tmp/snakepit-sandbox" None true false None
           Sample.scenario_b None "conscripted" 10 H).
Defined.

End CallersSpec.

(* ===================================================================== *)
(** * Further properties of the validation framework                      *)
(* ===================================================================== *)

Module ValidationMore.
Import Validation ValidationSpec.

(** ** The generated driver, test by test *)





(** ** Missing templates *)

Lemma templates_loaded_register customs fw :
  templates_loaded fw → templates_loaded (register_all customs fw).
Proof.
  revert fw. induction customs as [|[n f] customs IH]; intros fw H; [done|].
  apply IH. intros k Hk. cbn. apply lookup_insert_is_Some'. right. by apply H.
Qed.

(** X20.  [generate_test_script] raises (a [KeyError]) exactly when a
    template it subscripts is missing: the basic one at BASIC and STANDARD,
    the web or data one at STANDARD and COMPREHENSIVE for a package of that
    type, the security one at SECURITY and COMPREHENSIVE.  At PERFORMANCE
    it subscripts none.  [create_custom_test] only adds or replaces
    templates, so on a framework whose four templates are loaded it never
    raises, whatever was registered since. *)
Theorem generate_test_script_raises_iff fw pkg level custom :
  (generate_test_script fw pkg level custom = None ↔
   (level_in level [BASIC; STANDARD] = true ∧ test_templates fw !! "basic" = None) ∨
   (level_in level [STANDARD; COMPREHENSIVE] = true ∧
    _detect_package_type pkg = "web" ∧ test_templates fw !! "web" = None) ∨
   (level_in level [STANDARD; COMPREHENSIVE] = true ∧
    _detect_package_type pkg = "data" ∧ test_templates fw !! "data" = None) ∨
   (level_in level [SECURITY; COMPREHENSIVE] = true ∧
    test_templates fw !! "security" = None)) ∧
  (templates_loaded fw →
   ∀ customs, is_Some (generate_test_script (register_all customs fw) pkg level custom)).
Proof.
  assert (∀ fw,
    generate_test_script fw pkg level custom = None ↔
    (level_in level [BASIC; STANDARD] = true ∧ test_templates fw !! "basic" = None) ∨
    (level_in level [STANDARD; COMPREHENSIVE] = true ∧
     _detect_package_type pkg = "web" ∧ test_templates fw !! "web" = None) ∨
    (level_in level [STANDARD; COMPREHENSIVE] = true ∧
     _detect_package_type pkg = "data" ∧ test_templates fw !! "data" = None) ∨
    (level_in level [SECURITY; COMPREHENSIVE] = true ∧
     test_templates fw !! "security" = None)) as Hiff.
  { clear fw. intros fw. unfold generate_test_script.
    destruct (level_in level [BASIC; STANDARD]),
             (level_in level [STANDARD; COMPREHENSIVE]),
             (level_in level [SECURITY; COMPREHENSIVE]),
             (decide (_detect_package_type pkg = "web")) as [Hw|Hw],
             (decide (_detect_package_type pkg = "data")) as [Hd|Hd],
             (test_templates fw !! "basic"), (test_templates fw !! "web"),
             (test_templates fw !! "data"), (test_templates fw !! "security");
      cbn [mbind option_bind];
      (split;
       [intros H;
        first [discriminate H|left; done|right; left; done
              |right; right; left; done|right; right; right; done]
       |intros H;
        first [reflexivity
              |destruct H as [[? ?]|[(? & ? & ?)|[(? & ? & ?)|[? ?]]]]; congruence]]). }
  split; [apply Hiff|]. intros Hl customs.
  apply (templates_loaded_register customs) in Hl.
  destruct (generate_test_script _ pkg level custom) eqn:H; [by eexists|].
  apply Hiff in H. exfalso.
  assert (∀ k, k ∈ ["basic"; "web"; "data"; "security"] →
               test_templates (register_all customs fw) !! k ≠ None) as Hk.
  { intros k Hin Hnone. destruct (Hl k Hin) as [? ?]. congruence. }
  destruct H as [[_ H]|[(_ & _ & H)|[(_ & _ & H)|[_ H]]]];
    (eapply Hk; [|exact H]); rewrite !elem_of_cons; auto 10.
Qed.


(** ** The scan and the case of letters *)

Section scan_invariance.
Variable g : N → N.
Hypothesis g_atom : ∀ a c, atom_matches a (g c) = atom_matches a c.

Lemma match_here_map r s : match_here r (map g s) = match_here r s.
Proof.
  revert s. induction r as [|[a q] r IH]; intros s; [done|].
  assert (∀ s, (fix star (s : list N) : bool :=
                  match_here r s ||
                  match s with
                  | c :: s' => atom_matches a c && star s'
                  | [] => false
                  end) (map g s)
               = (fix star (s : list N) : bool :=
                    match_here r s ||
                    match s with
                    | c :: s' => atom_matches a c && star s'
                    | [] => false
                    end) s) as Hstar.
  { intros s0. induction s0 as [|c s0 IHs]; [reflexivity|].
    cbn. rewrite g_atom, IHs.
    change (g c :: map g s0) with (map g (c :: s0)). by rewrite IH. }
  destruct q; cbn [match_here].
  - destruct s as [|c s]; [done|]. cbn [map]. by rewrite g_atom, IH.
  - apply Hstar.
  - destruct s as [|c s]; [done|]. cbn [map]. by rewrite g_atom, Hstar.
Qed.

Lemma search_map r s : search r (map g s) = search r s.
Proof.
  induction s as [|c s IH]; [reflexivity|]. cbn [map search].
  change (g c :: map g s) with (map g (c :: s)). by rewrite match_here_map, IH.
Qed.

Lemma file_findings_map table f :
  file_findings table (map_content g f) = file_findings table f.
Proof.
  unfold file_findings, map_content. cbn [file_content file_name].
  destruct (file_content f) as [content|]; [|done]. cbn [fmap option_fmap option_map].
  induction table as [|[category pats] table IH]; [done|].
  cbn [flat_map]. rewrite IH. f_equal.
  induction pats as [|pattern pats IHp]; [done|].
  cbn [flat_map]. rewrite IHp. f_equal.
  unfold re_search. destruct (compile pattern); [|done]. by rewrite search_map.
Qed.

Lemma security_scan_map fw files :
  _security_scan fw (map (map_content g) files) = _security_scan fw files.
Proof.
  unfold _security_scan. f_equal.
  induction files as [|f files IH]; [done|].
  cbn [map flat_map]. by rewrite IH, file_findings_map.
Qed.
End scan_invariance.

Local Ltac decide_cmp :=
  repeat match goal with
         | |- context [(?a <=? ?b)%N] =>
           first [rewrite (proj2 (N.leb_le a b)) by lia
                 |rewrite (proj2 (N.leb_gt a b)) by lia]
         | |- context [(?a =? ?b)%N] =>
           first [rewrite (proj2 (N.eqb_neq a b)) by lia
                 |rewrite (proj2 (N.eqb_eq a b)) by lia]
         end.

(** A character that [g] moves is an ASCII letter, and so is its image,
    with the same lower-case form. *)
Lemma atom_matches_recase (g : N → N) a c :
  (g c = c ∨ (65 ≤ c ≤ 122 ∧ 65 ≤ g c ≤ 122 ∧ to_lower (g c) = to_lower c))%N →
  atom_matches a (g c) = atom_matches a c.
Proof.
  intros [->|(Hc & Hg & Hl)]; [done|].
  destruct a as [p|]; cbn [atom_matches].
  - unfold lit_matches. rewrite Hl.
    replace (g c =? 305)%N with false by (symmetry; apply N.eqb_neq; lia).
    replace (c =? 305)%N with false by (symmetry; apply N.eqb_neq; lia).
    replace (g c =? 383)%N with false by (symmetry; apply N.eqb_neq; lia).
    replace (c =? 383)%N with false by (symmetry; apply N.eqb_neq; lia).
    done.
  - transitivity false; [|symmetry]; unfold is_space; decide_cmp; reflexivity.
Qed.

Lemma atom_matches_upper a c : atom_matches a (ascii_upper c) = atom_matches a c.
Proof.
  apply atom_matches_recase. unfold ascii_upper.
  destruct ((97 <=? c) && (c <=? 122))%N eqn:Hc; [right|by left].
  apply andb_true_iff in Hc as [H1%N.leb_le H2%N.leb_le].
  split; [lia|]. split; [lia|]. unfold to_lower. decide_cmp. cbn [andb]. lia.
Qed.

Lemma atom_matches_lower a c : atom_matches a (ascii_lower c) = atom_matches a c.
Proof.
  apply atom_matches_recase. unfold ascii_lower.
  destruct ((65 <=? c) && (c <=? 90))%N eqn:Hc; [right|by left].
  apply andb_true_iff in Hc as [H1%N.leb_le H2%N.leb_le].
  split; [lia|]. split; [lia|]. unfold to_lower. decide_cmp. cbn [andb]. lia.
Qed.

(** X21.  The scan does not see the case of ASCII letters: every pattern
    is searched with [re.IGNORECASE], so a package whose sources are
    rewritten in upper case, or in lower case, gets the same findings, in
    the same order. *)
Theorem security_scan_ignores_case fw files :
  _security_scan fw (map (map_content ascii_upper) files) = _security_scan fw files ∧
  _security_scan fw (map (map_content ascii_lower) files) = _security_scan fw files.
Proof.
  split; apply security_scan_map; [apply atom_matches_upper|apply atom_matches_lower].
Qed.

(** ** The size of a report *)

Lemma file_findings_length table f :
  (length (file_findings table f) ≤ (if readable f then pattern_count table else 0))%nat.
Proof.
  unfold file_findings, readable, pattern_count.
  destruct (file_content f) as [content|]; [|done].
  rewrite bool_decide_eq_true_2; [|by eexists].
  induction table as [|[category pats] table IH]; [done|].
  cbn [flat_map snd]. rewrite !length_app.
  apply Nat.add_le_mono; [|exact IH]. clear IH.
  induction pats as [|pattern pats IHp]; [done|].
  cbn [flat_map]. rewrite length_app. cbn [length].
  destruct (re_search pattern content); cbn [length]; lia.
Qed.

(** X22.  A scan reports at most one finding per readable file and table
    entry, however often a pattern matches in the file; a file that cannot
    be read adds nothing.  The built-in table has 21 entries. *)
Theorem security_scan_bounded fw files :
  (length (_security_scan fw files)
   ≤ length (List.filter readable files) * pattern_count (security_patterns fw))%nat ∧
  pattern_count (security_patterns (new_framework (test_templates fw))) = 21.
Proof.
  split; [|reflexivity]. unfold _security_scan. rewrite length_map.
  induction files as [|f files IH]; [done|].
  cbn [flat_map List.filter]. rewrite length_app.
  pose proof (file_findings_length (security_patterns fw) f) as Hf.
  destruct (readable f); cbn [length]; lia.
Qed.

(** ** Error lines *)

Lemma lstrip_head s c rest : lstrip s = c :: rest → is_space c = false.
Proof.
  induction s as [|x s IH]; [done|]. cbn [lstrip].
  destruct (is_space x) eqn:Hx; [exact IH|]. by intros [= <- <-].
Qed.

Lemma lstrip_suffix s : lstrip s `suffix_of` s.
Proof.
  induction s as [|x s IH]; [done|]. cbn [lstrip].
  destruct (is_space x); [by apply suffix_cons_r|done].
Qed.

Lemma lstrip_id c rest : is_space c = false → lstrip (c :: rest) = c :: rest.
Proof. intros H. cbn [lstrip]. by rewrite H. Qed.

Lemma elem_of_lstrip x s : x ∈ lstrip s → x ∈ s.
Proof.
  intros H. destruct (lstrip_suffix s) as [k Hk]. rewrite Hk.
  apply elem_of_app. by right.
Qed.

Lemma elem_of_strip x s : x ∈ strip s → x ∈ s.
Proof.
  unfold strip, rstrip. rewrite list_elem_of_In, <- in_rev, <- list_elem_of_In.
  intros H%elem_of_lstrip. rewrite list_elem_of_In, <- in_rev, <- list_elem_of_In in H.
  by apply elem_of_lstrip.
Qed.

Lemma strip_last s front c : strip s = (front ++ [c])%list → is_space c = false.
Proof.
  unfold strip, rstrip. intros H.
  apply (f_equal (@rev N)) in H. rewrite rev_involutive, rev_app_distr in H.
  by apply lstrip_head in H.
Qed.

Lemma strip_head s c rest : strip s = c :: rest → is_space c = false.
Proof.
  unfold strip, rstrip. intros H.
  destruct (lstrip_suffix (rev (lstrip s))) as [k Hk].
  apply (f_equal (@rev N)) in Hk. rewrite rev_involutive, rev_app_distr, H in Hk.
  apply (lstrip_head s c (rest ++ rev k)). by rewrite Hk.
Qed.

Lemma strip_clean line : clean_line line → strip line = line.
Proof.
  intros (Hne & _ & Hhead & Hlast). unfold strip, rstrip.
  destruct line as [|c rest]; [done|].
  rewrite (lstrip_id c rest); [|by apply (Hhead c rest)].
  destruct (rev (c :: rest)) as [|d back] eqn:Hr.
  { apply (f_equal (@rev N)) in Hr. by rewrite rev_involutive in Hr. }
  rewrite (lstrip_id d back); [by rewrite <- Hr, rev_involutive|].
  apply (Hlast d (rev back)).
  apply (f_equal (@rev N)) in Hr. by rewrite rev_involutive in Hr.
Qed.

Lemma split_lines_cons s : ∃ line lines, split_lines s = line :: lines.
Proof.
  induction s as [|c s (line & lines & IH)]; [by eexists _, _|]. cbn [split_lines].
  destruct (c =? 10)%N; [by eexists _, _|]. rewrite IH. by eexists _, _.
Qed.

Lemma split_lines_no_newline s line : line ∈ split_lines s → 10%N ∉ line.
Proof.
  revert line. induction s as [|c s IH]; intros line; cbn [split_lines].
  { intros ->%list_elem_of_singleton. apply not_elem_of_nil. }
  destruct (N.eqb_spec c 10) as [->|Hc].
  - intros [->|H]%elem_of_cons; [apply not_elem_of_nil|by apply IH].
  - destruct (split_lines s) as [|l ls]; [intros ->%list_elem_of_singleton|].
    + intros [H|H]%elem_of_cons; [done|by apply elem_of_nil in H].
    + intros [->|H]%elem_of_cons.
      * intros [H|H]%elem_of_cons; [done|]. revert H. apply IH. by left.
      * apply IH. by right.
Qed.

Lemma split_lines_line line : 10%N ∉ line → split_lines line = [line].
Proof.
  induction line as [|c line IH]; [done|]. intros [Hc Hl]%not_elem_of_cons.
  cbn [split_lines]. destruct (N.eqb_spec c 10) as [->|_]; [done|]. by rewrite IH.
Qed.

Lemma split_lines_app line s :
  10%N ∉ line → split_lines (line ++ 10%N :: s) = line :: split_lines s.
Proof.
  induction line as [|c line IH]; [done|]. intros [Hc Hl]%not_elem_of_cons.
  cbn [app split_lines]. destruct (N.eqb_spec c 10) as [->|_]; [done|]. by rewrite IH.
Qed.

Lemma split_join_lines lines :
  lines ≠ [] → (∀ line, line ∈ lines → 10%N ∉ line) → split_lines (join_lines lines) = lines.
Proof.
  induction lines as [|line lines IH]; [done|]. intros _ Hall.
  destruct lines as [|next lines].
  - cbn [join_lines]. apply split_lines_line, Hall. by left.
  - change (join_lines (line :: next :: lines))
      with (line ++ 10%N :: join_lines (next :: lines))%list.
    rewrite split_lines_app; [|apply Hall; by left].
    rewrite IH; [done|done|]. intros l Hl. apply Hall. by right.
Qed.

(** The test [if error_output:] changes nothing: the loop finds no line in
    an empty text. *)
Lemma extract_errors_unfold s :
  _extract_errors_from_output s
  = flat_map (λ line, match strip line with
                      | [] => []
                      | stripped => [stripped]
                      end) (split_lines s).
Proof. by destruct s. Qed.

(** X23.  The error lines [_extract_errors_from_output] returns are clean:
    none is empty, none holds a newline, none starts or ends with
    whitespace.  And it gives back any list of clean lines from their
    joined text, so extracting is idempotent: joining its result with
    newlines and extracting again gives the same lines. *)
Theorem extract_errors_clean_lines s :
  let errors := _extract_errors_from_output s in
  (∀ line, line ∈ errors → clean_line line) ∧
  (∀ lines, (∀ line, line ∈ lines → clean_line line) →
            _extract_errors_from_output (join_lines lines) = lines) ∧
  _extract_errors_from_output (join_lines errors) = errors.
Proof.
  cbn zeta.
  assert (∀ line, line ∈ _extract_errors_from_output s → clean_line line) as Hclean.
  { intros line. rewrite extract_errors_unfold, list_elem_of_In, in_flat_map.
    intros (raw & Hraw%list_elem_of_In & Hin).
    assert (strip raw = line) as Hs.
    { destruct (strip raw) as [|c rest]; [done|]. by destruct Hin as [<-|[]]. }
    split; [|split; [|split]].
    - intros ->. rewrite Hs in Hin. done.
    - intros H10. apply (split_lines_no_newline s raw Hraw).
      apply elem_of_strip. by rewrite Hs.
    - intros c rest ->. by apply (strip_head raw c rest).
    - intros c front ->. by apply (strip_last raw front c). }
  assert (∀ lines, (∀ line, line ∈ lines → clean_line line) →
                   _extract_errors_from_output (join_lines lines) = lines) as Hback.
  { intros lines Hall. destruct lines as [|l0 ls]; [done|].
    rewrite extract_errors_unfold, split_join_lines; [|done|].
    2:{ intros line Hl. by destruct (Hall line Hl) as (_ & ? & _). }
    induction (l0 :: ls) as [|line rest IH]; [done|]. cbn [flat_map].
    rewrite IH; [|intros l Hl; apply Hall; by right].
    assert (clean_line line) as Hl by (apply Hall; by left).
    rewrite (strip_clean line Hl). destruct Hl as (Hne & _). by destruct line. }
  split; [exact Hclean|]. split; [exact Hback|]. by apply Hback.
Qed.

End ValidationMore.
